(** * Finance-copilot: the multi-source triangulation pipeline

    A shallow embedding of [src/data_pipeline]: the provider clients
    ([clients/fred.py], [clients/worldbank.py], [clients/oecd.py]), the
    HTTP wrapper ([http_client.py]), the mapping tables ([mappings.py]),
    the dataclasses ([config.py]) and the engine ([triangulation.py]).

    Conventions of the embedding.
    - In the clients, the orchestration of the engine, the formatter and
      the generator a Python [float] is idealised as an exact rational
      ([Q]); [==] on floats is [Qeq], and non-finite floats have no
      counterpart.
    - The arithmetic of the engine ([_values_agree],
      [_calculate_consensus], [_determine_confidence]) is embedded a
      second time on IEEE binary64 numbers, with the primitive floats as
      Python's (module [Binary64]); what is stated about agreement
      within a tolerance, about the consensus value and about NaN and
      infinities is stated there.
    - A value decoded from JSON is a [pyval]; the dynamically typed
      operations the clients apply to it ([in], subscripting, [.get],
      iteration, [float], [int]) are written out with the exception each
      raises on the wrong shape.
    - A [str] is a [string] whose characters have codes below 256.
    - Code that can raise lives in the error monad [py]; code that also
      talks to the network lives in [io], which threads the log of the
      requests handed to the HTTP session. *)

From Stdlib Require Import List String Ascii ZArith QArith Qabs Qround Bool.
From Stdlib Require Import Lia Lqa Permutation Sorted Arith PeanoNat.
From Stdlib Require Import DecimalString.
From Stdlib Require Import Floats.
Import ListNotations.

Set Warnings "-register-all".
Set Warnings "-inexact-float".

Local Open Scope string_scope.
Local Open Scope Q_scope.

(** ** Python exceptions and the error monad *)

Inductive exn : Type :=
| RequestException (msg : string)   (* requests.RequestException and subclasses *)
| TypeError
| KeyError
| IndexError
| ValueError
| AttributeError
| ZeroDivisionError
| OverflowError
| NonFinite.   (* not an exception: a float that is inf or nan; the
                  rational idealisation stops here *)

Inductive py (A : Type) : Type :=
| Ret (a : A)
| Raise (e : exn).
Arguments Ret {A} a.
Arguments Raise {A} e.

Definition py_bind {A B} (m : py A) (k : A -> py B) : py B :=
  match m with
  | Ret a => k a
  | Raise e => Raise e
  end.

Declare Scope py_scope.
Delimit Scope py_scope with py.
Notation "x <- m ;; k" := (py_bind m (fun x => k))
  (at level 61, m at next level, right associativity) : py_scope.

(** ** Values decoded from JSON *)

Inductive pyval : Type :=
| PNone
| PBool (b : bool)
| PNum (q : Q)                          (* int or float *)
| PStr (s : string)
| PList (l : list pyval)
| PDict (d : list (string * pyval)).    (* keys are distinct *)

Fixpoint dict_get {V} (k : string) (d : list (string * V)) : option V :=
  match d with
  | [] => None
  | (k', v) :: d' => if String.eqb k k' then Some v else dict_get k d'
  end.

Definition dict_keys {V} (d : list (string * V)) : list string := map fst d.

(** [bool] is a subclass of [int]: [True == 1]. *)
Definition num_of (v : pyval) : option Q :=
  match v with
  | PBool b => Some (if b then 1 else 0)
  | PNum q => Some q
  | _ => None
  end.

(** [bool(v)] *)
Definition truthy (v : pyval) : bool :=
  match v with
  | PNone => false
  | PBool b => b
  | PNum q => negb (Qeq_bool q 0)
  | PStr s => negb (String.eqb s "")
  | PList l => match l with [] => false | _ => true end
  | PDict d => match d with [] => false | _ => true end
  end.

(** [v == w] *)
Fixpoint py_eq (v w : pyval) {struct v} : bool :=
  match v, w with
  | PNone, PNone => true
  | PStr s, PStr t => String.eqb s t
  | PList l, PList m =>
      (fix eq_list (l m : list pyval) {struct l} : bool :=
         match l, m with
         | [], [] => true
         | x :: l', y :: m' => py_eq x y && eq_list l' m'
         | _, _ => false
         end) l m
  | PDict d, PDict e =>
      Nat.eqb (List.length d) (List.length e) &&
      (fix eq_items (d : list (string * pyval)) : bool :=
         match d with
         | [] => true
         | (k, x) :: d' =>
             match dict_get k e with
             | Some y => py_eq x y && eq_items d'
             | None => false
             end
         end) d
  | PBool b, _ =>
      match num_of w with
      | Some q => Qeq_bool (if b then 1 else 0) q
      | None => false
      end
  | PNum p, _ =>
      match num_of w with
      | Some q => Qeq_bool p q
      | None => false
      end
  | _, _ => false
  end.

Definition py_eq_str (v : pyval) (s : string) : bool := py_eq v (PStr s).

(** [v > w]: defined between two numbers, two strings (by code point) and
    two lists (at the first index where they differ); [TypeError]
    otherwise. *)
Fixpoint py_gt (v w : pyval) {struct v} : py bool :=
  match v, w with
  | PStr s, PStr t => Ret (String.ltb t s)
  | PList l, PList m =>
      (fix gt_list (l m : list pyval) {struct l} : py bool :=
         match l, m with
         | [], _ => Ret false
         | _ :: _, [] => Ret true
         | x :: l', y :: m' => if py_eq x y then gt_list l' m' else py_gt x y
         end) l m
  | (PBool _ | PNum _), (PBool _ | PNum _) =>
      match num_of v, num_of w with
      | Some p, Some q => Ret (negb (Qle_bool p q))
      | _, _ => Raise TypeError
      end
  | _, _ => Raise TypeError
  end.

(** [max(xs)] on a non-empty list: the first maximal item. *)
Fixpoint max_from (best : pyval) (xs : list pyval) : py pyval :=
  match xs with
  | [] => Ret best
  | x :: xs' =>
      (b <- py_gt x best ;;
       max_from (if b then x else best) xs')%py
  end.

Definition py_max (xs : list pyval) : py pyval :=
  match xs with
  | [] => Raise ValueError
  | x :: xs' => max_from x xs'
  end.

(** ** Strings, integers and floats *)

(** Whitespace among the characters below 256. *)
Definition is_space (c : ascii) : bool :=
  let n := nat_of_ascii c in
  ((9 <=? n) && (n <=? 13) || (28 <=? n) && (n <=? 32)
   || (n =? 133) || (n =? 160))%nat.

Definition digit_of (c : ascii) : option Z :=
  let n := nat_of_ascii c in
  if ((48 <=? n) && (n <=? 57))%nat then Some (Z.of_nat (n - 48)) else None.

Fixpoint lstrip (s : list ascii) : list ascii :=
  match s with
  | c :: s' => if is_space c then lstrip s' else s
  | [] => []
  end.

(** [s.strip()] *)
Definition strip (s : list ascii) : list ascii :=
  rev (lstrip (rev (lstrip s))).

(** A digit group [digit (["_"] digit)*]: its value and its number of
    digits. *)
Fixpoint digit_group (acc : Z) (n : nat) (after_digit : bool)
  (s : list ascii) : option (Z * nat) :=
  match s with
  | [] => if after_digit then Some (acc, n) else None
  | c :: s' =>
      match digit_of c with
      | Some d => digit_group (10 * acc + d) (S n) true s'
      | None =>
          if (Ascii.eqb c "_" && after_digit)%bool
          then digit_group acc n false s'
          else None
      end
  end.

Definition split_sign (s : list ascii) : bool * list ascii :=
  match s with
  | c :: s' =>
      if Ascii.eqb c "-" then (true, s')
      else if Ascii.eqb c "+" then (false, s')
      else (false, s)
  | [] => (false, [])
  end.

(** [int(s)] for a string [s], base 10. *)
Definition int_of_str (s : string) : py Z :=
  let '(neg, body) := split_sign (strip (list_ascii_of_string s)) in
  match digit_group 0 0 false body with
  | Some (z, _) => Ret (if neg then (- z)%Z else z)
  | None => Raise ValueError
  end.

(** The part of [s] before the first character satisfying [p], and the
    part after it when there is one. *)
Fixpoint break_at (p : ascii -> bool) (s : list ascii)
  : list ascii * option (list ascii) :=
  match s with
  | [] => ([], None)
  | c :: s' =>
      if p c then ([], Some s')
      else let '(a, b) := break_at p s' in (c :: a, b)
  end.

Definition lower (c : ascii) : ascii :=
  let n := nat_of_ascii c in
  if ((65 <=? n) && (n <=? 90))%nat then ascii_of_nat (n + 32) else c.

Definition is_nonfinite_literal (body : list ascii) : bool :=
  let w := string_of_list_ascii (map lower body) in
  (String.eqb w "inf" || String.eqb w "infinity" || String.eqb w "nan")%bool.

Definition pow10 (z : Z) : Q := Qpower 10 z.

(** The least magnitude that does not round to a finite float:
    [2^1024 - 2^970], halfway between the largest float and [2^1024]. *)
Definition overflow_bound : Q := inject_Z (2 ^ 1024 - 2 ^ 970).

(** [float(s)] for a string [s]: sign, digits with an optional fraction
    and an optional exponent; ["inf"], ["infinity"], ["nan"] and the
    decimals that overflow denote floats that are not rationals. *)
Definition float_of_str (s : string) : py Q :=
  let '(neg, body) := split_sign (strip (list_ascii_of_string s)) in
  if is_nonfinite_literal body then Raise NonFinite else
  let '(mant, expo) :=
    break_at (fun c => (Ascii.eqb c "e" || Ascii.eqb c "E")%bool) body in
  let '(ipart, fpart) := break_at (fun c => Ascii.eqb c ".") mant in
  let group (g : list ascii) : option (Z * nat) :=
    match g with [] => Some (0%Z, 0%nat) | _ => digit_group 0 0 false g end in
  let fdigits := match fpart with Some f => f | None => [] end in
  let e :=
    match expo with
    | None => Some 0%Z
    | Some x =>
        let '(eneg, ebody) := split_sign x in
        match digit_group 0 0 false ebody with
        | Some (z, _) => Some (if eneg then (- z)%Z else z)
        | None => None
        end
    end in
  match ipart, fdigits with
  | [], [] => Raise ValueError
  | _, _ =>
      match group ipart, group fdigits, e with
      | Some (i, _), Some (f, k), Some e =>
          let m := (inject_Z i + inject_Z f / pow10 (Z.of_nat k)) * pow10 e in
          if Qle_bool overflow_bound m then Raise NonFinite
          else Ret (if neg then - m else m)
      | _, _, _ => Raise ValueError
      end
  end.

(** [str(z)] for an int. *)
Definition str_of_int (z : Z) : string := NilZero.string_of_int (Z.to_int z).

(** [round(q)] to the nearest integer, ties to even. *)
Definition round_half_even (q : Q) : Z :=
  let f := Qfloor q in
  let r := q - inject_Z f in
  match Qcompare r (1 # 2) with
  | Lt => f
  | Gt => (f + 1)%Z
  | Eq => if Z.even f then f else (f + 1)%Z
  end.

(** [f"{q:.2f}"] *)
Definition fmt2 (q : Q) : string :=
  let n := round_half_even (Qabs q * 100) in
  let frac := (n mod 100)%Z in
  (if Qlt_le_dec q 0 then "-" else "") ++
  str_of_int (n / 100) ++ "." ++
  (if (frac <? 10)%Z then "0" else "") ++ str_of_int frac.

(** [s.split(c)] for a one-character separator. *)
Fixpoint split_on (c : ascii) (s : string) : list string :=
  match s with
  | EmptyString => [EmptyString]
  | String a s' =>
      let r := split_on c s' in
      if Ascii.eqb a c then EmptyString :: r
      else match r with
           | x :: r' => String a x :: r'
           | [] => [String a EmptyString]
           end
  end.

(** [t in s] for strings. *)
Definition str_contains (t s : string) : bool :=
  match String.index 0 t s with Some _ => true | None => false end.

(** [template.format(country=c)], for a template whose only replacement
    field is [{country}]. *)
Fixpoint format_country (fuel : nat) (template c : string) : string :=
  match fuel with
  | O => template
  | S fuel' =>
      match String.index 0 "{country}" template with
      | None => template
      | Some i =>
          String.substring 0 i template ++ c ++
          format_country fuel'
            (String.substring (i + 9) (String.length template - (i + 9)) template) c
      end
  end.

Definition format (template c : string) : string :=
  format_country (String.length template) template c.

(** ** [sorted] *)

Section Sorted.
Context {A : Type} (leb : A -> A -> bool).

Fixpoint insert (x : A) (l : list A) : list A :=
  match l with
  | [] => [x]
  | y :: l' => if leb x y then x :: l else y :: insert x l'
  end.

(** [sorted(l)]: ascending and stable. *)
Definition sorted (l : list A) : list A := fold_right insert [] l.
End Sorted.

(** ** Dynamically typed operations on decoded JSON *)

(** [k in v] *)
Definition py_contains (k : string) (v : pyval) : py bool :=
  match v with
  | PDict d => Ret (existsb (String.eqb k) (dict_keys d))
  | PList l => Ret (existsb (fun x => py_eq_str x k) l)
  | PStr s => Ret (str_contains k s)
  | _ => Raise TypeError
  end.

(** [v[k]] for a string [k] *)
Definition getitem_str (v : pyval) (k : string) : py pyval :=
  match v with
  | PDict d => match dict_get k d with Some x => Ret x | None => Raise KeyError end
  | _ => Raise TypeError
  end.

(** [l[i]] with Python's negative indices. *)
Definition index_list {A} (l : list A) (i : Z) : option A :=
  let n := Z.of_nat (List.length l) in
  let j := if (i <? 0)%Z then (i + n)%Z else i in
  if (j <? 0)%Z then None else nth_error l (Z.to_nat j).

(** [v[i]] for an int [i] *)
Definition getitem_int (v : pyval) (i : Z) : py pyval :=
  match v with
  | PList l => match index_list l i with Some x => Ret x | None => Raise IndexError end
  | PStr s =>
      match index_list (list_ascii_of_string s) i with
      | Some c => Ret (PStr (String c EmptyString))
      | None => Raise IndexError
      end
  | PDict _ => Raise KeyError
  | _ => Raise TypeError
  end.

(** [v.get(k, default)] *)
Definition py_get (v : pyval) (k : string) (default : pyval) : py pyval :=
  match v with
  | PDict d => Ret (match dict_get k d with Some x => x | None => default end)
  | _ => Raise AttributeError
  end.

(** The items [for x in v] visits. *)
Definition py_iter (v : pyval) : py (list pyval) :=
  match v with
  | PList l => Ret l
  | PDict d => Ret (map PStr (dict_keys d))
  | PStr s => Ret (map (fun c => PStr (String c EmptyString)) (list_ascii_of_string s))
  | _ => Raise TypeError
  end.

(** [len(v)] *)
Definition py_len (v : pyval) : py Z :=
  match v with
  | PList l => Ret (Z.of_nat (List.length l))
  | PDict d => Ret (Z.of_nat (List.length d))
  | PStr s => Ret (Z.of_nat (String.length s))
  | _ => Raise TypeError
  end.

(** [v.keys()] *)
Definition py_keys (v : pyval) : py (list string) :=
  match v with
  | PDict d => Ret (dict_keys d)
  | _ => Raise AttributeError
  end.

(** [float(v)]; a number beyond the range of the floats can only be an
    [int], which [float] refuses. *)
Definition py_float (v : pyval) : py Q :=
  match v with
  | PNum q => if Qle_bool overflow_bound (Qabs q) then Raise OverflowError else Ret q
  | PBool b => Ret (if b then 1 else 0)
  | PStr s => float_of_str s
  | _ => Raise TypeError
  end.

(** ** config.py: enums and dataclasses *)

Inductive MetricType : Type := GDP_GROWTH | INFLATION | UNEMPLOYMENT | INTEREST_RATE.

Definition metric_value (m : MetricType) : string :=
  match m with
  | GDP_GROWTH => "gdp_growth"
  | INFLATION => "inflation"
  | UNEMPLOYMENT => "unemployment"
  | INTEREST_RATE => "interest_rate"
  end.

Inductive ConfidenceLevel : Type := HIGH | MEDIUM | LOW | SINGLE_SOURCE | NO_DATA.

Module MacroDataPoint.
Record t : Type := mk {
  source : string;
  metric : string;
  country : string;
  country_code : string;
  value : option Q;
  unit_ : string;
  period : pyval;             (* annotated [str]; whatever the client stored *)
  retrieved_at : string;
  raw_response : option pyval;
  error : option string
}.
End MacroDataPoint.

Module TriangulatedResult.
Record t : Type := mk {
  metric : string;
  country : string;
  country_code : string;
  period : pyval;
  confidence : ConfidenceLevel;
  consensus_value : option Q;
  fred_value : option Q;
  worldbank_value : option Q;
  oecd_value : option Q;
  explanation : string;
  sources_used : list string;
  disagreement_details : option string
}.
End TriangulatedResult.

(** ** mappings.py *)

Definition COUNTRY_MAPPINGS : list (string * list (string * string)) :=
  [ ("USA", [("name", "United States"); ("fred", "USA"); ("wb", "USA"); ("oecd", "USA")]);
    ("IND", [("name", "India"); ("fred", "IND"); ("wb", "IND"); ("oecd", "IND")]);
    ("EUU", [("name", "European Union"); ("fred", "EUU"); ("wb", "EUU"); ("oecd", "EA20")]);
    ("CHN", [("name", "China"); ("fred", "CHN"); ("wb", "CHN"); ("oecd", "CHN")]) ].

Record MetricMapping : Type := {
  fred : list (string * string);
  worldbank : string;
  oecd : string
}.

Definition METRIC_MAPPINGS (m : MetricType) : MetricMapping :=
  match m with
  | GDP_GROWTH =>
      {| fred := [ ("USA", "A191RL1Q225SBEA"); ("IND", "INDGDPRQPSMEI");
                   ("EUU", "CLVMNACSCAB1GQEA19"); ("CHN", "CHNGDPRQPSMEI");
                   ("default", "CLVMNACSCAB1GQ{country}") ];
         worldbank := "NY.GDP.MKTP.KD.ZG";
         oecd := "QNA/B1_GE.{country}.VOBARSA.Q" |}
  | INFLATION =>
      {| fred := [ ("USA", "CPIAUCSL"); ("IND", "INDCPIALLMINMEI");
                   ("EUU", "CP0000EZ19M086NEST"); ("CHN", "CHNCPIALLMINMEI");
                   ("default", "CPALTT01{country}M659N") ];
         worldbank := "FP.CPI.TOTL.ZG";
         oecd := "PRICES_CPI/CPALTT01.{country}.GP.A" |}
  | UNEMPLOYMENT =>
      {| fred := [ ("USA", "UNRATE"); ("IND", "LMUNRRTTINQ156S");
                   ("EUU", "LRHUTTTTEZM156S"); ("CHN", "LMUNRRTTCNM156S");
                   ("default", "LRUN64TT{country}Q156S") ];
         worldbank := "SL.UEM.TOTL.ZS";
         oecd := "LFS_SEXAGE_I_R/{country}.MW.Y15T64.UR.A" |}
  | INTEREST_RATE =>
      {| fred := [ ("USA", "FEDFUNDS"); ("IND", "INDIRLTLT01STM");
                   ("EUU", "ECBMRRFR"); ("CHN", "INTDSRCNM193N");
                   ("default", "IR3TIB01{country}M156N") ];
         worldbank := "FR.INR.RINR";
         oecd := "MEI_FIN/{country}.IRSTCI.ST.M" |}
  end.

(** [COUNTRY_MAPPINGS.get(country_code, {"name": country_code})] *)
Definition country_info_of (country_code : string) : list (string * string) :=
  match dict_get country_code COUNTRY_MAPPINGS with
  | Some info => info
  | None => [("name", country_code)]
  end.

(** [d.get(k, default)] on a dict of strings. *)
Definition get_or {V} (d : list (string * V)) (k : string) (default : V) : V :=
  match dict_get k d with Some v => v | None => default end.

(** ** The outside world and the [io] monad *)

Record Request : Type := {
  url : string;
  params : list (string * pyval);
  headers : option (list (string * string))
}.

(** A [requests.Response], as the outcomes of the two methods the
    pipeline calls on it. *)
Record Response : Type := {
  raise_for_status : py unit;
  json : py pyval
}.

(** What lies outside the pipeline: the HTTP session with its mounted
    retry adapter (answering a request, given the requests made so far)
    and the clock. *)
Record World : Type := {
  session_get : list Request -> Request -> py Response;
  utcnow_isoformat : string;
  now_year : Z
}.

(** A computation that may raise and that extends the log of requests
    handed to the session. *)
Definition io (A : Type) : Type := list Request -> py A * list Request.

Definition io_bind {A B} (m : io A) (k : A -> io B) : io B :=
  fun log =>
    match m log with
    | (Ret a, log') => k a log'
    | (Raise e, log') => (Raise e, log')
    end.

Definition io_lift {A} (m : py A) : io A := fun log => (m, log).

Declare Scope io_scope.
Delimit Scope io_scope with io.
Notation "x <- m ;; k" := (io_bind m (fun x => k))
  (at level 61, m at next level, right associativity) : io_scope.

(** [try: m  except requests.RequestException as e: h(str(e))] *)
Definition try_except_request {A} (m : io A) (h : string -> io A) : io A :=
  fun log =>
    match m log with
    | (Raise (RequestException msg), log') => h msg log'
    | r => r
    end.

(** ** http_client.py *)

Module RobustHTTPClient.
(** [get]: the rate-limit sleep takes time and changes nothing else;
    the request goes to the session; an error status raises. *)
Definition get (w : World) (url : string) (params : list (string * pyval))
  (headers : option (list (string * string))) : io Response :=
  fun log =>
    let req := {| url := url; params := params; headers := headers |} in
    let log' := (log ++ [req])%list in
    (response <- session_get w log req ;;
     _ <- raise_for_status response ;;
     Ret response, log')%py.
End RobustHTTPClient.

(** ** clients/base.py *)

Definition _get_current_timestamp (w : World) : string :=
  utcnow_isoformat w ++ "Z".

(** [if year:] for an [Optional[int]] *)
Definition year_given (y : option Z) : option Z :=
  match y with
  | Some z => if (z =? 0)%Z then None else Some z
  | None => None
  end.

Section Client.
Variable w : World.
Variable source_name : string.
Variable metric : MetricType.
Variable country_code : string.

(** The [MacroDataPoint] every client returns when it has no value. *)
Definition no_value (err : string) : MacroDataPoint.t :=
  {| MacroDataPoint.source := source_name;
     MacroDataPoint.metric := metric_value metric;
     MacroDataPoint.country := get_or (country_info_of country_code) "name" country_code;
     MacroDataPoint.country_code := country_code;
     MacroDataPoint.value := None;
     MacroDataPoint.unit_ := "percent";
     MacroDataPoint.period := PStr "N/A";
     MacroDataPoint.retrieved_at := _get_current_timestamp w;
     MacroDataPoint.raw_response := None;
     MacroDataPoint.error := Some err |}.

(** The [MacroDataPoint] a client returns for an observation. *)
Definition observed (v : option Q) (period : pyval) (data : pyval)
  : MacroDataPoint.t :=
  {| MacroDataPoint.source := source_name;
     MacroDataPoint.metric := metric_value metric;
     MacroDataPoint.country := get_or (country_info_of country_code) "name" country_code;
     MacroDataPoint.country_code := country_code;
     MacroDataPoint.value := v;
     MacroDataPoint.unit_ := "percent";
     MacroDataPoint.period := period;
     MacroDataPoint.retrieved_at := _get_current_timestamp w;
     MacroDataPoint.raw_response := Some data;
     MacroDataPoint.error := None |}.
End Client.

Local Open Scope py_scope.

(** ** clients/fred.py *)

Module FREDClient.
Definition source_name : string := "FRED".
Definition BASE_URL : string := "https://api.stlouisfed.org/fred".

Definition _get_series_id (metric : MetricType) (country_code : string) : string :=
  let metric_config := fred (METRIC_MAPPINGS metric) in
  match dict_get country_code metric_config with
  | Some series_id => series_id
  | None => format (get_or metric_config "default" "") country_code
  end.

(** The loop of lines 88-100: the first observation whose value is not
    ["."], as [(float(obs["value"]), obs["date"])]. *)
Fixpoint first_valid (observations : list pyval) : py (option (Q * pyval)) :=
  match observations with
  | [] => Ret None
  | obs :: rest =>
      v <- getitem_str obs "value" ;;
      if negb (py_eq_str v ".") then
        v' <- getitem_str obs "value" ;;
        x <- py_float v' ;;
        d <- getitem_str obs "date" ;;
        Ret (Some (x, d))
      else first_valid rest
  end.

(** Lines 74-112: from the decoded body to the data point. *)
Definition parse (w : World) (metric : MetricType) (country_code : string)
  (data : pyval) : py MacroDataPoint.t :=
  present <- py_contains "observations" data ;;
  usable <- (if present
             then o <- getitem_str data "observations" ;; Ret (truthy o)
             else Ret false) ;;
  if negb usable then
    Ret (no_value w source_name metric country_code "No observations found")
  else
    o <- getitem_str data "observations" ;;
    observations <- py_iter o ;;
    found <- first_valid observations ;;
    match found with
    | Some (x, d) => Ret (observed w source_name metric country_code (Some x) d data)
    | None =>
        Ret (no_value w source_name metric country_code
               "All observations are missing values")
    end.

Definition fetch_metric (w : World) (api_key : option string)
  (metric : MetricType) (country_code : string)
  (start_year end_year : option Z) : io MacroDataPoint.t :=
  let series_id := _get_series_id metric country_code in
  try_except_request
    (let params :=
       ([ ("series_id", PStr series_id);
          ("api_key", match api_key with Some k => PStr k | None => PNone end);
          ("file_type", PStr "json");
          ("sort_order", PStr "desc");
          ("limit", PNum 10) ]
        ++ match year_given start_year with
           | Some y => [("observation_start", PStr (str_of_int y ++ "-01-01"))]
           | None => []
           end
        ++ match year_given end_year with
           | Some y => [("observation_end", PStr (str_of_int y ++ "-12-31"))]
           | None => []
           end)%list in
     (response <- RobustHTTPClient.get w (BASE_URL ++ "/series/observations")
                    params None ;;
      data <- io_lift (json response) ;;
      io_lift (parse w metric country_code data))%io)
    (fun msg => io_lift (Ret (no_value w source_name metric country_code msg))).
End FREDClient.

(** ** clients/worldbank.py *)

Module WorldBankClient.
Definition source_name : string := "World Bank".
Definition BASE_URL : string := "https://api.worldbank.org/v2".

(** The loop of lines 88-100: the first observation whose value is not
    [None], as [(float(obs["value"]), obs.get("date", "N/A"))]. *)
Fixpoint first_non_null (observations : list pyval) : py (option (Q * pyval)) :=
  match observations with
  | [] => Ret None
  | obs :: rest =>
      v <- py_get obs "value" PNone ;;
      match v with
      | PNone => first_non_null rest
      | _ =>
          v' <- getitem_str obs "value" ;;
          x <- py_float v' ;;
          d <- py_get obs "date" (PStr "N/A") ;;
          Ret (Some (x, d))
      end
  end.

(** Lines 59-112: from the decoded body to the data point. *)
Definition parse (w : World) (metric : MetricType) (country_code : string)
  (data : pyval) : py MacroDataPoint.t :=
  let well_formed :=
    match data with
    | PList l => negb (Nat.ltb (List.length l) 2)
    | _ => false
    end in
  if negb well_formed then
    Ret (no_value w source_name metric country_code "Invalid API response format")
  else
    observations <- getitem_int data 1 ;;
    if negb (truthy observations) then
      Ret (no_value w source_name metric country_code "No data available")
    else
      items <- py_iter observations ;;
      found <- first_non_null items ;;
      match found with
      | Some (x, d) => Ret (observed w source_name metric country_code (Some x) d data)
      | None => Ret (no_value w source_name metric country_code "All values are null")
      end.

Definition fetch_metric (w : World)
  (metric : MetricType) (country_code : string)
  (start_year end_year : option Z) : io MacroDataPoint.t :=
  let indicator := worldbank (METRIC_MAPPINGS metric) in
  let country_info := country_info_of country_code in
  let wb_country := get_or country_info "wb" country_code in
  try_except_request
    (let current_year := now_year w in
     let date_range :=
       str_of_int (match year_given start_year with
                   | Some y => y
                   | None => current_year - 5
                   end)%Z
       ++ ":" ++
       str_of_int (match year_given end_year with
                   | Some y => y
                   | None => current_year
                   end) in
     let params :=
       [ ("format", PStr "json"); ("per_page", PNum 10); ("date", PStr date_range) ] in
     (response <- RobustHTTPClient.get w
                    (BASE_URL ++ "/country/" ++ wb_country ++ "/indicator/" ++ indicator)
                    params None ;;
      data <- io_lift (json response) ;;
      io_lift (parse w metric country_code data))%io)
    (fun msg => io_lift (Ret (no_value w source_name metric country_code msg))).
End WorldBankClient.

(** ** clients/oecd.py *)

Module OECDClient.
Definition source_name : string := "OECD".
Definition BASE_URL : string := "https://sdmx.oecd.org/public/rest/data".

(** [next((d for d in dimensions if d.get("id") == "TIME_PERIOD"), None)] *)
Fixpoint find_time_dim (dimensions : list pyval) : py pyval :=
  match dimensions with
  | [] => Ret PNone
  | d :: rest =>
      i <- py_get d "id" PNone ;;
      if py_eq_str i "TIME_PERIOD" then Ret d else find_time_dim rest
  end.

(** Lines 96-104: the period label of the observation under [last_key]. *)
Definition period_of (data : pyval) (last_key : string) : py pyval :=
  structure <- py_get data "structure" (PDict []) ;;
  dims <- py_get structure "dimensions" (PDict []) ;;
  dimensions <- py_get dims "observation" (PList []) ;;
  items <- py_iter dimensions ;;
  time_dim <- find_time_dim items ;;
  has_values <- (if truthy time_dim
                 then vs <- py_get time_dim "values" PNone ;; Ret (truthy vs)
                 else Ret false) ;;
  if has_values then
    period_idx <- (if str_contains ":" last_key then
                     match index_list (split_on ":" last_key) (-1) with
                     | Some part => int_of_str part
                     | None => Raise IndexError
                     end
                   else Ret 0%Z) ;;
    vs <- getitem_str time_dim "values" ;;
    n <- py_len vs ;;
    if (period_idx <? n)%Z then
      entry <- getitem_int vs period_idx ;;
      py_get entry "id" (PStr "N/A")
    else Ret (PStr "N/A")
  else Ret (PStr "N/A").

(** Lines 63-117: from the decoded body to the data point. *)
Definition parse (w : World) (metric : MetricType) (country_code : string)
  (data : pyval) : py MacroDataPoint.t :=
  datasets <- py_get data "dataSets" (PList []) ;;
  if negb (truthy datasets) then
    Ret (no_value w source_name metric country_code "No datasets in response")
  else
    first <- getitem_int datasets 0 ;;
    observations <- py_get first "observations" (PDict []) ;;
    if negb (truthy observations) then
      Ret (no_value w source_name metric country_code "No observations in dataset")
    else
      keys <- py_keys observations ;;
      last_key <- match index_list (sorted String.leb keys) (-1) with
                  | Some k => Ret k
                  | None => Raise IndexError
                  end ;;
      obs <- getitem_str observations last_key ;;
      value <- getitem_int obs 0 ;;
      period <- period_of data last_key ;;
      v <- match value with
           | PNone => Ret None
           | _ => x <- py_float value ;; Ret (Some x)
           end ;;
      Ret (observed w source_name metric country_code v period data).

Definition fetch_metric (w : World)
  (metric : MetricType) (country_code : string)
  (start_year end_year : option Z) : io MacroDataPoint.t :=
  let country_info := country_info_of country_code in
  let oecd_country := get_or country_info "oecd" country_code in
  try_except_request
    (let dataset_path := format (oecd (METRIC_MAPPINGS metric)) oecd_country in
     let params :=
       ([ ("dimensionAtObservation", PStr "AllDimensions") ]
        ++ match year_given start_year with
           | Some y => [("startPeriod", PStr (str_of_int y))]
           | None => []
           end
        ++ match year_given end_year with
           | Some y => [("endPeriod", PStr (str_of_int y))]
           | None => []
           end)%list in
     let headers := [("Accept", "application/vnd.sdmx.data+json;version=1.0")] in
     (response <- RobustHTTPClient.get w (BASE_URL ++ "/" ++ dataset_path)
                    params (Some headers) ;;
      data <- io_lift (json response) ;;
      io_lift (parse w metric country_code data))%io)
    (fun msg => io_lift (Ret (no_value w source_name metric country_code msg))).
End OECDClient.

(** ** triangulation.py *)

(** [a / b] on floats *)
Definition py_div (a b : Q) : py Q :=
  if Qeq_bool b 0 then Raise ZeroDivisionError else Ret (a / b).

(** [l[i]], raising on a bad index *)
Definition getitem {A} (l : list A) (i : Z) : py A :=
  match index_list l i with
  | Some x => Ret x
  | None => Raise IndexError
  end.

(** What [if v is not None: valid_values.append((tag, v))] appends. *)
Definition present (tag : string) (v : option Q) : list (string * Q) :=
  match v with
  | Some x => [(tag, x)]
  | None => []
  end.

Definition is_some {A} (v : option A) : bool :=
  match v with Some _ => true | None => false end.

(** [[v for v in vs if v is not None]] *)
Fixpoint not_none {A} (vs : list (option A)) : list A :=
  match vs with
  | [] => []
  | Some x :: vs' => x :: not_none vs'
  | None :: vs' => not_none vs'
  end.

Module TriangulationEngine.
Section Engine.
(** The fields set by [__init__]. *)
Variable tolerance_percent : Q.
Variable fred_api_key : option string.

(** [_values_agree], [_calculate_consensus] and [_determine_confidence]
    on rationals; module [Binary64] has them on floats. *)
Definition _values_agree (val1 val2 : Q) : py bool :=
  if Qeq_bool val1 0 && Qeq_bool val2 0 then Ret true
  else if Qeq_bool val1 0 || Qeq_bool val2 0 then
    Ret (Qle_bool (Qabs (val1 - val2)) tolerance_percent)
  else
    let avg := (Qabs val1 + Qabs val2) / 2 in
    q <- py_div (Qabs (val1 - val2)) avg ;;
    let diff_percent := q * 100 in
    Ret (Qle_bool diff_percent tolerance_percent).

Definition _calculate_consensus (values : list Q) : py (option Q) :=
  match values with
  | [] => Ret None
  | _ =>
      let sorted_values := sorted Qle_bool values in
      let n := Z.of_nat (List.length sorted_values) in
      if (n mod 2 =? 0)%Z then
        a <- getitem sorted_values (n / 2 - 1) ;;
        b <- getitem sorted_values (n / 2) ;;
        Ret (Some ((a + b) / 2))
      else
        a <- getitem sorted_values (n / 2) ;;
        Ret (Some a)
  end.

(** The list [sources] the function also fills is never read. *)
Definition _determine_confidence (fred_val wb_val oecd_val : option Q)
  : py (ConfidenceLevel * string) :=
  let valid_values :=
    (present "FRED" fred_val ++ present "World Bank" wb_val
     ++ present "OECD" oecd_val)%list in
  match valid_values with
  | [] => Ret (NO_DATA, "No data available from any source.")
  | [(src, val)] =>
      Ret (SINGLE_SOURCE, "Only " ++ src ++ " provided data (" ++ fmt2 val ++ "%).")
  | [(src1, val1); (src2, val2)] =>
      agree <- _values_agree val1 val2 ;;
      if agree then
        Ret (MEDIUM,
             src1 ++ " (" ++ fmt2 val1 ++ "%) and " ++ src2 ++ " (" ++ fmt2 val2
             ++ "%) agree within tolerance. "
             ++ "Third source unavailable for full triangulation.")
      else
        Ret (LOW,
             src1 ++ " (" ++ fmt2 val1 ++ "%) and " ++ src2 ++ " (" ++ fmt2 val2
             ++ "%) disagree. "
             ++ "Third source unavailable for tie-breaker.")
  | _ =>
      (* All three sources available *)
      match fred_val, wb_val, oecd_val with
      | Some fred_val, Some wb_val, Some oecd_val =>
          fred_wb_agree <- _values_agree fred_val wb_val ;;
          fred_oecd_agree <- _values_agree fred_val oecd_val ;;
          wb_oecd_agree <- _values_agree wb_val oecd_val ;;
          let agreements :=
            (Nat.b2n fred_wb_agree + Nat.b2n fred_oecd_agree
             + Nat.b2n wb_oecd_agree)%nat in
          if (agreements =? 3)%nat then
            Ret (HIGH,
                 "All three sources agree: FRED (" ++ fmt2 fred_val ++ "%), "
                 ++ "World Bank (" ++ fmt2 wb_val ++ "%), OECD (" ++ fmt2 oecd_val
                 ++ "%).")
          else if (1 <=? agreements)%nat then
            if fred_wb_agree then
              Ret (MEDIUM,
                   "FRED (" ++ fmt2 fred_val ++ "%) and World Bank (" ++ fmt2 wb_val
                   ++ "%) agree. "
                   ++ "OECD (" ++ fmt2 oecd_val ++ "%) differs but serves as validation.")
            else if fred_oecd_agree then
              Ret (MEDIUM,
                   "FRED (" ++ fmt2 fred_val ++ "%) and OECD (" ++ fmt2 oecd_val
                   ++ "%) agree. "
                   ++ "World Bank (" ++ fmt2 wb_val ++ "%) differs.")
            else
              Ret (MEDIUM,
                   "World Bank (" ++ fmt2 wb_val ++ "%) and OECD (" ++ fmt2 oecd_val
                   ++ "%) agree. "
                   ++ "FRED (" ++ fmt2 fred_val ++ "%) differs.")
          else
            Ret (LOW,
                 "All sources disagree significantly: FRED (" ++ fmt2 fred_val ++ "%), "
                 ++ "World Bank (" ++ fmt2 wb_val ++ "%), OECD (" ++ fmt2 oecd_val
                 ++ "%). "
                 ++ "Exercise caution with this data.")
      | _, _, _ => Raise TypeError
      end
  end.

(** [max(periods) if periods else "N/A"] *)
Definition select_period (periods : list pyval) : py pyval :=
  match periods with
  | [] => Ret (PStr "N/A")
  | _ => py_max periods
  end.

(** The periods [triangulate] chooses from: those that are not ["N/A"]. *)
Definition candidate_periods (data : list MacroDataPoint.t) : list pyval :=
  filter (fun p => negb (py_eq_str p "N/A")) (map MacroDataPoint.period data).

(** Lines 183-221 of [triangulate]: what it makes of the three data
    points once they are fetched. *)
Definition reconcile (metric : MetricType) (country_code : string)
  (fred_data wb_data oecd_data : MacroDataPoint.t) : py TriangulatedResult.t :=
  let fred_value := MacroDataPoint.value fred_data in
  let wb_value := MacroDataPoint.value wb_data in
  let oecd_value := MacroDataPoint.value oecd_data in
  ce <- _determine_confidence fred_value wb_value oecd_value ;;
  let '(confidence, explanation) := ce in
  let valid_values := not_none [fred_value; wb_value; oecd_value] in
  consensus <- _calculate_consensus valid_values ;;
  let periods := candidate_periods [fred_data; wb_data; oecd_data] in
  period <- select_period periods ;;
  let sources_used :=
    ((if is_some fred_value then ["FRED"] else [])
     ++ (if is_some wb_value then ["World Bank"] else [])
     ++ (if is_some oecd_value then ["OECD"] else []))%list in
  let country_name :=
    get_or (get_or COUNTRY_MAPPINGS country_code []) "name" country_code in
  Ret {| TriangulatedResult.metric := metric_value metric;
         TriangulatedResult.country := country_name;
         TriangulatedResult.country_code := country_code;
         TriangulatedResult.period := period;
         TriangulatedResult.confidence := confidence;
         TriangulatedResult.consensus_value := consensus;
         TriangulatedResult.fred_value := fred_value;
         TriangulatedResult.worldbank_value := wb_value;
         TriangulatedResult.oecd_value := oecd_value;
         TriangulatedResult.explanation := explanation;
         TriangulatedResult.sources_used := sources_used;
         TriangulatedResult.disagreement_details :=
           match confidence with
           | HIGH | MEDIUM => None
           | _ => Some explanation
           end |}.

(** The [logger.info] calls only format the fetched fields. *)
Definition triangulate (w : World) (metric : MetricType) (country_code : string)
  (start_year end_year : option Z) : io TriangulatedResult.t :=
  (fred_data <- FREDClient.fetch_metric w fred_api_key metric country_code
                  start_year end_year ;;
   wb_data <- WorldBankClient.fetch_metric w metric country_code
                start_year end_year ;;
   oecd_data <- OECDClient.fetch_metric w metric country_code
                  start_year end_year ;;
   io_lift (reconcile metric country_code fred_data wb_data oecd_data))%io.
End Engine.
End TriangulationEngine.

(** * Specification vocabulary

    The notions the statements below are phrased in, written from the
    specification's wording rather than from the code. *)

(** Two values agree within a tolerance: both are zero; or exactly one is
    zero and the absolute difference is within the tolerance; or neither
    is zero and the relative difference, in percent of the mean
    magnitude, is within the tolerance. *)
Definition agree (tolerancePercent a b : Q) : Prop :=
  (a == 0 /\ b == 0)
  \/ (((a == 0 /\ ~ b == 0) \/ (~ a == 0 /\ b == 0))
      /\ Qabs (a - b) <= tolerancePercent)
  \/ (~ a == 0 /\ ~ b == 0
      /\ Qabs (a - b) / ((Qabs a + Qabs b) / 2) * 100 <= tolerancePercent).

(** The confidence label as a function of the values present, in call
    order, and of their pairwise agreement. *)
Definition confidence_by_count (tolerancePercent : Q) (withValue : list Q)
  (label : ConfidenceLevel) : Prop :=
  match withValue with
  | [] => label = NO_DATA
  | [_] => label = SINGLE_SOURCE
  | [a; b] =>
      (agree tolerancePercent a b -> label = MEDIUM)
      /\ (~ agree tolerancePercent a b -> label = LOW)
  | [a; b; c] =>
      let ab := agree tolerancePercent a b in
      let ac := agree tolerancePercent a c in
      let bc := agree tolerancePercent b c in
      (ab /\ ac /\ bc -> label = HIGH)
      /\ ((ab \/ ac \/ bc) /\ ~ (ab /\ ac /\ bc) -> label = MEDIUM)
      /\ (~ ab /\ ~ ac /\ ~ bc -> label = LOW)
  | _ => False
  end.

(** The middle of an ascending list: the middle element for an odd
    length, the average of the two middle elements for an even one. *)
Definition middle_of (s : list Q) (m : Q) : Prop :=
  let n := List.length s in
  if Nat.even n then
    exists a b, nth_error s (n / 2 - 1) = Some a /\ nth_error s (n / 2) = Some b
                /\ m == (a + b) / 2
  else
    exists a, nth_error s (n / 2) = Some a /\ m == a.

(** Results of the consensus function, compared as numbers. *)
Definition same_consensus (r1 r2 : py (option Q)) : Prop :=
  match r1, r2 with
  | Ret (Some a), Ret (Some b) => a == b
  | Ret None, Ret None => True
  | _, _ => False
  end.

(** Lexicographic order on strings, by character code. *)
Inductive lex_le : string -> string -> Prop :=
| lex_le_empty (t : string) : lex_le EmptyString t
| lex_le_head (a b : ascii) (s t : string) :
    (nat_of_ascii a < nat_of_ascii b)%nat -> lex_le (String a s) (String b t)
| lex_le_tail (a : ascii) (s t : string) :
    lex_le s t -> lex_le (String a s) (String a t).

(** The three provider calls of one [triangulate] call, in call order,
    each returning a data point; [log'] is the request log afterwards. *)
Definition fetched (fred_api_key : option string) (w : World)
  (metric : MetricType) (country_code : string) (start_year end_year : option Z)
  (log : list Request) (fred_data wb_data oecd_data : MacroDataPoint.t)
  (log' : list Request) : Prop :=
  exists log1 log2,
    FREDClient.fetch_metric w fred_api_key metric country_code start_year end_year log
      = (Ret fred_data, log1)
    /\ WorldBankClient.fetch_metric w metric country_code start_year end_year log1
      = (Ret wb_data, log2)
    /\ OECDClient.fetch_metric w metric country_code start_year end_year log2
      = (Ret oecd_data, log').

(** The data point is typed as the dataclass declares: its period is a
    string. *)
Definition period_is_str (d : MacroDataPoint.t) : Prop :=
  exists s, MacroDataPoint.period d = PStr s.

(** [q] is a period other than the ["N/A"] sentinel carried by one of the
    data points [ds]. *)
Definition is_candidate (ds : list MacroDataPoint.t) (q : string) : Prop :=
  q <> "N/A" /\ exists d, In d ds /\ MacroDataPoint.period d = PStr q.

(** [p] is the lexicographically maximal non-["N/A"] period among [ds],
    or the sentinel when there is none. *)
Definition maximal_period (ds : list MacroDataPoint.t) (p : string) : Prop :=
  (is_candidate ds p /\ forall q, is_candidate ds q -> lex_le q p)
  \/ (p = "N/A" /\ forall q, ~ is_candidate ds q).

(** The data points that contributed a value. *)
Definition contributing (ds : list MacroDataPoint.t) : list MacroDataPoint.t :=
  filter (fun d => is_some (MacroDataPoint.value d)) ds.

(** A computation that makes no request. *)
Definition silent {A} (m : io A) : Prop := forall log, snd (m log) = log.

(** The three providers, and the client call of each. *)
Inductive Provider : Type := FRED | WORLD_BANK | OECD.

Definition fetch_metric_of (p : Provider) (w : World) (fred_api_key : option string)
  (metric : MetricType) (country_code : string) (start_year end_year : option Z)
  : io MacroDataPoint.t :=
  match p with
  | FRED => FREDClient.fetch_metric w fred_api_key metric country_code start_year end_year
  | WORLD_BANK => WorldBankClient.fetch_metric w metric country_code start_year end_year
  | OECD => OECDClient.fetch_metric w metric country_code start_year end_year
  end.

(** The provider has an entry for the metric/country pair in the mapping
    tables: FRED a series id for the country under the metric, the World
    Bank and OECD a country identifier of their own. *)
Definition has_mapping (p : Provider) (metric : MetricType) (country_code : string)
  : bool :=
  match p with
  | FRED => is_some (dict_get country_code (fred (METRIC_MAPPINGS metric)))
  | WORLD_BANK => is_some (dict_get "wb" (country_info_of country_code))
  | OECD => is_some (dict_get "oecd" (country_info_of country_code))
  end.

(** What a provider is asked for when it has no entry for the pair: FRED
    the metric's default template filled with the country code, the
    World Bank and OECD the country code itself. *)
Definition asks_fallback (p : Provider) (metric : MetricType) (country_code : string)
  (req : Request) : Prop :=
  match p with
  | FRED =>
      dict_get "series_id" (params req)
      = Some (PStr (format (get_or (fred (METRIC_MAPPINGS metric)) "default" "")
                      country_code))
  | WORLD_BANK =>
      url req = WorldBankClient.BASE_URL ++ "/country/" ++ country_code
                ++ "/indicator/" ++ worldbank (METRIC_MAPPINGS metric)
  | OECD =>
      url req = OECDClient.BASE_URL ++ "/"
                ++ format (oecd (METRIC_MAPPINGS metric)) country_code
  end.

(** A failure reason that says the source has no series. *)
Definition no_series_reason (d : MacroDataPoint.t) : Prop :=
  exists reason, MacroDataPoint.error d = Some reason
                 /\ str_contains "no series" reason = true.

(** ** Sample worlds

    Worlds in which each provider answers every request with status 200
    and a fixed decoded body; they serve as concrete inputs below. *)

Definition ok_response (body : pyval) : Response :=
  {| raise_for_status := Ret tt; json := Ret body |}.

(** A FRED body with one observation. *)
Definition fred_body (date value : string) : pyval :=
  PDict [("observations",
          PList [PDict [("date", PStr date); ("value", PStr value)]])].

(** A World Bank body [[metadata, observations]] with one observation. *)
Definition wb_body (date : string) (value : pyval) : pyval :=
  PList [PDict [("page", PNum 1)];
         PList [PDict [("date", PStr date); ("value", value)]]].

(** An OECD SDMX-JSON body with one observation, at time period [period]. *)
Definition oecd_body (period : string) (value : pyval) : pyval :=
  PDict [("dataSets",
          PList [PDict [("observations", PDict [("0:0", PList [value])])]]);
         ("structure",
          PDict [("dimensions",
                  PDict [("observation",
                          PList [PDict [("id", PStr "REF_AREA");
                                        ("values", PList [PDict [("id", PStr "USA")]])];
                                 PDict [("id", PStr "TIME_PERIOD");
                                        ("values", PList [PDict [("id", PStr period)]])]])])])].

(** An OECD body without data sets. *)
Definition oecd_empty : pyval := PDict [("dataSets", PList [])].

Definition sample_world (fred_json wb_json oecd_json : pyval) : World :=
  {| session_get := fun _ req =>
       if String.prefix FREDClient.BASE_URL (url req) then Ret (ok_response fred_json)
       else if String.prefix WorldBankClient.BASE_URL (url req)
            then Ret (ok_response wb_json)
            else Ret (ok_response oecd_json);
     utcnow_isoformat := "2026-11-03T00:00:00";
     now_year := 2026 |}.

(** FRED reports 3.4 for 2022-01-01, the World Bank a null value, and
    OECD a null observation in time period 2023. *)
Definition world_null_oecd : World :=
  sample_world (fred_body "2022-01-01" "3.4") (wb_body "2023" PNone)
    (oecd_body "2023" PNone).

(** The three providers report 2.50, 2.51 and 2.49. *)
Definition world_close_values : World :=
  sample_world (fred_body "2024-01-01" "2.50") (wb_body "2023" (PNum 2.51))
    (oecd_body "2023" (PNum 2.49)).

(** FRED reports 3.4, the World Bank 3.5, and OECD has no data set. *)
Definition world_two_values : World :=
  sample_world (fred_body "2024-01-01" "3.4") (wb_body "2023" (PNum 3.5)) oecd_empty.

(** FRED answers with an observation whose value is not a number. *)
Definition world_fred_not_a_number : World :=
  sample_world (fred_body "2024-01-01" "abc") (wb_body "2023" (PNum 3.5)) oecd_empty.

(** OECD answers with an observation that is an empty array. *)
Definition world_oecd_empty_observation : World :=
  sample_world (fred_body "2024-01-01" "3.4") (wb_body "2023" (PNum 3.5))
    (PDict [("dataSets",
             PList [PDict [("observations", PDict [("0:0", PList [])])]])]).

(** ** Vocabulary for further properties *)

(** The text cites the source [name] with the value [x] to two
    decimals: as [name (x.xx%)], or as [name provided data (x.xx%)]. *)
Definition mentions (text name : string) (x : Q) : Prop :=
  exists pre link post,
    (link = " (" \/ link = " provided data (")
    /\ text = pre ++ name ++ link ++ fmt2 x ++ "%)" ++ post.

(** The base URL and the source name of each provider. *)
Definition base_url (p : Provider) : string :=
  match p with
  | FRED => FREDClient.BASE_URL
  | WORLD_BANK => WorldBankClient.BASE_URL
  | OECD => OECDClient.BASE_URL
  end.

Definition provider_name (p : Provider) : string :=
  match p with
  | FRED => FREDClient.source_name
  | WORLD_BANK => WorldBankClient.source_name
  | OECD => OECDClient.source_name
  end.

(** The request goes to the provider [p]. *)
Definition asks (p : Provider) (req : Request) : Prop :=
  String.prefix (base_url p) (url req) = true.

(** What a client gets to parse when it sends [req] after [log]: the
    decoded body, unless the session, the status check or the decoding
    raises. *)
Definition response_body (w : World) (log : list Request) (req : Request)
  : py pyval :=
  (response <- fst (RobustHTTPClient.get w (url req) (params req) (headers req) log) ;;
   json response)%py.

(** A world in which no request gets through. *)
Definition world_offline : World :=
  {| session_get := fun _ _ => Raise (RequestException "connection refused");
     utcnow_isoformat := "2026-11-03T00:00:00";
     now_year := 2026 |}.

(** The observation [o] is a JSON object whose entry [key] is [v]. *)
Definition has_entry (o : pyval) (key : string) (v : pyval) : Prop :=
  exists items, o = PDict items /\ dict_get key items = Some v.

(** The observation [o] is a JSON object with no entry [key], or with a
    null one. *)
Definition null_entry (o : pyval) (key : string) : Prop :=
  exists items, o = PDict items
                /\ (dict_get key items = None \/ dict_get key items = Some PNone).

(** ** config.py: the ChatML dataclasses *)

Module ChatMLMessage.
Record t : Type := mk {
  role : string;
  content : string
}.
End ChatMLMessage.

Module ChatMLSample.
Record t : Type := mk {
  messages : list ChatMLMessage.t
}.
End ChatMLSample.

(** ** More of [str] *)

(** The line feed. *)
Definition nl : string := String (ascii_of_nat 10) EmptyString.

Definition upper (c : ascii) : ascii :=
  let n := nat_of_ascii c in
  if ((97 <=? n) && (n <=? 122))%nat then ascii_of_nat (n - 32) else c.

Fixpoint map_chars (f : ascii -> ascii) (s : string) : string :=
  match s with
  | EmptyString => EmptyString
  | String c s' => String (f c) (map_chars f s')
  end.

(** [s.capitalize()], on ASCII letters. *)
Definition capitalize (s : string) : string :=
  match s with
  | EmptyString => EmptyString
  | String c s' => String (upper c) (map_chars lower s')
  end.

(** [s.replace(a, b)] for one-character [a] and [b]. *)
Definition replace_char (a b : ascii) (s : string) : string :=
  map_chars (fun c => if Ascii.eqb c a then b else c) s.

(** [sep.join(parts)] *)
Definition join (sep : string) (parts : list string) : string :=
  String.concat sep parts.

(** [a % b] on ints *)
Definition py_mod (a b : Z) : py Z :=
  if (b =? 0)%Z then Raise ZeroDivisionError else Ret (a mod b)%Z.

(** [range(n)] *)
Definition range (n : Z) : list Z := map Z.of_nat (seq 0 (Z.to_nat n)).

(** ** formatter.py *)

Module ChatMLFormatter.
Section Formatter.
(** [str(v)] as an f-string applies it to a field that is annotated
    [str]: the string itself on a string. *)
Variable str : pyval -> string.

Definition SYSTEM_PROMPT : string :=
  "You are a financial risk assistant specializing in macroeconomic analysis. "
  ++ "You provide accurate, data-driven insights by cross-referencing multiple authoritative sources "
  ++ "(FRED, World Bank, OECD). Always cite your sources and indicate confidence levels based on "
  ++ "data agreement across sources.".

Definition METRIC_QUESTIONS (m : MetricType) : list string :=
  match m with
  | GDP_GROWTH =>
      [ "What is the current GDP growth rate for {country}?";
        "How is {country}'s economic growth performing?";
        "What's the GDP growth outlook for {country}?";
        "Tell me about {country}'s GDP growth." ]
  | INFLATION =>
      [ "What is the inflation rate in {country}?";
        "What's the inflation risk for {country}?";
        "How high is inflation in {country}?";
        "Tell me about {country}'s inflation situation." ]
  | UNEMPLOYMENT =>
      [ "What is the unemployment rate in {country}?";
        "How is the job market in {country}?";
        "What's the employment situation in {country}?";
        "Tell me about unemployment in {country}." ]
  | INTEREST_RATE =>
      [ "What is the current interest rate in {country}?";
        "What are interest rates like in {country}?";
        "Tell me about {country}'s monetary policy rate.";
        "What's the policy rate in {country}?" ]
  end.

Definition RISK_THRESHOLDS (m : MetricType) : list (string * Q) :=
  match m with
  | GDP_GROWTH => [("low", 1.0); ("moderate", 2.5); ("high", 4.0)]
  | INFLATION => [("low", 2.0); ("moderate", 4.0); ("high", 6.0)]
  | UNEMPLOYMENT => [("low", 4.0); ("moderate", 6.0); ("high", 8.0)]
  | INTEREST_RATE => [("low", 2.0); ("moderate", 4.0); ("high", 6.0)]
  end.

Definition _assess_risk_level (metric : MetricType) (value : option Q) : string :=
  match value with
  | None => "undetermined"
  | Some value =>
      let thresholds := RISK_THRESHOLDS metric in
      match metric with
      | GDP_GROWTH =>
          (* Lower GDP growth = higher risk *)
          if Qle_bool (get_or thresholds "high" 4.0) value then "low"
          else if Qle_bool (get_or thresholds "moderate" 2.5) value then "moderate"
          else if Qle_bool (get_or thresholds "low" 1.0) value then "elevated"
          else "high"
      | _ =>
          (* Higher values = higher risk *)
          if Qle_bool value (get_or thresholds "low" 2.0) then "low"
          else if Qle_bool value (get_or thresholds "moderate" 4.0) then "moderate"
          else if Qle_bool value (get_or thresholds "high" 6.0) then "elevated"
          else "high"
      end
  end.

(** [a < b] on floats *)
Definition Qlt_bool (a b : Q) : bool := negb (Qle_bool b a).

Definition _generate_assistant_response (result : TriangulatedResult.t)
  (metric : MetricType) : string :=
  let risk_level := _assess_risk_level metric (TriangulatedResult.consensus_value result) in
  let cite (name : string) (v : option Q) : list string :=
    match v with
    | Some x => [name ++ " (" ++ fmt2 x ++ "%)"]
    | None => []
    end in
  let citations :=
    (cite "FRED" (TriangulatedResult.fred_value result)
     ++ cite "World Bank" (TriangulatedResult.worldbank_value result)
     ++ cite "OECD" (TriangulatedResult.oecd_value result))%list in
  let sources_text :=
    match citations with
    | [] => "no available sources"
    | _ => join ", " citations
    end in
  let confidence_text :=
    match TriangulatedResult.confidence result with
    | HIGH => "high confidence (all sources agree)"
    | MEDIUM => "medium confidence (majority of sources agree)"
    | LOW => "low confidence (sources disagree significantly)"
    | SINGLE_SOURCE => "limited confidence (single source only)"
    | NO_DATA => "no confidence (no data available)"
    end in
  let metric_text := replace_char "_" " " (TriangulatedResult.metric result) in
  match TriangulatedResult.consensus_value result with
  | Some consensus_value =>
      let response :=
        "Based on " ++ sources_text ++ ", " ++ TriangulatedResult.country result
        ++ "'s " ++ metric_text ++ " "
        ++ "is approximately " ++ fmt2 consensus_value ++ "% (as of "
        ++ str (TriangulatedResult.period result) ++ ")." ++ nl ++ nl
        ++ "**Confidence Level:** " ++ capitalize confidence_text ++ nl
        ++ "**Risk Assessment:** " ++ capitalize risk_level ++ " risk" ++ nl ++ nl
        ++ "**Analysis:** " ++ TriangulatedResult.explanation result in
      match metric with
      | GDP_GROWTH =>
          if Qlt_bool consensus_value 1.0 then
            response ++ nl ++ nl
            ++ "**Implication:** Weak growth suggests potential recession risk. "
            ++ "Consider defensive positioning in portfolios."
          else if Qlt_bool 3.0 consensus_value then
            response ++ nl ++ nl
            ++ "**Implication:** Strong growth may lead to inflationary pressures "
            ++ "and potential monetary tightening."
          else response
      | INFLATION =>
          if Qlt_bool 4.0 consensus_value then
            response ++ nl ++ nl
            ++ "**Implication:** Elevated inflation erodes purchasing power and may "
            ++ "prompt central bank rate hikes. Duration exposure should be monitored."
          else response
      | _ => response
      end
  | None =>
      "Unable to provide a reliable estimate for " ++ TriangulatedResult.country result
      ++ "'s " ++ metric_text ++ ". " ++ TriangulatedResult.explanation result
  end.

Definition format_sample (result : TriangulatedResult.t) (metric : MetricType)
  (question_variant : Z) : py ChatMLSample.t :=
  let questions := METRIC_QUESTIONS metric in
  question_idx <- py_mod question_variant (Z.of_nat (List.length questions)) ;;
  template <- getitem questions question_idx ;;
  let question := format template (TriangulatedResult.country result) in
  let assistant_response := _generate_assistant_response result metric in
  Ret {| ChatMLSample.messages :=
           [ {| ChatMLMessage.role := "system"; ChatMLMessage.content := SYSTEM_PROMPT |};
             {| ChatMLMessage.role := "user"; ChatMLMessage.content := question |};
             {| ChatMLMessage.role := "assistant";
                ChatMLMessage.content := assistant_response |} ] |}.

(** The loop of [format_multi_turn]: the messages appended for the
    zipped results and metrics. *)
Fixpoint turns (pairs : list (TriangulatedResult.t * MetricType))
  : py (list ChatMLMessage.t) :=
  match pairs with
  | [] => Ret []
  | (result, metric) :: rest =>
      template <- getitem (METRIC_QUESTIONS metric) 0 ;;
      let question := format template (TriangulatedResult.country result) in
      let response := _generate_assistant_response result metric in
      more <- turns rest ;;
      Ret ({| ChatMLMessage.role := "user"; ChatMLMessage.content := question |}
           :: {| ChatMLMessage.role := "assistant"; ChatMLMessage.content := response |}
           :: more)
  end.

Definition format_multi_turn (results : list TriangulatedResult.t)
  (metrics : list MetricType) : py ChatMLSample.t :=
  more <- turns (combine results metrics) ;;
  Ret {| ChatMLSample.messages :=
           {| ChatMLMessage.role := "system"; ChatMLMessage.content := SYSTEM_PROMPT |}
           :: more |}.
End Formatter.
End ChatMLFormatter.
(** ** generator.py *)

Module DatasetGenerator.
Section Generator.
(** The fields set by [__init__]: the engine's configuration; and the
    [str] the formatter's f-strings apply to a period. *)
Variable tolerance_percent : Q.
Variable fred_api_key : option string.
Variable str : pyval -> string.

Definition _sample_to_dict (sample : ChatMLSample.t) : pyval :=
  PDict [("messages",
          PList (map (fun msg =>
                        PDict [("role", PStr (ChatMLMessage.role msg));
                               ("content", PStr (ChatMLMessage.content msg))])
                   (ChatMLSample.messages sample)))].

(** The loop of lines 62-64: the samples appended before the loop ends
    or a [format_sample] raises, and the exception if one did. *)
Fixpoint add_variants (result : TriangulatedResult.t) (metric : MetricType)
  (variants : list Z) (samples : list pyval) : list pyval * option exn :=
  match variants with
  | [] => (samples, None)
  | variant :: rest =>
      match ChatMLFormatter.format_sample str result metric variant with
      | Ret sample =>
          add_variants result metric rest (samples ++ [_sample_to_dict sample])%list
      | Raise e => (samples, Some e)
      end
  end.

(** The loop of lines 56-68 for one country: [samples] and
    [country_results] as they stand after the metrics.  [except
    Exception] catches whatever a step raises and goes on to the next
    metric, keeping what was appended before; a float that is not a
    rational is no exception and ends the modelled run. *)
Fixpoint metrics_loop (w : World) (country : string) (metrics : list MetricType)
  (question_variants : Z)
  (samples : list pyval) (country_results : list (TriangulatedResult.t * MetricType))
  : io (list pyval * list (TriangulatedResult.t * MetricType)) :=
  match metrics with
  | [] => io_lift (Ret (samples, country_results))
  | metric :: rest =>
      fun log =>
        match TriangulationEngine.triangulate tolerance_percent fred_api_key w
                metric country None None log with
        | (Ret result, log') =>
            let country_results' := (country_results ++ [(result, metric)])%list in
            match add_variants result metric (range question_variants) samples with
            | (samples', Some NonFinite) => (Raise NonFinite, log')
            | (samples', _) =>
                metrics_loop w country rest question_variants samples' country_results' log'
            end
        | (Raise NonFinite, log') => (Raise NonFinite, log')
        | (Raise _, log') =>
            metrics_loop w country rest question_variants samples country_results log'
        end
  end.

(** The loop of lines 53-75 over the countries. *)
Fixpoint countries_loop (w : World) (countries : list string)
  (metrics : list MetricType) (question_variants : Z) (include_multi_turn : bool)
  (samples : list pyval) : io (list pyval) :=
  match countries with
  | [] => io_lift (Ret samples)
  | country :: rest =>
      (sc <- metrics_loop w country metrics question_variants samples [] ;;
       let '(samples, country_results) := sc in
       samples <-
         (if include_multi_turn && (2 <=? List.length country_results)%nat then
            let results := map fst country_results in
            let metric_list := map snd country_results in
            multi_turn_sample <-
              io_lift (ChatMLFormatter.format_multi_turn str results metric_list) ;;
            io_lift (Ret (samples ++ [_sample_to_dict multi_turn_sample])%list)
          else io_lift (Ret samples)) ;;
       countries_loop w rest metrics question_variants include_multi_turn samples)%io
  end.

Definition generate_dataset (w : World) (countries : list string)
  (metrics : list MetricType) (question_variants : Z) (include_multi_turn : bool)
  : io (list pyval) :=
  countries_loop w countries metrics question_variants include_multi_turn [].
End Generator.
End DatasetGenerator.
(** ** Vocabulary for the formatter and the generator *)

(** The risk levels in increasing order. *)
Definition risk_rank (level : string) : nat :=
  if String.eqb level "low" then 0
  else if String.eqb level "moderate" then 1
  else if String.eqb level "elevated" then 2
  else if String.eqb level "high" then 3
  else 4.

(** The message of a role. *)
Definition message (role content : string) : ChatMLMessage.t :=
  {| ChatMLMessage.role := role; ChatMLMessage.content := content |}.


(** [str] on the periods of the sample results. *)
Definition str_of_period (v : pyval) : string :=
  match v with
  | PStr s => s
  | _ => ""
  end.


(** The text gives [x] as the estimate, after naming its sources. *)
Definition states_estimate (text : string) (x : Q) : Prop :=
  exists pre post,
    text = "Based on " ++ pre ++ "is approximately " ++ fmt2 x ++ "% (as of " ++ post.

(** The sample is a conversation: the system prompt, then a user
    message, then at least one more message. *)
Definition is_conversation (sample : pyval) : Prop :=
  exists question answer rest,
    sample = DatasetGenerator._sample_to_dict
               {| ChatMLSample.messages :=
                    message "system" ChatMLFormatter.SYSTEM_PROMPT
                    :: message "user" question :: answer :: rest |}
    /\ ChatMLMessage.role answer = "assistant".

(** * The engine's arithmetic in IEEE binary64

    [triangulation.py] computes on Python floats.  This module embeds the
    three functions of the engine that compute or compare
    ([_values_agree], [_calculate_consensus], [_determine_confidence]) on
    binary64 numbers, with the operations Python applies to them:
    [==], [<] and [<=] compare as IEEE 754 does (a NaN is unordered and
    equal to nothing, the two zeros are equal), and [+], [-], [*], [/]
    round to nearest, ties to even, and overflow to an infinity.
    [triangulate] hands the three fetched values to
    [_determine_confidence] and those that are not [None] to
    [_calculate_consensus] (lines 196-200), and stores what they
    return. *)

Module Binary64.
Local Open Scope float_scope.

(** [math.isfinite(x)] *)
Definition finite (x : float) : bool :=
  match Prim2SF x with
  | S754_zero _ | S754_finite _ _ _ => true
  | S754_infinity _ | S754_nan => false
  end.

(** The real number a finite float stands for. *)
Definition exact (x : float) : option Q :=
  match Prim2SF x with
  | S754_zero _ => Some 0%Q
  | S754_finite s m e =>
      let v := (inject_Z (Zpos m) * Qpower 2 e)%Q in
      Some (if s then (- v)%Q else v)
  | S754_infinity _ | S754_nan => None
  end.

(** [f"{x:.2f}"]: the exact value rounded to two decimals, ties to even,
    under the sign of [x]. *)
Definition fmt2 (x : float) : string :=
  match Prim2SF x with
  | S754_nan => "nan"
  | S754_infinity s => if s then "-inf" else "inf"
  | S754_zero s => (if s then "-" else "") ++ "0.00"
  | S754_finite s m e =>
      let n := round_half_even (inject_Z (Zpos m) * Qpower 2 e * 100)%Q in
      let frac := (n mod 100)%Z in
      (if s then "-" else "") ++
      str_of_int (n / 100) ++ "." ++
      (if (frac <? 10)%Z then "0" else "") ++ str_of_int frac
  end.

(** [a / b]: a zero divisor raises. *)
Definition py_div (a b : float) : py float :=
  if b =? 0 then Raise ZeroDivisionError else Ret (a / b).

(** [x < y] is the only comparison [sorted] makes: [x] goes before [y]
    unless [y < x]. *)
Definition not_after (x y : float) : bool := negb (y <? x).

(** What [if v is not None: valid_values.append((tag, v))] appends. *)
Definition present (tag : string) (v : option float) : list (string * float) :=
  match v with
  | Some x => [(tag, x)]
  | None => []
  end.

Section Engine.
(** [self.tolerance_percent] *)
Variable tolerance_percent : float.

Definition _values_agree (val1 val2 : float) : py bool :=
  if (val1 =? 0) && (val2 =? 0) then Ret true
  else if (val1 =? 0) || (val2 =? 0) then
    Ret (abs (val1 - val2) <=? tolerance_percent)
  else
    let avg := (abs val1 + abs val2) / 2 in
    q <- py_div (abs (val1 - val2)) avg ;;
    let diff_percent := q * 100 in
    Ret (diff_percent <=? tolerance_percent).

(** [sorted] is the stable ascending sort; on a list that [<] orders
    totally (one without NaN) every stable sort returns the same list,
    and up to three values, which is all the engine passes, it is also
    the list CPython's [sorted] returns when a NaN is among them. *)
Definition _calculate_consensus (values : list float) : py (option float) :=
  match values with
  | [] => Ret None
  | _ =>
      let sorted_values := sorted not_after values in
      let n := Z.of_nat (List.length sorted_values) in
      if (n mod 2 =? 0)%Z then
        a <- getitem sorted_values (n / 2 - 1) ;;
        b <- getitem sorted_values (n / 2) ;;
        Ret (Some ((a + b) / 2))
      else
        a <- getitem sorted_values (n / 2) ;;
        Ret (Some a)
  end.

(** The list [sources] the function also fills is never read. *)
Definition _determine_confidence (fred_val wb_val oecd_val : option float)
  : py (ConfidenceLevel * string) :=
  let valid_values :=
    (present "FRED" fred_val ++ present "World Bank" wb_val
     ++ present "OECD" oecd_val)%list in
  match valid_values with
  | [] => Ret (NO_DATA, "No data available from any source.")
  | [(src, val)] =>
      Ret (SINGLE_SOURCE, "Only " ++ src ++ " provided data (" ++ fmt2 val ++ "%).")
  | [(src1, val1); (src2, val2)] =>
      agree <- _values_agree val1 val2 ;;
      if agree then
        Ret (MEDIUM,
             src1 ++ " (" ++ fmt2 val1 ++ "%) and " ++ src2 ++ " (" ++ fmt2 val2
             ++ "%) agree within tolerance. "
             ++ "Third source unavailable for full triangulation.")
      else
        Ret (LOW,
             src1 ++ " (" ++ fmt2 val1 ++ "%) and " ++ src2 ++ " (" ++ fmt2 val2
             ++ "%) disagree. "
             ++ "Third source unavailable for tie-breaker.")
  | _ =>
      (* All three sources available *)
      match fred_val, wb_val, oecd_val with
      | Some fred_val, Some wb_val, Some oecd_val =>
          fred_wb_agree <- _values_agree fred_val wb_val ;;
          fred_oecd_agree <- _values_agree fred_val oecd_val ;;
          wb_oecd_agree <- _values_agree wb_val oecd_val ;;
          let agreements :=
            (Nat.b2n fred_wb_agree + Nat.b2n fred_oecd_agree
             + Nat.b2n wb_oecd_agree)%nat in
          if (agreements =? 3)%nat then
            Ret (HIGH,
                 "All three sources agree: FRED (" ++ fmt2 fred_val ++ "%), "
                 ++ "World Bank (" ++ fmt2 wb_val ++ "%), OECD (" ++ fmt2 oecd_val
                 ++ "%).")
          else if (1 <=? agreements)%nat then
            if fred_wb_agree then
              Ret (MEDIUM,
                   "FRED (" ++ fmt2 fred_val ++ "%) and World Bank (" ++ fmt2 wb_val
                   ++ "%) agree. "
                   ++ "OECD (" ++ fmt2 oecd_val ++ "%) differs but serves as validation.")
            else if fred_oecd_agree then
              Ret (MEDIUM,
                   "FRED (" ++ fmt2 fred_val ++ "%) and OECD (" ++ fmt2 oecd_val
                   ++ "%) agree. "
                   ++ "World Bank (" ++ fmt2 wb_val ++ "%) differs.")
            else
              Ret (MEDIUM,
                   "World Bank (" ++ fmt2 wb_val ++ "%) and OECD (" ++ fmt2 oecd_val
                   ++ "%) agree. "
                   ++ "FRED (" ++ fmt2 fred_val ++ "%) differs.")
          else
            Ret (LOW,
                 "All sources disagree significantly: FRED (" ++ fmt2 fred_val ++ "%), "
                 ++ "World Bank (" ++ fmt2 wb_val ++ "%), OECD (" ++ fmt2 oecd_val
                 ++ "%). "
                 ++ "Exercise caution with this data.")
      | _, _, _ => Raise TypeError
      end
  end.
End Engine.

(** ** Specification vocabulary on binary64 values *)

(** [a == b], [a <= b] as Python evaluates them. *)
Definition eq (a b : float) : Prop := (a =? b) = true.
Definition le (a b : float) : Prop := (a <=? b) = true.

(** The agreement condition read in real arithmetic on the numbers the
    three floats stand for. *)
Definition agree_in_reals (tolerancePercent a b : float) : Prop :=
  match exact tolerancePercent, exact a, exact b with
  | Some t, Some x, Some y => agree t x y
  | _, _, _ => False
  end.

(** [m] stands for the real average of the numbers [a] and [b] stand
    for. *)
Definition average_in_reals (a b m : float) : Prop :=
  match exact a, exact b, exact m with
  | Some x, Some y, Some z => (z == (x + y) / 2)%Q
  | _, _, _ => False
  end.

(** How many of [xs] are at most, and at least, [m]. *)
Definition count_le (m : float) (xs : list float) : nat :=
  List.length (filter (fun x => x <=? m) xs).
Definition count_ge (m : float) (xs : list float) : nat :=
  List.length (filter (fun x => m <=? x) xs).

(** Two values agree within a tolerance, every operation being the
    binary64 one: both are zero; or exactly one is zero and the absolute
    difference is within the tolerance; or neither is zero and the
    relative difference, in percent of the mean magnitude, is within the
    tolerance. *)
Definition agree (tolerancePercent a b : float) : Prop :=
  (eq a 0 /\ eq b 0)
  \/ (((eq a 0 /\ ~ eq b 0) \/ (~ eq a 0 /\ eq b 0))
      /\ le (abs (a - b)) tolerancePercent)
  \/ (~ eq a 0 /\ ~ eq b 0
      /\ le (abs (a - b) / ((abs a + abs b) / 2) * 100) tolerancePercent).

(** The confidence label as a function of the values present, in call
    order, and of their pairwise agreement. *)
Definition confidence_by_count (tolerancePercent : float) (withValue : list float)
  (label : ConfidenceLevel) : Prop :=
  match withValue with
  | [] => label = NO_DATA
  | [_] => label = SINGLE_SOURCE
  | [a; b] =>
      (agree tolerancePercent a b -> label = MEDIUM)
      /\ (~ agree tolerancePercent a b -> label = LOW)
  | [a; b; c] =>
      let ab := agree tolerancePercent a b in
      let ac := agree tolerancePercent a c in
      let bc := agree tolerancePercent b c in
      (ab /\ ac /\ bc -> label = HIGH)
      /\ ((ab \/ ac \/ bc) /\ ~ (ab /\ ac /\ bc) -> label = MEDIUM)
      /\ (~ ab /\ ~ ac /\ ~ bc -> label = LOW)
  | _ => False
  end.

(** The middle of an ascending list: the middle element for an odd
    length; for an even length the binary64 sum of the two middle
    elements, halved. *)
Definition middle_of (s : list float) (m : float) : Prop :=
  let n := List.length s in
  if Nat.even n then
    exists a b, nth_error s (n / 2 - 1) = Some a /\ nth_error s (n / 2) = Some b
                /\ m = (a + b) / 2
  else
    exists a, nth_error s (n / 2) = Some a /\ m = a.

(** [m] is the median of [xs]: the middle of [xs] sorted ascending. *)
Definition is_median (xs : list float) (m : float) : Prop :=
  exists s, Permutation xs s /\ StronglySorted le s /\ middle_of s m.

(** Results of the consensus function, compared with [==]. *)
Definition same_consensus (r1 r2 : py (option float)) : Prop :=
  match r1, r2 with
  | Ret (Some a), Ret (Some b) => eq a b
  | Ret None, Ret None => True
  | _, _ => False
  end.

End Binary64.

(** ** Binary64 numbers as the specification of floating-point arithmetic
    describes them

    [Prim2SF] gives the sign, mantissa and exponent of a float; the
    notions below are about that representation. *)

(** Not a zero. *)
Definition SFnonzero (x : spec_float) : Prop :=
  match x with S754_zero _ => False | _ => True end.

(** Not a NaN. *)
Definition SFordered (x : spec_float) : Prop :=
  match x with S754_nan => False | _ => True end.

(** A zero or a finite number. *)
Definition SFfinite (x : spec_float) : Prop :=
  match x with S754_zero _ | S754_finite _ _ _ => True | _ => False end.

(** Above the least subnormal in magnitude, [2^-1074]. *)
Definition SFbig (x : spec_float) : Prop :=
  match x with
  | S754_zero _ => False
  | S754_finite _ m e => (-1074 < e)%Z \/ (2 <= m)%positive
  | _ => True
  end.

(** The float [2.0]. *)
Definition SFtwo : spec_float := S754_finite false 4503599627370496 (-51).

(** A float that is not a NaN, placed in the lexicographic order of
    (class and sign, exponent, mantissa). *)
Definition SFkey (x : spec_float) : Z * Z * Z :=
  match x with
  | S754_zero _ => (0, 0, 0)%Z
  | S754_infinity s => (if s then -2 else 2, 0, 0)%Z
  | S754_finite s m e => if s then (-1, - e, - Zpos m)%Z else (1, e, Zpos m)%Z
  | S754_nan => (0, 0, 0)%Z
  end.

Definition lex_le3 (p q : Z * Z * Z) : Prop :=
  let '(a, b, c) := p in
  let '(a', b', c') := q in
  (a < a' \/ (a = a' /\ (b < b' \/ (b = b' /\ c <= c'))))%Z.

(** Equal, or two zeros of whatever sign: what [==] cannot tell apart. *)
Definition SFsim (x y : spec_float) : Prop :=
  x = y \/ ((exists s, x = S754_zero s) /\ (exists s, y = S754_zero s)).

(** [x == x]: [x] is not a NaN. *)
Definition ordered (x : float) : Prop := (x =? x)%float = true.

Definition all_finite (xs : list float) : Prop :=
  Forall (fun x => Binary64.finite x = true) xs.

(** Two admissible elements that an order does not separate. *)
Definition tied {A : Type} (ok : A -> Prop) (le : A -> A -> Prop) (x y : A) : Prop :=
  ok x /\ ok y /\ le x y /\ le y x.

(** ** Vocabulary for the generator's runs *)




(** * Properties *)

Import TriangulationEngine.

(** ** Rational comparisons *)

Lemma Qeq_bool_false_iff (x y : Q) : Qeq_bool x y = false <-> ~ x == y.
Proof.
  split.
  - intros H E. apply Qeq_bool_iff in E. congruence.
  - intros H. destruct (Qeq_bool x y) eqn:E; [|reflexivity].
    apply Qeq_bool_iff in E. contradiction.
Qed.

Lemma Qle_bool_false_iff (x y : Q) : Qle_bool x y = false <-> ~ x <= y.
Proof.
  split.
  - intros H E. apply Qle_bool_iff in E. congruence.
  - intros H. destruct (Qle_bool x y) eqn:E; [|reflexivity].
    apply Qle_bool_iff in E. contradiction.
Qed.

Lemma Qabs_pos (x : Q) : ~ x == 0 -> 0 < Qabs x.
Proof.
  intros H. apply Qabs_case; intros; lra.
Qed.

Lemma mean_magnitude_pos (a b : Q) :
  ~ a == 0 -> ~ b == 0 -> 0 < (Qabs a + Qabs b) / 2.
Proof.
  intros Ha Hb.
  pose proof (Qabs_pos a Ha) as Pa. pose proof (Qabs_pos b Hb) as Pb.
  clear Ha Hb. revert Pa Pb. generalize (Qabs a) (Qabs b).
  intros x y Hx Hy. apply Qlt_shift_div_l; lra.
Qed.

(** ** [_values_agree] *)

Lemma values_agree_reflect (tol a b : Q) :
  exists x, _values_agree tol a b = Ret x /\ (x = true <-> agree tol a b).
Proof.
  unfold _values_agree, agree.
  destruct (Qeq_bool a 0) eqn:Ea, (Qeq_bool b 0) eqn:Eb; cbn [andb orb].
  - apply Qeq_bool_iff in Ea, Eb. exists true. intuition.
  - apply Qeq_bool_iff in Ea. apply Qeq_bool_false_iff in Eb.
    eexists; split; [reflexivity|]. rewrite Qle_bool_iff. intuition.
  - apply Qeq_bool_iff in Eb. apply Qeq_bool_false_iff in Ea.
    eexists; split; [reflexivity|]. rewrite Qle_bool_iff. intuition.
  - apply Qeq_bool_false_iff in Ea, Eb.
    pose proof (mean_magnitude_pos a b Ea Eb) as Hp.
    unfold py_div.
    replace (Qeq_bool ((Qabs a + Qabs b) / 2) 0) with false
      by (symmetry; apply Qeq_bool_false_iff; lra).
    cbn [py_bind]. eexists; split; [reflexivity|]. rewrite Qle_bool_iff. intuition.
Qed.

Lemma values_agree_true (tol a b : Q) :
  agree tol a b -> _values_agree tol a b = Ret true.
Proof.
  intros H. destruct (values_agree_reflect tol a b) as [x [E Hx]].
  rewrite E. f_equal. apply Hx, H.
Qed.

Lemma values_agree_false (tol a b : Q) :
  ~ agree tol a b -> _values_agree tol a b = Ret false.
Proof.
  intros H. destruct (values_agree_reflect tol a b) as [[|] [E Hx]].
  - exfalso. apply H, Hx. reflexivity.
  - exact E.
Qed.

#[local] Instance agree_wd : Proper (Qeq ==> Qeq ==> Qeq ==> iff) agree.
Proof.
  intros t t' Ht a a' Ha b b' Hb. unfold agree.
  rewrite Ht, Ha, Hb. reflexivity.
Qed.

(** ** [sorted] *)

Section SortedFacts.
Context {A : Type} (leb : A -> A -> bool).

Lemma insert_perm (x : A) (l : list A) : Permutation (x :: l) (insert leb x l).
Proof.
  induction l as [|y l IH]; cbn; [reflexivity|].
  destruct (leb x y); [reflexivity|].
  rewrite perm_swap. constructor. exact IH.
Qed.

Lemma sorted_perm (l : list A) : Permutation l (sorted leb l).
Proof.
  induction l as [|x l IH]; cbn; [constructor|].
  rewrite <- insert_perm. constructor. exact IH.
Qed.

Lemma sorted_length (l : list A) : List.length (sorted leb l) = List.length l.
Proof. symmetry. apply Permutation_length, sorted_perm. Qed.
End SortedFacts.

Lemma insert_Forall2 (x x' : Q) (l l' : list Q) :
  x == x' -> Forall2 Qeq l l' ->
  Forall2 Qeq (insert Qle_bool x l) (insert Qle_bool x' l').
Proof.
  intros Hx H. induction H as [|y y' l l' Hy Hl IH]; cbn.
  - constructor; [exact Hx | constructor].
  - assert (E : Qle_bool x y = Qle_bool x' y').
    { destruct (Qle_bool x' y') eqn:E'.
      - apply Qle_bool_iff. apply Qle_bool_iff in E'. lra.
      - apply Qle_bool_false_iff. apply Qle_bool_false_iff in E'. lra. }
    rewrite E. destruct (Qle_bool x' y'); repeat constructor; assumption.
Qed.

Lemma sorted_Forall2 (xs ys : list Q) :
  Forall2 Qeq xs ys ->
  Forall2 Qeq (sorted Qle_bool xs) (sorted Qle_bool ys).
Proof.
  induction 1; cbn; [constructor|]. apply insert_Forall2; assumption.
Qed.

(** ** [_calculate_consensus] *)

Lemma index_list_nat {A} (l : list A) (k : nat) :
  index_list l (Z.of_nat k) = nth_error l k.
Proof.
  unfold index_list.
  destruct (Z.ltb_spec (Z.of_nat k) 0) as [H|H]; [lia|].
  destruct (Z.ltb_spec (Z.of_nat k) 0); [lia|].
  now rewrite Nat2Z.id.
Qed.

Lemma getitem_nat {A} (l : list A) (k : nat) (x : A) :
  nth_error l k = Some x -> getitem l (Z.of_nat k) = Ret x.
Proof. intros H. unfold getitem. now rewrite index_list_nat, H. Qed.

Lemma nth_error_in_range {A} (l : list A) (k : nat) :
  (k < List.length l)%nat -> exists x, nth_error l k = Some x.
Proof.
  intros H. destruct (nth_error l k) eqn:E; [eauto|].
  apply nth_error_None in E. lia.
Qed.

Lemma parity_split (n : nat) :
  (exists k, n = (2 * k)%nat /\ Nat.even n = true /\ (n / 2 = k)%nat)
  \/ (exists k, n = (2 * k + 1)%nat /\ Nat.even n = false /\ (n / 2 = k)%nat).
Proof.
  destruct (Nat.even n) eqn:E.
  - left. apply Nat.even_spec in E. destruct E as [k ->].
    exists k. repeat split. rewrite Nat.mul_comm. apply Nat.div_mul. lia.
  - right. assert (O : Nat.odd n = true) by (rewrite <- Nat.negb_even, E; reflexivity).
    apply Nat.odd_spec in O. destruct O as [k ->].
    exists k. repeat split.
    replace (2 * k + 1)%nat with (1 + k * 2)%nat by lia.
    rewrite Nat.div_add by lia. reflexivity.
Qed.

(** On a non-empty list the consensus is the middle of the sorted list,
    and no index is out of range. *)
Lemma calculate_consensus_middle (xs : list Q) :
  xs <> [] ->
  exists m, _calculate_consensus xs = Ret (Some m)
            /\ middle_of (sorted Qle_bool xs) m.
Proof.
  intros Hne. unfold _calculate_consensus, middle_of.
  destruct xs as [|x0 xs0]; [contradiction|].
  set (s := sorted Qle_bool (x0 :: xs0)).
  assert (Hlen : (0 < List.length s)%nat).
  { unfold s. rewrite sorted_length. cbn. lia. }
  destruct (parity_split (List.length s)) as [[k [Hk [Ev Hh]]]|[k [Hk [Ev Hh]]]];
    rewrite Ev, Hh.
  - assert (Z.of_nat (List.length s) = (Z.of_nat k * 2)%Z) as -> by lia.
    rewrite Z_mod_mult, Z.div_mul by lia. cbn [Z.eqb].
    destruct (nth_error_in_range s (k - 1)) as [a Ha]; [lia|].
    destruct (nth_error_in_range s k) as [b Hb]; [lia|].
    replace (Z.of_nat k - 1)%Z with (Z.of_nat (k - 1)) by lia.
    rewrite (getitem_nat _ _ _ Ha), (getitem_nat _ _ _ Hb). cbn.
    exists ((a + b) / 2). split; [reflexivity|].
    exists a, b. repeat split; assumption || reflexivity.
  - assert (Z.of_nat (List.length s) = (1 + Z.of_nat k * 2)%Z) as -> by lia.
    rewrite Z_mod_plus, Z.div_add by lia. cbn [Z.eqb Z.modulo Z.div Z.add].
    change (1 mod 2)%Z with 1%Z. change (1 / 2)%Z with 0%Z. cbn [Z.eqb Z.add].
    destruct (nth_error_in_range s k) as [a Ha]; [lia|].
    rewrite (getitem_nat _ _ _ Ha). cbn.
    exists a. split; [reflexivity|]. exists a. split; [assumption | reflexivity].
Qed.

Lemma Forall2_nth_error (s s' : list Q) (k : nat) (a a' : Q) :
  Forall2 Qeq s s' -> nth_error s k = Some a -> nth_error s' k = Some a' -> a == a'.
Proof.
  intros H. revert k. induction H; intros [|k] Ha Ha'; cbn in *; try discriminate.
  - congruence.
  - eauto.
Qed.

Lemma Forall2_length_Q (s s' : list Q) :
  Forall2 Qeq s s' -> List.length s = List.length s'.
Proof. induction 1; cbn; congruence. Qed.

Lemma middle_of_Forall2 (s s' : list Q) (m m' : Q) :
  Forall2 Qeq s s' -> middle_of s m -> middle_of s' m' -> m == m'.
Proof.
  intros H. unfold middle_of. rewrite <- (Forall2_length_Q _ _ H).
  destruct (Nat.even (List.length s)).
  - intros [a [b [Ha [Hb Hm]]]] [a' [b' [Ha' [Hb' Hm']]]].
    rewrite Hm, Hm'.
    rewrite (Forall2_nth_error _ _ _ _ _ H Ha Ha').
    rewrite (Forall2_nth_error _ _ _ _ _ H Hb Hb'). reflexivity.
  - intros [a [Ha Hm]] [a' [Ha' Hm']].
    rewrite Hm, Hm'. exact (Forall2_nth_error _ _ _ _ _ H Ha Ha').
Qed.

Lemma consensus_of_Forall2_sorted (xs ys : list Q) :
  Forall2 Qeq (sorted Qle_bool xs) (sorted Qle_bool ys) ->
  same_consensus (_calculate_consensus xs) (_calculate_consensus ys).
Proof.
  intros H. pose proof (Forall2_length_Q _ _ H) as L.
  rewrite !sorted_length in L.
  destruct xs as [|x xs], ys as [|y ys]; try discriminate; [exact I|].
  destruct (calculate_consensus_middle (x :: xs)) as [m [E M]]; [discriminate|].
  destruct (calculate_consensus_middle (y :: ys)) as [m' [E' M']]; [discriminate|].
  rewrite E, E'. cbn. exact (middle_of_Forall2 _ _ _ _ H M M').
Qed.

(** ** [triangulate]: the fetches and the reconciliation *)

Lemma triangulate_of_fetched tol key w m cc sy ey log fd wd od log' :
  fetched key w m cc sy ey log fd wd od log' ->
  triangulate tol key w m cc sy ey log = (reconcile tol m cc fd wd od, log').
Proof.
  intros [log1 [log2 [Hf [Hw Ho]]]].
  unfold triangulate, io_bind. rewrite Hf, Hw, Ho. reflexivity.
Qed.

Lemma triangulate_inv tol key w m cc sy ey log r log' :
  triangulate tol key w m cc sy ey log = (Ret r, log') ->
  exists fd wd od,
    fetched key w m cc sy ey log fd wd od log'
    /\ reconcile tol m cc fd wd od = Ret r.
Proof.
  unfold triangulate, io_bind, fetched.
  destruct (FREDClient.fetch_metric w key m cc sy ey log) as [[fd|e1] log1] eqn:E1;
    [|discriminate].
  destruct (WorldBankClient.fetch_metric w m cc sy ey log1) as [[wd|e2] log2] eqn:E2;
    [|discriminate].
  destruct (OECDClient.fetch_metric w m cc sy ey log2) as [[od|e3] log3] eqn:E3;
    [|discriminate].
  unfold io_lift. intros [= H <-].
  exists fd, wd, od. split; [|exact H]. exists log1, log2. repeat split; assumption.
Qed.

Lemma reconcile_inv tol m cc fd wd od r :
  reconcile tol m cc fd wd od = Ret r ->
  let fv := MacroDataPoint.value fd in
  let wv := MacroDataPoint.value wd in
  let ov := MacroDataPoint.value od in
  exists c e,
    _determine_confidence tol fv wv ov = Ret (c, e)
    /\ _calculate_consensus (not_none [fv; wv; ov])
       = Ret (TriangulatedResult.consensus_value r)
    /\ select_period (candidate_periods [fd; wd; od])
       = Ret (TriangulatedResult.period r)
    /\ TriangulatedResult.confidence r = c
    /\ TriangulatedResult.explanation r = e
    /\ TriangulatedResult.fred_value r = fv
    /\ TriangulatedResult.worldbank_value r = wv
    /\ TriangulatedResult.oecd_value r = ov
    /\ TriangulatedResult.sources_used r
       = ((if is_some fv then ["FRED"] else [])
          ++ (if is_some wv then ["World Bank"] else [])
          ++ (if is_some ov then ["OECD"] else []))%list
    /\ TriangulatedResult.disagreement_details r
       = match c with HIGH | MEDIUM => None | _ => Some e end.
Proof.
  unfold reconcile. cbn zeta.
  destruct (_determine_confidence tol _ _ _) as [[c e]|]; [|discriminate].
  cbn [py_bind].
  destruct (_calculate_consensus _) as [cons|]; [|discriminate].
  cbn [py_bind].
  destruct (select_period _) as [per|]; [|discriminate].
  cbn [py_bind]. intros [= <-]. exists c, e. cbn.
  repeat split.
Qed.

(** ** [_determine_confidence] *)

Lemma determine_confidence_label (tol : Q) (fv wv ov : option Q) :
  exists c e,
    _determine_confidence tol fv wv ov = Ret (c, e)
    /\ confidence_by_count tol (not_none [fv; wv; ov]) c.
Proof.
  unfold _determine_confidence.
  destruct fv as [a|], wv as [b|], ov as [d|]; cbn [present app not_none].
  - destruct (values_agree_reflect tol a b) as [x [-> Hx]].
    destruct (values_agree_reflect tol a d) as [y [-> Hy]].
    destruct (values_agree_reflect tol b d) as [z [-> Hz]].
    cbn [py_bind confidence_by_count].
    destruct x, y, z; cbn; eexists _, _; (split; [reflexivity|]);
      repeat split; intros; intuition congruence.
  - destruct (values_agree_reflect tol a b) as [x [-> Hx]].
    destruct x; cbn; eexists _, _; (split; [reflexivity|]);
      split; intros; intuition congruence.
  - destruct (values_agree_reflect tol a d) as [x [-> Hx]].
    destruct x; cbn; eexists _, _; (split; [reflexivity|]);
      split; intros; intuition congruence.
  - cbn. eauto.
  - destruct (values_agree_reflect tol b d) as [x [-> Hx]].
    destruct x; cbn; eexists _, _; (split; [reflexivity|]);
      split; intros; intuition congruence.
  - cbn. eauto.
  - cbn. eauto.
  - cbn. eauto.
Qed.

(** ** Claims on the result of [triangulate] *)

Lemma not_none_nil (fv wv ov : option Q) :
  not_none [fv; wv; ov] = [] <-> fv = None /\ wv = None /\ ov = None.
Proof.
  destruct fv, wv, ov; cbn; split; intros H; try discriminate; auto;
    destruct H as [? [? ?]]; discriminate.
Qed.

(** C4.  For every call to [triangulate] that returns, the consensus
    value is present if and only if at least one of the three data
    points has a value; when none has, the confidence is [NO_DATA] and
    the consensus value is absent. *)
Theorem C4_consensus_present_iff_some_value
  tolerance_percent key w metric country_code start_year end_year log r log' :
  triangulate tolerance_percent key w metric country_code start_year end_year log
    = (Ret r, log') ->
  exists fd wd od,
    fetched key w metric country_code start_year end_year log fd wd od log'
    /\ (TriangulatedResult.consensus_value r <> None
        <-> (MacroDataPoint.value fd <> None \/ MacroDataPoint.value wd <> None
             \/ MacroDataPoint.value od <> None))
    /\ (MacroDataPoint.value fd = None -> MacroDataPoint.value wd = None ->
        MacroDataPoint.value od = None ->
        TriangulatedResult.confidence r = NO_DATA
        /\ TriangulatedResult.consensus_value r = None).
Proof.
  intros H. apply triangulate_inv in H. destruct H as [fd [wd [od [F R]]]].
  exists fd, wd, od. split; [exact F|].
  apply reconcile_inv in R. cbn zeta in R.
  destruct R as [c [e [D [C [_ [Hc _]]]]]].
  destruct (not_none [MacroDataPoint.value fd; MacroDataPoint.value wd;
                      MacroDataPoint.value od]) as [|x xs] eqn:N.
  - apply not_none_nil in N. destruct N as [N1 [N2 N3]].
    cbn in C. injection C as C. rewrite N1, N2, N3 in *.
    cbn in D. injection D as <- _. rewrite <- C.
    split; [|auto]. split; [congruence | intuition congruence].
  - destruct (calculate_consensus_middle (x :: xs)) as [mm [E _]]; [discriminate|].
    rewrite E in C. injection C as C. rewrite <- C.
    split.
    + split; [|discriminate]. intros _.
      destruct (MacroDataPoint.value fd), (MacroDataPoint.value wd),
        (MacroDataPoint.value od); cbn in N; try discriminate;
        first [left; discriminate | right; left; discriminate
              | right; right; discriminate].
    + intros N1 N2 N3. rewrite N1, N2, N3 in N. discriminate.
Qed.

Lemma C4_consensus_present_iff_some_value_witness :
  exists r log',
    triangulate 0.5 None
      (sample_world (fred_body "2024-01-01" "3.4") (wb_body "2023" (PNum 3.5)) oecd_empty)
      INFLATION "USA" None None [] = (Ret r, log')
    /\ exists fd wd od,
         fetched None
           (sample_world (fred_body "2024-01-01" "3.4") (wb_body "2023" (PNum 3.5))
              oecd_empty)
           INFLATION "USA" None None [] fd wd od log'
         /\ (TriangulatedResult.consensus_value r <> None
             <-> (MacroDataPoint.value fd <> None \/ MacroDataPoint.value wd <> None
                  \/ MacroDataPoint.value od <> None))
         /\ (MacroDataPoint.value fd = None -> MacroDataPoint.value wd = None ->
             MacroDataPoint.value od = None ->
             TriangulatedResult.confidence r = NO_DATA
             /\ TriangulatedResult.consensus_value r = None).
Proof.
  eexists. eexists. split.
  - vm_compute. reflexivity.
  - apply (C4_consensus_present_iff_some_value 0.5 None
             (sample_world (fred_body "2024-01-01" "3.4") (wb_body "2023" (PNum 3.5))
              oecd_empty)
             INFLATION "USA" None None []).
    vm_compute. reflexivity.
Defined.

(** C10.  For every result [triangulate] returns, [disagreement_details]
    is absent exactly when the confidence is [HIGH] or [MEDIUM], and is
    the explanation otherwise. *)
Theorem C10_disagreement_details
  tolerance_percent key w metric country_code start_year end_year log r log' :
  triangulate tolerance_percent key w metric country_code start_year end_year log
    = (Ret r, log') ->
  (TriangulatedResult.disagreement_details r = None
   <-> (TriangulatedResult.confidence r = HIGH
        \/ TriangulatedResult.confidence r = MEDIUM))
  /\ (TriangulatedResult.confidence r = LOW
      \/ TriangulatedResult.confidence r = SINGLE_SOURCE
      \/ TriangulatedResult.confidence r = NO_DATA ->
      TriangulatedResult.disagreement_details r
      = Some (TriangulatedResult.explanation r)).
Proof.
  intros H. apply triangulate_inv in H. destruct H as [fd [wd [od [_ R]]]].
  apply reconcile_inv in R. cbn zeta in R.
  destruct R as [c [e [_ [_ [_ [-> [-> [_ [_ [_ [_ ->]]]]]]]]]]].
  destruct c; split; try split; intros; try reflexivity; try discriminate;
    intuition (discriminate || auto).
Qed.

Lemma C10_disagreement_details_witness :
  exists r log',
    triangulate 0.5 None
      (sample_world (fred_body "2024-01-01" "3.4") (wb_body "2023" (PNum 3.5)) oecd_empty)
      INFLATION "USA" None None [] = (Ret r, log')
    /\ (TriangulatedResult.disagreement_details r = None
        <-> (TriangulatedResult.confidence r = HIGH
             \/ TriangulatedResult.confidence r = MEDIUM))
    /\ (TriangulatedResult.confidence r = LOW
        \/ TriangulatedResult.confidence r = SINGLE_SOURCE
        \/ TriangulatedResult.confidence r = NO_DATA ->
        TriangulatedResult.disagreement_details r
        = Some (TriangulatedResult.explanation r)).
Proof.
  eexists. eexists. split.
  - vm_compute. reflexivity.
  - eapply (C10_disagreement_details 0.5 None
             (sample_world (fred_body "2024-01-01" "3.4") (wb_body "2023" (PNum 3.5))
              oecd_empty)
             INFLATION "USA" None None []).
    vm_compute. reflexivity.
Defined.

(** ** The order on period strings and [max] *)

Lemma lex_le_refl (s : string) : lex_le s s.
Proof. induction s; constructor; assumption. Qed.

Lemma lex_le_trans (s t u : string) : lex_le s t -> lex_le t u -> lex_le s u.
Proof.
  intros H. revert u. induction H as [t|a b s t Hab|a s t Hst IH]; intros u Hu.
  - constructor.
  - inversion Hu; subst.
    + apply lex_le_head. lia.
    + apply lex_le_head. assumption.
  - inversion Hu; subst.
    + apply lex_le_head. assumption.
    + apply lex_le_tail. auto.
Qed.

Lemma ascii_compare_Lt (a b : ascii) :
  Ascii.compare a b = Lt -> (nat_of_ascii a < nat_of_ascii b)%nat.
Proof.
  unfold Ascii.compare, nat_of_ascii. rewrite N.compare_lt_iff. lia.
Qed.

Lemma compare_Lt_lex_le (s t : string) : String.compare s t = Lt -> lex_le s t.
Proof.
  revert t. induction s as [|a s IH]; intros [|b t]; cbn; try discriminate.
  - constructor.
  - destruct (Ascii.compare a b) eqn:E; try discriminate.
    + apply Ascii.compare_eq_iff in E. subst b. intros H. apply lex_le_tail, IH, H.
    + intros _. apply lex_le_head, ascii_compare_Lt, E.
Qed.

Lemma ltb_true_lex_le (s t : string) : String.ltb s t = true -> lex_le s t.
Proof.
  unfold String.ltb. destruct (String.compare s t) eqn:E; try discriminate.
  intros _. apply compare_Lt_lex_le, E.
Qed.

Lemma ltb_false_lex_le (s t : string) : String.ltb s t = false -> lex_le t s.
Proof.
  unfold String.ltb. destruct (String.compare s t) eqn:E; try discriminate; intros _.
  - apply String.compare_eq_iff in E. subst. apply lex_le_refl.
  - apply compare_Lt_lex_le. rewrite String.compare_antisym, E. reflexivity.
Qed.

Lemma max_from_strings (ss : list string) (best : string) :
  exists p, max_from (PStr best) (map PStr ss) = Ret (PStr p)
            /\ In p (best :: ss)
            /\ forall q, In q (best :: ss) -> lex_le q p.
Proof.
  revert best. induction ss as [|x ss IH]; intros best; cbn [map max_from].
  - exists best. split; [reflexivity|]. split; [left; reflexivity|].
    intros q [<-|[]]. apply lex_le_refl.
  - cbn [py_gt py_bind].
    destruct (String.ltb best x) eqn:E.
    + destruct (IH x) as [p [Hm [Hin Hle]]]. exists p. split; [exact Hm|].
      split; [right; exact Hin|].
      intros q [<-|Hq]; [|apply Hle, Hq].
      eapply lex_le_trans; [apply ltb_true_lex_le, E|]. apply Hle. left. reflexivity.
    + destruct (IH best) as [p [Hm [Hin Hle]]]. exists p. split; [exact Hm|].
      split; [destruct Hin as [<-|Hin]; [left; reflexivity | right; right; exact Hin]|].
      intros q [<-|[<-|Hq]].
      * apply Hle. left. reflexivity.
      * eapply lex_le_trans; [apply ltb_false_lex_le, E|]. apply Hle. left. reflexivity.
      * apply Hle. right. exact Hq.
Qed.

Lemma candidate_periods_strings (ds : list MacroDataPoint.t) :
  Forall period_is_str ds ->
  exists ss, candidate_periods ds = map PStr ss
             /\ forall q, In q ss <-> is_candidate ds q.
Proof.
  unfold candidate_periods. induction 1 as [|d ds [s Hs] _ [ss [E H]]]; cbn.
  - exists []. split; [reflexivity|]. intros q. split; [intros []|].
    intros [_ [d [[] _]]].
  - rewrite Hs, E. unfold py_eq_str. cbn [py_eq].
    destruct (String.eqb_spec s "N/A") as [->|Hne]; cbn [negb].
    + exists ss. split; [reflexivity|]. intros q. rewrite H.
      unfold is_candidate. split.
      * intros [Hq [d' [Hin Hp]]]. split; [exact Hq|]. exists d'. split; [right|]; assumption.
      * intros [Hq [d' [[<-|Hin] Hp]]].
        -- rewrite Hs in Hp. injection Hp as <-. contradiction.
        -- split; [exact Hq|]. exists d'. split; assumption.
    + exists (s :: ss). split; [reflexivity|]. intros q. cbn [In]. rewrite H.
      unfold is_candidate. split.
      * intros [<-|[Hq [d' [Hin Hp]]]].
        -- split; [exact Hne|]. exists d. split; [left; reflexivity | exact Hs].
        -- split; [exact Hq|]. exists d'. split; [right|]; assumption.
      * intros [Hq [d' [[<-|Hin] Hp]]].
        -- left. rewrite Hs in Hp. injection Hp as <-. reflexivity.
        -- right. split; [exact Hq|]. exists d'. split; assumption.
Qed.

(** On data points whose periods are strings the period selection
    returns, and returns the maximal candidate. *)
Lemma select_period_maximal (ds : list MacroDataPoint.t) :
  Forall period_is_str ds ->
  exists p, select_period (candidate_periods ds) = Ret (PStr p)
            /\ maximal_period ds p.
Proof.
  intros H. destruct (candidate_periods_strings ds H) as [ss [E Hss]].
  rewrite E. destruct ss as [|x ss]; cbn [map select_period py_max].
  - exists "N/A". split; [reflexivity|]. right. split; [reflexivity|].
    intros q Hq. apply Hss in Hq. exact Hq.
  - destruct (max_from_strings ss x) as [p [Hm [Hin Hle]]].
    exists p. split; [exact Hm|]. left. split; [apply Hss, Hin|].
    intros q Hq. apply Hle, Hss, Hq.
Qed.

Lemma reconcile_returns tol m cc fd wd od :
  Forall period_is_str [fd; wd; od] ->
  exists r, reconcile tol m cc fd wd od = Ret r.
Proof.
  intros H. unfold reconcile. cbn zeta.
  destruct (determine_confidence_label tol (MacroDataPoint.value fd)
              (MacroDataPoint.value wd) (MacroDataPoint.value od))
    as [c [e [-> _]]].
  cbn [py_bind].
  assert (exists o, _calculate_consensus
                      (not_none [MacroDataPoint.value fd; MacroDataPoint.value wd;
                                 MacroDataPoint.value od]) = Ret o) as [o ->].
  { destruct (not_none _) as [|x xs] eqn:N; [cbn; eauto|].
    destruct (calculate_consensus_middle (x :: xs)) as [mm [E _]]; [discriminate|].
    eauto. }
  cbn [py_bind].
  destruct (select_period_maximal _ H) as [p [-> _]].
  cbn [py_bind]. eauto.
Qed.

(** C9, amended.  For every call to [triangulate] that returns, on
    data points whose periods are strings, the period of the result is
    the lexicographically maximal non-["N/A"] period among the data
    points of all three providers, whether or not they contributed a
    value, and ["N/A"] when there is none. *)
Theorem C9_period_is_maximal_over_all_points
  tolerance_percent key w metric country_code start_year end_year log r log' :
  triangulate tolerance_percent key w metric country_code start_year end_year log
    = (Ret r, log') ->
  exists fd wd od,
    fetched key w metric country_code start_year end_year log fd wd od log'
    /\ (Forall period_is_str [fd; wd; od] ->
        exists p, TriangulatedResult.period r = PStr p
                  /\ maximal_period [fd; wd; od] p).
Proof.
  intros H. apply triangulate_inv in H. destruct H as [fd [wd [od [F R]]]].
  exists fd, wd, od. split; [exact F|]. intros T.
  apply reconcile_inv in R. cbn zeta in R.
  destruct R as [c [e [_ [_ [P _]]]]].
  destruct (select_period_maximal _ T) as [p [E M]].
  rewrite E in P. injection P as P. exists p. split; [symmetry; exact P | exact M].
Qed.

(** Where every data point without a value carries the ["N/A"] period,
    the maximum is taken over the contributing data points only. *)
Lemma maximal_period_contributing (ds : list MacroDataPoint.t) (p : string) :
  (forall d, In d ds -> MacroDataPoint.value d = None ->
             MacroDataPoint.period d = PStr "N/A") ->
  maximal_period ds p -> maximal_period (contributing ds) p.
Proof.
  intros Hna.
  assert (Hc : forall q, is_candidate ds q <-> is_candidate (contributing ds) q).
  { intros q. unfold is_candidate, contributing. split.
    - intros [Hq [d [Hin Hp]]]. split; [exact Hq|]. exists d. split; [|exact Hp].
      apply filter_In. split; [exact Hin|].
      destruct (MacroDataPoint.value d) eqn:V; [reflexivity|].
      rewrite (Hna d Hin V) in Hp. injection Hp as <-. contradiction.
    - intros [Hq [d [Hin Hp]]]. split; [exact Hq|]. exists d. split; [|exact Hp].
      apply filter_In in Hin. apply Hin. }
  intros [[C M]|[E N]].
  - left. split; [apply Hc, C|]. intros q Hq. apply M, Hc, Hq.
  - right. split; [exact E|]. intros q Hq. apply (N q), Hc, Hq.
Qed.

Lemma C9_counterexample :
  exists r log' fd wd od p,
    triangulate 0.5 None world_null_oecd INFLATION "USA" None None [] = (Ret r, log')
    /\ fetched None world_null_oecd INFLATION "USA" None None [] fd wd od log'
    /\ Forall period_is_str [fd; wd; od]
    /\ TriangulatedResult.period r = PStr p
    /\ ~ maximal_period (contributing [fd; wd; od]) p.
Proof.
  do 6 eexists. split; [vm_compute; reflexivity|].
  split; [do 2 eexists; repeat split; vm_compute; reflexivity|].
  split; [repeat constructor; eexists; reflexivity|].
  split; [reflexivity|].
  intros [[[_ [d [Hin Hp]]] _]|[E _]].
  - vm_compute in Hin. destruct Hin as [<-|[]]. discriminate Hp.
  - discriminate E.
Qed.

Lemma C9_period_is_maximal_over_all_points_witness :
  exists r log',
    triangulate 0.5 None world_null_oecd INFLATION "USA" None None [] = (Ret r, log')
    /\ exists fd wd od,
         fetched None world_null_oecd INFLATION "USA" None None [] fd wd od log'
         /\ exists p, TriangulatedResult.period r = PStr p
                      /\ maximal_period [fd; wd; od] p.
Proof.
  eexists. eexists. split.
  - vm_compute. reflexivity.
  - destruct (C9_period_is_maximal_over_all_points 0.5 None world_null_oecd
                INFLATION "USA" None None [] _ _ eq_refl)
      as [fd [wd [od [F P]]]].
    exists fd, wd, od. split; [exact F|]. apply P.
    destruct F as [log1 [log2 [E1 [E2 E3]]]].
    vm_compute in E1. injection E1 as <- <-.
    vm_compute in E2. injection E2 as <- <-.
    vm_compute in E3. injection E3 as <-.
    repeat constructor; eexists; reflexivity.
Defined.

(** ** Worked examples *)

Lemma agree_by_computation (tol a b : Q) :
  _values_agree tol a b = Ret true -> agree tol a b.
Proof.
  intros H. destruct (values_agree_reflect tol a b) as [x [E Hx]].
  apply Hx. congruence.
Qed.

Lemma disagree_by_computation (tol a b : Q) :
  _values_agree tol a b = Ret false -> ~ agree tol a b.
Proof.
  intros H A. apply values_agree_true in A. congruence.
Qed.

Lemma consensus_wd (xs ys : list Q) :
  Forall2 Qeq xs ys ->
  same_consensus (_calculate_consensus xs) (_calculate_consensus ys).
Proof. intros H. apply consensus_of_Forall2_sorted, sorted_Forall2, H. Qed.

Lemma triangulate_returns tol key w m cc sy ey log fd wd od log' :
  fetched key w m cc sy ey log fd wd od log' ->
  Forall period_is_str [fd; wd; od] ->
  exists r, triangulate tol key w m cc sy ey log = (Ret r, log')
            /\ reconcile tol m cc fd wd od = Ret r.
Proof.
  intros F T. destruct (reconcile_returns tol m cc fd wd od T) as [r R].
  exists r. split; [|exact R].
  rewrite (triangulate_of_fetched _ _ _ _ _ _ _ _ _ _ _ _ F), R. reflexivity.
Qed.

(** C8.  With tolerance 0.5, when FRED yields 3.4, the World Bank 3.5
    and OECD no value, [triangulate] returns confidence [LOW], the
    consensus 3.45 and the sources [["FRED"; "World Bank"]]. *)
Theorem C8_two_values_disagree
  tolerance_percent key w metric country_code start_year end_year log
  fd wd od log' a b :
  tolerance_percent == 0.5 ->
  fetched key w metric country_code start_year end_year log fd wd od log' ->
  Forall period_is_str [fd; wd; od] ->
  MacroDataPoint.value fd = Some a -> a == 3.4 ->
  MacroDataPoint.value wd = Some b -> b == 3.5 ->
  MacroDataPoint.value od = None ->
  exists r,
    triangulate tolerance_percent key w metric country_code start_year end_year log
      = (Ret r, log')
    /\ TriangulatedResult.confidence r = LOW
    /\ (exists c, TriangulatedResult.consensus_value r = Some c /\ c == 3.45)
    /\ TriangulatedResult.sources_used r = ["FRED"; "World Bank"].
Proof.
  intros Ht F T Va Ha Vb Hb Vo.
  destruct (triangulate_returns tolerance_percent _ _ _ _ _ _ _ _ _ _ _ F T)
    as [r [E R]].
  exists r. split; [exact E|].
  apply reconcile_inv in R. cbn zeta in R. rewrite Va, Vb, Vo in R.
  destruct R as [c [e [D [C [_ [Hc [_ [_ [_ [_ [S _]]]]]]]]]]].
  destruct (determine_confidence_label tolerance_percent (Some a) (Some b) None)
    as [c' [e' [D' L]]].
  rewrite D in D'. injection D' as <- _. cbn in L.
  split; [|split].
  - rewrite Hc. apply L. rewrite Ht, Ha, Hb.
    apply disagree_by_computation. vm_compute. reflexivity.
  - cbn [not_none] in C.
    assert (W : same_consensus (_calculate_consensus [a; b])
                  (_calculate_consensus [3.4; 3.5])).
    { apply consensus_wd. repeat constructor; assumption. }
    assert (E0 : _calculate_consensus [3.4; 3.5] = Ret (Some (690 # 200)))
      by (vm_compute; reflexivity).
    rewrite E0, C in W.
    destruct (TriangulatedResult.consensus_value r) as [x|]; [|contradiction].
    exists x. split; [reflexivity|]. cbn in W. rewrite W. reflexivity.
  - exact S.
Qed.

Lemma C8_two_values_disagree_witness :
  exists r,
    triangulate 0.5 None world_two_values INFLATION "USA" None None []
      = (Ret r, snd (triangulate 0.5 None world_two_values INFLATION "USA" None None []))
    /\ TriangulatedResult.confidence r = LOW
    /\ (exists c, TriangulatedResult.consensus_value r = Some c /\ c == 3.45)
    /\ TriangulatedResult.sources_used r = ["FRED"; "World Bank"].
Proof.
  eapply (C8_two_values_disagree 0.5 None world_two_values INFLATION "USA" None None
            [] _ _ _ _ 3.4 3.5).
  - reflexivity.
  - do 2 eexists. repeat split; vm_compute; reflexivity.
  - repeat constructor; eexists; reflexivity.
  - reflexivity.
  - reflexivity.
  - reflexivity.
  - reflexivity.
  - reflexivity.
Defined.

(** C7, amended.  With tolerance 0.5, triangulating the three values
    2.50, 2.51 and 2.49 yields confidence [MEDIUM] (2.51 and 2.49 differ
    by 0.8 percent of their mean, the other two pairs agree) and a
    consensus equal to the median 2.50. *)
Theorem C7_close_values_medium
  tolerance_percent key w metric country_code start_year end_year log
  fd wd od log' a b c :
  tolerance_percent == 0.5 ->
  fetched key w metric country_code start_year end_year log fd wd od log' ->
  Forall period_is_str [fd; wd; od] ->
  MacroDataPoint.value fd = Some a -> a == 2.50 ->
  MacroDataPoint.value wd = Some b -> b == 2.51 ->
  MacroDataPoint.value od = Some c -> c == 2.49 ->
  exists r,
    triangulate tolerance_percent key w metric country_code start_year end_year log
      = (Ret r, log')
    /\ TriangulatedResult.confidence r = MEDIUM
    /\ (exists m, TriangulatedResult.consensus_value r = Some m /\ m == 2.50).
Proof.
  intros Ht F T Va Ha Vb Hb Vc Hc.
  destruct (triangulate_returns tolerance_percent _ _ _ _ _ _ _ _ _ _ _ F T)
    as [r [E R]].
  exists r. split; [exact E|].
  apply reconcile_inv in R. cbn zeta in R. rewrite Va, Vb, Vc in R.
  destruct R as [l [e [D [C [_ [Hl _]]]]]].
  destruct (determine_confidence_label tolerance_percent (Some a) (Some b) (Some c))
    as [l' [e' [D' L]]].
  rewrite D in D'. injection D' as <- _. cbn in L.
  split.
  - rewrite Hl. apply L. rewrite Ht, Ha, Hb, Hc. split.
    + left. apply agree_by_computation. vm_compute. reflexivity.
    + intros [_ [_ A]]. revert A.
      apply disagree_by_computation. vm_compute. reflexivity.
  - cbn [not_none] in C.
    assert (W : same_consensus (_calculate_consensus [a; b; c])
                  (_calculate_consensus [2.50; 2.51; 2.49])).
    { apply consensus_wd. repeat constructor; assumption. }
    assert (E0 : _calculate_consensus [2.50; 2.51; 2.49] = Ret (Some 2.50))
      by (vm_compute; reflexivity).
    rewrite E0, C in W.
    destruct (TriangulatedResult.consensus_value r) as [x|]; [|contradiction].
    exists x. split; [reflexivity|]. exact W.
Qed.

Lemma C7_close_values_medium_witness :
  exists r,
    triangulate 0.5 None world_close_values INFLATION "USA" None None []
      = (Ret r, snd (triangulate 0.5 None world_close_values INFLATION "USA" None None []))
    /\ TriangulatedResult.confidence r = MEDIUM
    /\ (exists m, TriangulatedResult.consensus_value r = Some m /\ m == 2.50).
Proof.
  eapply (C7_close_values_medium 0.5 None world_close_values INFLATION "USA" None None
            [] _ _ _ _ 2.50 2.51 2.49).
  - reflexivity.
  - do 2 eexists. repeat split; vm_compute; reflexivity.
  - repeat constructor; eexists; reflexivity.
  - reflexivity.
  - reflexivity.
  - reflexivity.
  - reflexivity.
  - reflexivity.
  - reflexivity.
Defined.

Lemma C7_counterexample :
  exists r log',
    triangulate 0.5 None world_close_values INFLATION "USA" None None [] = (Ret r, log')
    /\ TriangulatedResult.fred_value r = Some 2.50
    /\ TriangulatedResult.worldbank_value r = Some 2.51
    /\ TriangulatedResult.oecd_value r = Some 2.49
    /\ TriangulatedResult.confidence r <> HIGH.
Proof.
  do 2 eexists. split; [vm_compute; reflexivity|].
  repeat split. discriminate.
Qed.

(** ** The provider clients *)

Lemma silent_lift {A} (m : py A) : silent (io_lift m).
Proof. intros log. reflexivity. Qed.

Lemma silent_bind {A B} (m : io A) (k : A -> io B) :
  silent m -> (forall a, silent (k a)) -> silent (io_bind m k).
Proof.
  intros Hm Hk log. unfold io_bind. specialize (Hm log).
  destruct (m log) as [[a|e] log1]; cbn in Hm; subst log1; [apply Hk | reflexivity].
Qed.

Lemma try_except_one_request {A} (w : World) (u : string)
  (ps : list (string * pyval)) (hs : option (list (string * string)))
  (k : Response -> io A) (h : string -> io A) (log : list Request) :
  (forall resp, silent (k resp)) -> (forall msg, silent (h msg)) ->
  snd (try_except_request (io_bind (RobustHTTPClient.get w u ps hs) k) h log)
  = (log ++ [{| url := u; params := ps; headers := hs |}])%list.
Proof.
  intros Hk Hh.
  unfold try_except_request, io_bind, RobustHTTPClient.get.
  destruct (session_get w log _) as [resp|e]; cbn [py_bind].
  - destruct (raise_for_status resp) as [[]|e]; cbn [py_bind].
    + specialize (Hk resp (log ++ [{| url := u; params := ps; headers := hs |}])%list).
      destruct (k resp _) as [[a|e] log1]; cbn in Hk; subst log1.
      * reflexivity.
      * destruct e; try reflexivity. apply Hh.
    + destruct e; try reflexivity; apply Hh.
  - destruct e; try reflexivity; apply Hh.
Qed.

Lemma fetch_metric_one_request (p : Provider) w key m cc sy ey log :
  exists req,
    snd (fetch_metric_of p w key m cc sy ey log) = (log ++ [req])%list
    /\ (has_mapping p m cc = false -> asks_fallback p m cc req).
Proof.
  destruct p; cbn [fetch_metric_of].
  - unfold FREDClient.fetch_metric. eexists. split.
    + apply try_except_one_request; intros;
        repeat (apply silent_bind; intros); apply silent_lift.
    + cbn. unfold FREDClient._get_series_id.
      destruct (dict_get cc (fred (METRIC_MAPPINGS m))); [discriminate|reflexivity].
  - unfold WorldBankClient.fetch_metric. eexists. split.
    + apply try_except_one_request; intros;
        repeat (apply silent_bind; intros); apply silent_lift.
    + cbn. unfold get_or.
      destruct (dict_get "wb" (country_info_of cc)); [discriminate|reflexivity].
  - unfold OECDClient.fetch_metric. eexists. split.
    + apply try_except_one_request; intros;
        repeat (apply silent_bind; intros); apply silent_lift.
    + cbn. unfold get_or.
      destruct (dict_get "oecd" (country_info_of cc)); [discriminate|reflexivity].
Qed.

(** C5, amended.  For every metric/country pair for which a provider
    has no entry in the mapping tables, that provider's [fetch_metric]
    still issues exactly one request through the HTTP client: FRED for
    the series id made from the metric's default template and the
    country code, the World Bank and OECD for the country code itself. *)
Theorem C5_unmapped_pair_is_fetched
  (p : Provider) w key metric country_code start_year end_year log :
  has_mapping p metric country_code = false ->
  exists req,
    snd (fetch_metric_of p w key metric country_code start_year end_year log)
      = (log ++ [req])%list
    /\ asks_fallback p metric country_code req.
Proof.
  intros H.
  destruct (fetch_metric_one_request p w key metric country_code start_year end_year log)
    as [req [L A]].
  exists req. split; [exact L | exact (A H)].
Qed.

Lemma C5_unmapped_pair_is_fetched_witness :
  exists req,
    snd (fetch_metric_of FRED world_two_values None GDP_GROWTH "JPN" None None [])
      = [req]
    /\ asks_fallback FRED GDP_GROWTH "JPN" req.
Proof.
  apply (C5_unmapped_pair_is_fetched FRED world_two_values None GDP_GROWTH "JPN"
           None None []).
  reflexivity.
Defined.

Lemma C5_counterexample :
  exists d log',
    has_mapping FRED GDP_GROWTH "JPN" = false
    /\ fetch_metric_of FRED world_two_values None GDP_GROWTH "JPN" None None []
       = (Ret d, log')
    /\ log' <> []
    /\ MacroDataPoint.value d <> None
    /\ ~ no_series_reason d.
Proof.
  do 2 eexists. split; [reflexivity|].
  split; [vm_compute; reflexivity|].
  split; [discriminate|]. split; [discriminate|].
  intros [reason [E _]]. discriminate E.
Qed.

(** C6, at two inputs where it fails.  A FRED observation whose value
    is not a number makes [fetch_metric], and with it [triangulate],
    raise [ValueError]; an OECD observation that is an empty array makes
    [fetch_metric] raise [IndexError].  Neither is turned into a data
    point with [error] set. *)
Theorem C6_parse_failure_propagates :
  fst (FREDClient.fetch_metric world_fred_not_a_number None INFLATION "USA"
         None None []) = Raise ValueError
  /\ fst (triangulate 0.5 None world_fred_not_a_number INFLATION "USA"
            None None []) = Raise ValueError
  /\ fst (OECDClient.fetch_metric world_oecd_empty_observation INFLATION "USA"
            None None []) = Raise IndexError.
Proof.
  repeat split; vm_compute; reflexivity.
Qed.

(** * The engine in binary64 *)

(** ** Rounding *)

Section Binary64Arithmetic.
Local Open Scope Z_scope.

Lemma digits2_pos_size (m : positive) : digits2_pos m = Pos.size m.
Proof. induction m; cbn; congruence. Qed.

Lemma digits2_pos_bounds (m : positive) :
  2 ^ (Zpos (digits2_pos m) - 1) <= Zpos m < 2 ^ Zpos (digits2_pos m).
Proof.
  rewrite digits2_pos_size.
  pose proof (Pos.size_gt m) as G. pose proof (Pos.size_le m) as L.
  split.
  - assert (H : (2 ^ Pos.size m <= m~0)%positive) by exact L.
    apply Pos2Z.pos_le_pos in H. rewrite Pos2Z.inj_pow in H.
    replace (Zpos (Pos.size m)) with (Z.succ (Zpos (Pos.size m) - 1)) in H by lia.
    rewrite Z.pow_succ_r in H by lia. lia.
  - apply Pos2Z.pos_lt_pos in G. rewrite Pos2Z.inj_pow in G. exact G.
Qed.

Lemma iter_pos_iter {A} (f : A -> A) (p : positive) (x : A) :
  iter_pos f p x = Pos.iter f x p.
Proof.
  revert x. induction p as [p IH|p IH|]; intros x; cbn.
  - rewrite !IH. rewrite <- !Pos.iter_swap. reflexivity.
  - rewrite !IH. reflexivity.
  - reflexivity.
Qed.

Lemma shr_m_shr_1 (r : shr_record) : shr_m (shr_1 r) = Z.quot2 (shr_m r).
Proof. destruct r as [[|[p|p|]|[p|p|]] a b]; reflexivity. Qed.

Lemma shr_m_iter (p : positive) (r : shr_record) :
  0 <= shr_m r -> shr_m (iter_pos shr_1 p r) = shr_m r / 2 ^ Zpos p.
Proof.
  intros H. rewrite iter_pos_iter.
  induction p using Pos.peano_ind.
  - cbn [Pos.iter]. rewrite shr_m_shr_1, Zquot2_quot.
    rewrite Z.quot_div_nonneg by lia. reflexivity.
  - rewrite Pos.iter_succ, shr_m_shr_1, IHp, Zquot2_quot.
    rewrite Z.quot_div_nonneg by (try apply Z.div_pos; lia).
    rewrite Z.div_div by lia.
    rewrite Pos2Z.inj_succ, Z.pow_succ_r by lia. f_equal. lia.
Qed.

Lemma shr_m_of_loc (m : Z) (l : location) : shr_m (shr_record_of_loc m l) = m.
Proof. destruct l as [|[| |]]; reflexivity. Qed.

(** A right shift to the canonical exponent keeps a positive mantissa
    positive as long as the exponent is not below [emin]. *)
Lemma shr_fexp_positive (m : positive) (e : Z) (l : location) :
  -1074 <= e ->
  exists q e', shr_fexp prec emax (Zpos m) e l = (q, e')
    /\ 0 < shr_m q /\ e <= e' /\ (e' = e -> shr_m q = Zpos m).
Proof.
  intros He. unfold shr_fexp, shr, fexp, SpecFloat.emin, prec, emax. cbn [Zdigits2].
  pose proof (digits2_pos_bounds m) as [Lo Hi].
  set (d := Zpos (digits2_pos m)) in *.
  destruct (Z.max (d + e - 53) (3 - 1024 - 53) - e) as [|p|p] eqn:En.
  - eexists _, _. split; [reflexivity|]. rewrite shr_m_of_loc. repeat split; lia.
  - eexists _, _. split; [reflexivity|].
    rewrite shr_m_iter by (rewrite shr_m_of_loc; lia). rewrite shr_m_of_loc.
    assert (Hp : Zpos p = d - 53) by lia.
    repeat split; try lia.
    apply Z.div_str_pos. split; [lia|].
    transitivity (2 ^ (d - 1)); [|exact Lo].
    apply Z.pow_le_mono_r; lia.
  - eexists _, _. split; [reflexivity|]. rewrite shr_m_of_loc. repeat split; lia.
Qed.

Lemma round_nearest_even_ge (m : Z) (l : location) : m <= round_nearest_even m l.
Proof.
  destruct l as [|[| |]]; cbn; try lia. destruct (Z.even m); lia.
Qed.

(** Rounding a positive mantissa at an exponent not below [emin] never
    gives zero: the result is an infinity or a finite number, and a
    finite result is at least as large as the mantissa or has a larger
    exponent. *)
Lemma binary_round_aux_nonzero (s : bool) (m : positive) (e : Z) (l : location) :
  -1074 <= e ->
  binary_round_aux prec emax s (Zpos m) e l = S754_infinity s
  \/ exists mf ef, binary_round_aux prec emax s (Zpos m) e l = S754_finite s mf ef
       /\ e <= ef /\ (e < ef \/ (m <= mf)%positive).
Proof.
  intros He. unfold binary_round_aux.
  destruct (shr_fexp_positive m e l He) as [q [e' [E1 [Hq [He' Hsame]]]]].
  rewrite E1.
  pose proof (round_nearest_even_ge (shr_m q) (loc_of_shr_record q)) as Hr.
  destruct (round_nearest_even (shr_m q) (loc_of_shr_record q)) as [|m2|m2] eqn:Er;
    try lia.
  destruct (shr_fexp_positive m2 e' loc_Exact ltac:(lia)) as [q2 [e2 [E2 [Hq2 [He2 Hsame2]]]]].
  rewrite E2.
  destruct (shr_m q2) as [|mf|mf] eqn:Ef; try lia.
  destruct (e2 <=? emax - prec); [right|left; reflexivity].
  exists mf, e2. split; [reflexivity|]. split; [lia|].
  destruct (Z.eq_dec e2 e) as [Heq|Hne]; [right|left; lia].
  assert (e' = e) by lia. subst e'.
  specialize (Hsame eq_refl). specialize (Hsame2 Heq).
  rewrite Hsame in Hr. rewrite ?Ef in Hsame2. lia.
Qed.

Lemma valid_finite (s : bool) (m : positive) (e : Z) :
  valid_binary (S754_finite s m e) = true ->
  -1074 <= e /\ Zpos (digits2_pos m) <= 53.
Proof.
  unfold SpecFloat.valid_binary, bounded, canonical_mantissa, fexp, SpecFloat.emin, prec, emax.
  intros H. apply andb_prop in H. destruct H as [H _]. apply Z.eqb_eq in H. lia.
Qed.

Lemma iter_xO_ge (m : positive) (d : positive) : (m <= Pos.iter xO m d)%positive.
Proof.
  induction d using Pos.peano_ind.
  - cbn. lia.
  - rewrite Pos.iter_succ. lia.
Qed.

Lemma shl_align_ge (m : positive) (e e' : Z) :
  (m <= fst (shl_align m e e'))%positive.
Proof.
  unfold shl_align. destruct (e' - e); cbn [fst]; try lia. apply iter_xO_ge.
Qed.

(** Rounding an integer mantissa of at least 2 at an exponent not below
    [emin] gives an infinity or a finite number above the least
    subnormal. *)
Lemma binary_round_big (s : bool) (m : positive) (e : Z) :
  -1074 <= e -> (2 <= m)%positive ->
  binary_round prec emax s m e = S754_infinity s
  \/ exists mf ef, binary_round prec emax s m e = S754_finite s mf ef
       /\ (-1074 < ef \/ (2 <= mf)%positive).
Proof.
  intros He Hm. unfold binary_round.
  destruct (shl_align m e (fexp prec emax (Zpos (digits2_pos m) + e))) as [mz ez] eqn:Ea.
  assert (Hz : (m <= mz)%positive /\ -1074 <= ez).
  { pose proof (shl_align_ge m e (fexp prec emax (Zpos (digits2_pos m) + e))) as G.
    rewrite Ea in G. cbn [fst] in G. split; [exact G|].
    revert Ea. unfold shl_align, fexp, SpecFloat.emin, prec, emax.
    destruct (Z.max (Zpos (digits2_pos m) + e - 53) (3 - 1024 - 53) - e) eqn:En;
      intros [= <- <-]; lia. }
  destruct Hz as [Hmz Hez].
  destruct (binary_round_aux_nonzero s mz ez loc_Exact Hez) as [E|[mf [ef [E [H1 H2]]]]];
    rewrite E; [left; reflexivity|right].
  exists mf, ef. split; [reflexivity|]. lia.
Qed.

(** The sum of two magnitudes that are not zero is above the least
    subnormal (or an infinity, or not a number). *)
Lemma SFadd_abs_big (x y : spec_float) :
  valid_binary x = true -> valid_binary y = true ->
  SFnonzero x -> SFnonzero y ->
  SFbig (SF64add (SFabs x) (SFabs y)).
Proof.
  intros Vx Vy Nx Ny.
  destruct x as [sx|sx| |sx mx ex], y as [sy|sy| |sy my ey];
    try contradiction; try exact I.
  apply valid_finite in Vx, Vy.
  unfold SF64add, SFadd, SFabs, cond_Zopp, binary_normalize.
  set (ez := Z.min ex ey).
  pose proof (shl_align_ge mx ex ez). pose proof (shl_align_ge my ey ez).
  cbn [Z.add].
  destruct (binary_round_big false
              (fst (shl_align mx ex ez) + fst (shl_align my ey ez)) ez)
    as [E|[mf [ef [E B]]]]; try (unfold ez; lia).
  - rewrite E. exact I.
  - rewrite E. exact B.
Qed.

Lemma Prim2SF_two : Prim2SF 2 = SFtwo.
Proof. reflexivity. Qed.

(** Half of a number above the least subnormal is not zero. *)
Lemma SFdiv_two_nonzero (x : spec_float) :
  valid_binary x = true -> SFbig x -> SFnonzero (SF64div x SFtwo).
Proof.
  intros V B. destruct x as [s|s| |s m e]; try contradiction; try exact I.
  apply valid_finite in V. destruct V as [He Hd].
  cbn [SFbig] in B.
  unfold SF64div, SFdiv, SFtwo, SFdiv_core_binary.
  cbn [Zdigits2].
  pose proof (digits2_pos_bounds m) as [Lo Hi].
  set (d := Zpos (digits2_pos m)) in *.
  change (Zpos (digits2_pos 4503599627370496)) with 53.
  set (e' := Z.min (fexp prec emax (d + e - (53 + -51))) (e - -51)).
  assert (He' : -1074 <= e' /\ 51 <= e - -51 - e' /\ (e - -51 - e' = 51 -> e = -1074)).
  { unfold e', fexp, SpecFloat.emin, prec, emax. lia. }
  destruct He' as [He'1 [He'2 He'3]].
  destruct (e - -51 - e') as [|p|p] eqn:Es; try lia.
  assert (Hq : 1 <= Z.shiftl (Zpos m) (Zpos p) / 4503599627370496).
  { rewrite Z.shiftl_mul_pow2 by lia.
    apply Z.div_le_lower_bound; [lia|].
    destruct (Z.eq_dec (Zpos p) 51) as [E51|N51].
    - rewrite E51. specialize (He'3 E51). lia.
    - transitivity (1 * 2 ^ 52); [reflexivity|].
      apply Z.mul_le_mono_nonneg; try lia.
      apply Z.pow_le_mono_r; lia. }
  unfold Z.div in Hq.
  destruct (Z.div_eucl (Z.shiftl (Zpos m) (Zpos p)) 4503599627370496) as [q r].
  cbn [fst] in Hq. destruct q as [|q|q]; try lia.
  destruct (binary_round_aux_nonzero (xorb s false) q e'
              (new_location 4503599627370496 r) He'1) as [E|[mf [ef [E _]]]];
    rewrite E; exact I.
Qed.

(** ** Comparisons with zero *)

Lemma Prim2SF_zero : Prim2SF 0 = S754_zero false.
Proof. reflexivity. Qed.

Lemma eqb_zero_false (x : float) : (x =? 0)%float = false <-> SFnonzero (Prim2SF x).
Proof.
  rewrite eqb_spec, Prim2SF_zero.
  destruct (Prim2SF x) as [s|[|]| |[|] m e]; cbn; intuition discriminate.
Qed.

Lemma eqb_zero_true (x : float) :
  (x =? 0)%float = true <-> exists s, Prim2SF x = S754_zero s.
Proof.
  rewrite eqb_spec, Prim2SF_zero.
  destruct (Prim2SF x) as [s|[|]| |[|] m e]; cbn; split;
    try discriminate; try (intros [s' H]; discriminate); eauto.
Qed.

(** The mean magnitude of two values that are not zero is not zero:
    [_values_agree] never divides by zero. *)
Lemma mean_magnitude_nonzero (a b : float) :
  (a =? 0)%float = false -> (b =? 0)%float = false ->
  ((abs a + abs b) / 2 =? 0)%float = false.
Proof.
  intros Ha Hb. apply eqb_zero_false in Ha, Hb. apply eqb_zero_false.
  rewrite div_spec, Prim2SF_two.
  apply SFdiv_two_nonzero.
  - apply Prim2SF_valid.
  - rewrite add_spec, !abs_spec.
    apply SFadd_abs_big; auto using Prim2SF_valid.
Qed.

(** ** The order on floats *)

Lemma SFleb_key (x y : spec_float) :
  SFordered x -> SFordered y ->
  (SFleb x y = true <-> lex_le3 (SFkey x) (SFkey y)).
Proof.
  intros Ox Oy. unfold SFleb, SFcompare, lex_le3, SFkey.
  destruct x as [sx|[|]| |[|] mx ex], y as [sy|[|]| |[|] my ey];
    try contradiction; cbn; try (split; [intros _; lia | reflexivity]);
    try (split; [discriminate | lia]).
  - change (Pos.compare_cont Eq mx my) with (Pos.compare mx my).
    destruct (Z.compare_spec ex ey); [destruct (Pos.compare_spec mx my)| |];
      cbn; split; try discriminate; try lia; reflexivity.
  - change (Pos.compare_cont Eq mx my) with (Pos.compare mx my).
    destruct (Z.compare_spec ex ey); [destruct (Pos.compare_spec mx my)| |];
      cbn; split; try discriminate; try lia; reflexivity.
Qed.

Lemma SFltb_key (x y : spec_float) :
  SFordered x -> SFordered y ->
  (SFltb x y = true <-> ~ lex_le3 (SFkey y) (SFkey x)).
Proof.
  intros Ox Oy. unfold SFltb, SFcompare, lex_le3, SFkey.
  destruct x as [sx|[|]| |[|] mx ex], y as [sy|[|]| |[|] my ey];
    try contradiction; cbn; try (split; [intros _; lia | reflexivity]);
    try (split; [discriminate | lia]).
  - change (Pos.compare_cont Eq mx my) with (Pos.compare mx my).
    destruct (Z.compare_spec ex ey); [destruct (Pos.compare_spec mx my)| |];
      cbn; split; try discriminate; try lia; reflexivity.
  - change (Pos.compare_cont Eq mx my) with (Pos.compare mx my).
    destruct (Z.compare_spec ex ey); [destruct (Pos.compare_spec mx my)| |];
      cbn; split; try discriminate; try lia; reflexivity.
Qed.

Lemma SFeqb_key (x y : spec_float) :
  SFordered x -> SFordered y ->
  (SFeqb x y = true <-> SFkey x = SFkey y).
Proof.
  intros Ox Oy. unfold SFeqb, SFcompare, SFkey.
  destruct x as [sx|[|]| |[|] mx ex], y as [sy|[|]| |[|] my ey];
    try contradiction; cbn; try (split; [intros _; reflexivity | reflexivity]);
    try (split; [discriminate | intros [=]; lia]).
  - change (Pos.compare_cont Eq mx my) with (Pos.compare mx my).
    destruct (Z.compare_spec ex ey); [destruct (Pos.compare_spec mx my)| |];
      cbn; split; try discriminate; try (intros [=]; lia); try reflexivity;
      intros _; f_equal; f_equal; lia.
  - change (Pos.compare_cont Eq mx my) with (Pos.compare mx my).
    destruct (Z.compare_spec ex ey); [destruct (Pos.compare_spec mx my)| |];
      cbn; split; try discriminate; try (intros [=]; lia); try reflexivity;
      intros _; f_equal; f_equal; lia.
Qed.

(** ** Floats that are not NaN are totally ordered *)

Lemma ordered_spec (x : float) : ordered x <-> SFordered (Prim2SF x).
Proof.
  unfold ordered. rewrite eqb_spec. split.
  - destruct (Prim2SF x); cbn; try discriminate; intros _; exact I.
  - intros O. apply SFeqb_key; [exact O | exact O | reflexivity].
Qed.

Lemma finite_ordered (x : float) : Binary64.finite x = true -> ordered x.
Proof.
  unfold Binary64.finite. intros H. apply ordered_spec.
  destruct (Prim2SF x); try discriminate; exact I.
Qed.

Lemma le_key (x y : float) :
  ordered x -> ordered y ->
  (Binary64.le x y <-> lex_le3 (SFkey (Prim2SF x)) (SFkey (Prim2SF y))).
Proof.
  intros Ox Oy. apply ordered_spec in Ox, Oy.
  unfold Binary64.le. rewrite leb_spec. apply SFleb_key; assumption.
Qed.

Lemma eq_key (x y : float) :
  ordered x -> ordered y ->
  (Binary64.eq x y <-> SFkey (Prim2SF x) = SFkey (Prim2SF y)).
Proof.
  intros Ox Oy. apply ordered_spec in Ox, Oy.
  unfold Binary64.eq. rewrite eqb_spec. apply SFeqb_key; assumption.
Qed.

Lemma not_after_le (x y : float) :
  ordered x -> ordered y ->
  (Binary64.not_after x y = true <-> Binary64.le x y).
Proof.
  intros Ox Oy. rewrite (le_key x y Ox Oy).
  apply ordered_spec in Ox, Oy.
  unfold Binary64.not_after. rewrite ltb_spec.
  pose proof (SFltb_key (Prim2SF y) (Prim2SF x) Oy Ox) as K.
  destruct (SFltb (Prim2SF y) (Prim2SF x)); cbn [negb]; split; intros H.
  - discriminate.
  - exfalso. apply K; [reflexivity | exact H].
  - destruct (SFkey (Prim2SF x)) as [[a b] c], (SFkey (Prim2SF y)) as [[a' b'] c'].
    unfold lex_le3 in *.
    assert (N : ~ ~ (a < a' \/ a = a' /\ (b < b' \/ b = b' /\ c <= c'))).
    { intros G. apply K in G. discriminate. }
    lia.
  - reflexivity.
Qed.

Lemma b64_le_total (x y : float) :
  ordered x -> ordered y -> Binary64.le x y \/ Binary64.le y x.
Proof.
  intros Ox Oy. rewrite (le_key x y Ox Oy), (le_key y x Oy Ox).
  destruct (SFkey (Prim2SF x)) as [[a b] c], (SFkey (Prim2SF y)) as [[a' b'] c'].
  unfold lex_le3. lia.
Qed.

Lemma b64_le_trans (x y z : float) :
  ordered x -> ordered y -> ordered z ->
  Binary64.le x y -> Binary64.le y z -> Binary64.le x z.
Proof.
  intros Ox Oy Oz. rewrite (le_key x y Ox Oy), (le_key y z Oy Oz), (le_key x z Ox Oz).
  destruct (SFkey (Prim2SF x)) as [[a b] c], (SFkey (Prim2SF y)) as [[a' b'] c'],
    (SFkey (Prim2SF z)) as [[a'' b''] c''].
  unfold lex_le3. lia.
Qed.

Lemma tied_eq (x y : float) :
  tied ordered Binary64.le x y -> Binary64.eq x y.
Proof.
  intros [Ox [Oy [H1 H2]]]. apply (eq_key x y Ox Oy).
  apply (le_key x y Ox Oy) in H1. apply (le_key y x Oy Ox) in H2.
  destruct (SFkey (Prim2SF x)) as [[a b] c], (SFkey (Prim2SF y)) as [[a' b'] c'].
  unfold lex_le3 in *. f_equal; [f_equal|]; lia.
Qed.

(** ** The halved sum of two finite floats *)

Lemma SFsim_of_key (x y : spec_float) :
  SFordered x -> SFordered y -> SFkey x = SFkey y -> SFsim x y.
Proof.
  intros Ox Oy. unfold SFkey, SFsim.
  destruct x as [sx|[|]| |[|] mx ex], y as [sy|[|]| |[|] my ey];
    try contradiction; intros [=]; try (left; reflexivity); try lia.
  - right. eauto.
  - left. f_equal; lia.
  - left. f_equal; lia.
Qed.

Lemma SFsim_eqb (x y : spec_float) : SFordered x -> SFsim x y -> SFeqb x y = true.
Proof.
  intros Ox [<-|[[s ->] [s' ->]]].
  - apply SFeqb_key; [exact Ox | exact Ox | reflexivity].
  - reflexivity.
Qed.

Lemma SFadd_sim (x x' y y' : spec_float) :
  SFsim x x' -> SFsim y y' -> SFsim (SF64add x y) (SF64add x' y').
Proof.
  intros [<-|[[s ->] [s' ->]]] [<-|[[t ->] [t' ->]]].
  - left. reflexivity.
  - destruct x as [[|]|[|]| |[|] mx ex], t, t'; cbn;
      try (left; reflexivity); right; eauto.
  - destruct y as [[|]|[|]| |[|] my ey], s, s'; cbn;
      try (left; reflexivity); right; eauto.
  - destruct s, s', t, t'; cbn; right; eauto.
Qed.

Lemma SFdiv_two_sim (x x' : spec_float) :
  SFsim x x' -> SFsim (SF64div x SFtwo) (SF64div x' SFtwo).
Proof.
  intros [<-|[[s ->] [s' ->]]]; [left; reflexivity|].
  right. cbn. eauto.
Qed.

Lemma binary_round_aux_ordered (s : bool) (m : Z) (e : Z) (l : location) :
  0 <= m -> -1074 <= e -> SFordered (binary_round_aux prec emax s m e l).
Proof.
  intros Hm He. destruct m as [|m|m]; try lia.
  - unfold binary_round_aux, shr_fexp, shr. cbn [Zdigits2 Z.add].
    assert (N : fexp prec emax e - e <= 0).
    { unfold fexp, SpecFloat.emin, prec, emax. lia. }
    destruct (fexp prec emax e - e) as [|p|p] eqn:En; try lia.
    + rewrite shr_m_of_loc.
      assert (R : round_nearest_even 0 (loc_of_shr_record (shr_record_of_loc 0 l)) = 0
                  \/ round_nearest_even 0 (loc_of_shr_record (shr_record_of_loc 0 l)) = 1).
      { destruct l as [|[| |]]; cbn; auto. }
      destruct R as [-> | ->].
      * cbn [Zdigits2 Z.add]. rewrite En. cbn. exact I.
      * destruct (shr_fexp_positive 1 e loc_Exact He) as [q [e' [E [Hq _]]]].
        unfold shr_fexp, shr in E. rewrite E.
        destruct (shr_m q); try lia. destruct (e' <=? emax - prec); exact I.
    + rewrite shr_m_of_loc.
      assert (R : round_nearest_even 0 (loc_of_shr_record (shr_record_of_loc 0 l)) = 0
                  \/ round_nearest_even 0 (loc_of_shr_record (shr_record_of_loc 0 l)) = 1).
      { destruct l as [|[| |]]; cbn; auto. }
      destruct R as [-> | ->].
      * cbn [Zdigits2 Z.add]. rewrite En. cbn. exact I.
      * destruct (shr_fexp_positive 1 e loc_Exact He) as [q [e' [E [Hq _]]]].
        unfold shr_fexp, shr in E. rewrite E.
        destruct (shr_m q); try lia. destruct (e' <=? emax - prec); exact I.
  - destruct (binary_round_aux_nonzero s m e l He) as [E|[mf [ef [E _]]]];
      rewrite E; exact I.
Qed.

Lemma binary_round_ordered (s : bool) (m : positive) (e : Z) :
  -1074 <= e -> SFordered (binary_round prec emax s m e).
Proof.
  intros He. unfold binary_round.
  destruct (shl_align m e (fexp prec emax (Zpos (digits2_pos m) + e))) as [mz ez] eqn:Ea.
  apply binary_round_aux_ordered; [lia|].
  revert Ea. unfold shl_align, fexp, SpecFloat.emin, prec, emax.
  destruct (Z.max (Zpos (digits2_pos m) + e - 53) (3 - 1024 - 53) - e) eqn:En;
    intros [= <- <-]; lia.
Qed.

Lemma SFadd_finite_ordered (x y : spec_float) :
  valid_binary x = true -> valid_binary y = true ->
  SFfinite x -> SFfinite y -> SFordered (SF64add x y).
Proof.
  intros Vx Vy Fx Fy.
  destruct x as [sx|sx| |sx mx ex], y as [sy|sy| |sy my ey];
    try contradiction; try exact I.
  - destruct sx, sy; exact I.
  - apply valid_finite in Vx, Vy.
    unfold SF64add, SFadd, binary_normalize.
    destruct (cond_Zopp sx (Zpos (fst (shl_align mx ex (Z.min ex ey))))
              + cond_Zopp sy (Zpos (fst (shl_align my ey (Z.min ex ey)))));
      [exact I | apply binary_round_ordered; lia | apply binary_round_ordered; lia].
Qed.

Lemma SFdiv_two_ordered (x : spec_float) :
  valid_binary x = true -> SFordered x -> SFordered (SF64div x SFtwo).
Proof.
  intros V O. destruct x as [s|s| |s m e]; try contradiction; try exact I.
  apply valid_finite in V. destruct V as [He Hd].
  unfold SF64div, SFdiv, SFtwo, SFdiv_core_binary.
  set (e' := Z.min (fexp prec emax (Zdigits2 (Zpos m) + e
                                   - (Zdigits2 4503599627370496 + -51))) (e - -51)).
  assert (He' : -1074 <= e').
  { unfold e', fexp, SpecFloat.emin, prec, emax. lia. }
  set (m' := match e - -51 - e' with
             | 0 => Zpos m
             | Zpos _ => Z.shiftl (Zpos m) (e - -51 - e')
             | Zneg _ => 0
             end).
  assert (Hm' : 0 <= m').
  { unfold m'. destruct (e - -51 - e'); try lia. apply Z.shiftl_nonneg. lia. }
  pose proof (Z.div_pos m' 4503599627370496 Hm' ltac:(lia)) as Hq.
  unfold Z.div in Hq. destruct (Z.div_eucl m' 4503599627370496) as [q r].
  cbn [fst] in Hq. apply binary_round_aux_ordered; assumption.
Qed.

Lemma finite_spec (x : float) : Binary64.finite x = true <-> SFfinite (Prim2SF x).
Proof.
  unfold Binary64.finite.
  destruct (Prim2SF x); cbn; intuition discriminate.
Qed.

(** The halved sum of two finite floats is not a NaN. *)
Lemma mean_ordered (a b : float) :
  Binary64.finite a = true -> Binary64.finite b = true -> ordered ((a + b) / 2).
Proof.
  intros Fa Fb. apply finite_spec in Fa, Fb. apply ordered_spec.
  rewrite div_spec, Prim2SF_two. apply SFdiv_two_ordered.
  - apply Prim2SF_valid.
  - rewrite add_spec. apply SFadd_finite_ordered; auto using Prim2SF_valid.
Qed.

(** It is the same, up to [==], on operands that are [==]. *)
Lemma mean_eq (a a' b b' : float) :
  Binary64.finite a = true -> Binary64.finite b = true ->
  ordered a' -> ordered b' ->
  Binary64.eq a a' -> Binary64.eq b b' ->
  Binary64.eq ((a + b) / 2) ((a' + b') / 2).
Proof.
  intros Fa Fb Oa' Ob' Ea Eb.
  pose proof (mean_ordered a b Fa Fb) as Om. apply ordered_spec in Om.
  apply finite_ordered in Fa, Fb.
  apply (eq_key a a' Fa Oa') in Ea. apply (eq_key b b' Fb Ob') in Eb.
  apply ordered_spec in Fa, Fb, Oa', Ob'.
  apply SFsim_of_key in Ea, Eb; try assumption.
  unfold Binary64.eq. rewrite eqb_spec.
  apply SFsim_eqb; [exact Om|].
  rewrite !div_spec, Prim2SF_two, !add_spec.
  apply SFdiv_two_sim, SFadd_sim; assumption.
Qed.
End Binary64Arithmetic.

(** ** [sorted] under a comparison that is a total preorder on the
    elements it meets *)

Section SortedTotal.
Context {A : Type} (leb : A -> A -> bool) (ok : A -> Prop) (le : A -> A -> Prop).
Hypothesis leb_le : forall x y, ok x -> ok y -> (leb x y = true <-> le x y).
Hypothesis le_total : forall x y, ok x -> ok y -> le x y \/ le y x.
Hypothesis le_trans : forall x y z, ok x -> ok y -> ok z -> le x y -> le y z -> le x z.

Lemma tied_refl (x : A) : ok x -> tied ok le x x.
Proof. intros H. destruct (le_total x x H H); repeat split; assumption. Qed.

Lemma tied_trans (x y z : A) : tied ok le x y -> tied ok le y z -> tied ok le x z.
Proof.
  intros [Ox [Oy [H1 H2]]] [_ [Oz [H3 H4]]]. repeat split; eauto.
Qed.

Lemma leb_false_le (x y : A) : ok x -> ok y -> leb x y = false -> le y x.
Proof.
  intros Ox Oy E. destruct (le_total x y Ox Oy) as [H|H]; [|exact H].
  apply leb_le in H; [congruence | assumption | assumption].
Qed.

Lemma leb_tied (x x' y y' : A) : tied ok le x x' -> tied ok le y y' -> leb x y = leb x' y'.
Proof.
  intros [Ox [Ox' [H1 H2]]] [Oy [Oy' [H3 H4]]].
  destruct (leb x' y') eqn:E.
  - apply leb_le; [assumption | assumption |].
    apply leb_le in E; [|assumption|assumption].
    apply (le_trans x x' y); auto. apply (le_trans x' y' y); auto.
  - destruct (leb x y) eqn:E'; [|reflexivity].
    apply leb_le in E'; [|assumption|assumption].
    assert (L : le x' y').
    { apply (le_trans x' x y'); auto. apply (le_trans x y y'); auto. }
    apply leb_le in L; [congruence | assumption | assumption].
Qed.

Lemma insert_ok (x : A) (l : list A) :
  ok x -> Forall ok l -> Forall ok (insert leb x l).
Proof.
  intros Hx Hl. eapply Permutation_Forall; [apply insert_perm|].
  constructor; assumption.
Qed.

Lemma sorted_ok (l : list A) : Forall ok l -> Forall ok (sorted leb l).
Proof. intros H. eapply Permutation_Forall; [apply sorted_perm | exact H]. Qed.

Lemma insert_sorted_total (x : A) (l : list A) :
  ok x -> Forall ok l ->
  StronglySorted le l -> StronglySorted le (insert leb x l).
Proof.
  intros Ox Ol Hs. induction Hs as [|y l Hl IH Hy]; cbn.
  - constructor; constructor.
  - inversion Ol as [|? ? Oy Ol']; subst.
    destruct (leb x y) eqn:E.
    + apply leb_le in E; [|assumption|assumption].
      constructor; [constructor; assumption|].
      constructor; [exact E|].
      rewrite Forall_forall in *. intros z Hz.
      apply (le_trans x y z); auto.
    + apply leb_false_le in E; [|assumption|assumption].
      constructor; [apply IH; assumption|].
      eapply Permutation_Forall; [apply insert_perm|].
      constructor; assumption.
Qed.

Lemma sorted_sorted_total (l : list A) :
  Forall ok l -> StronglySorted le (sorted leb l).
Proof.
  induction 1 as [|x l Hx Hl IH]; cbn; [constructor|].
  apply insert_sorted_total; [assumption | apply sorted_ok; assumption | exact IH].
Qed.

Lemma Forall2_tied_refl (l : list A) : Forall ok l -> Forall2 (tied ok le) l l.
Proof. induction 1; constructor; [apply tied_refl; assumption | assumption]. Qed.

Lemma Forall2_tied_trans (l1 l2 l3 : list A) :
  Forall2 (tied ok le) l1 l2 -> Forall2 (tied ok le) l2 l3 -> Forall2 (tied ok le) l1 l3.
Proof.
  intros H. revert l3. induction H; intros l3 H3; inversion H3; subst; constructor.
  - eapply tied_trans; eassumption.
  - auto.
Qed.

Lemma insert_tied (x x' : A) (l l' : list A) :
  tied ok le x x' -> Forall2 (tied ok le) l l' ->
  Forall2 (tied ok le) (insert leb x l) (insert leb x' l').
Proof.
  intros Hx H. induction H as [|y y' l l' Hy Hl IH]; cbn.
  - constructor; [exact Hx | constructor].
  - rewrite (leb_tied x x' y y' Hx Hy).
    destruct (leb x' y'); repeat (first [assumption | constructor]).
Qed.

Lemma insert_swap_tied (x y : A) (l : list A) :
  ok x -> ok y -> Forall ok l ->
  Forall2 (tied ok le) (insert leb x (insert leb y l)) (insert leb y (insert leb x l)).
Proof.
  intros Ox Oy Ol. induction Ol as [|z l Oz Ol IH]; cbn.
  - destruct (leb x y) eqn:Exy, (leb y x) eqn:Eyx.
    + apply leb_le in Exy, Eyx; try assumption.
      repeat constructor; assumption.
    + apply Forall2_tied_refl. repeat constructor; assumption.
    + apply Forall2_tied_refl. repeat constructor; assumption.
    + apply leb_false_le in Exy; try assumption.
      apply leb_le in Exy; try assumption. congruence.
  - destruct (leb y z) eqn:Eyz, (leb x z) eqn:Exz; cbn; rewrite ?Eyz, ?Exz.
    + destruct (leb x y) eqn:Exy, (leb y x) eqn:Eyx; cbn; rewrite ?Eyz, ?Exz.
      * apply leb_le in Exy, Eyx; try assumption.
        constructor; [repeat split; assumption|].
        constructor; [repeat split; assumption|].
        apply Forall2_tied_refl. constructor; assumption.
      * apply Forall2_tied_refl. repeat constructor; assumption.
      * apply Forall2_tied_refl. repeat constructor; assumption.
      * apply leb_false_le in Exy; try assumption.
        apply leb_le in Exy; try assumption. congruence.
    + assert (Exy : leb x y = false).
      { destruct (leb x y) eqn:E; [|reflexivity].
        apply leb_le in E, Eyz; try assumption.
        assert (L : le x z) by (apply (le_trans x y z); assumption).
        apply leb_le in L; try assumption. congruence. }
      rewrite Exy. cbn. rewrite ?Exz, ?Eyz.
      apply Forall2_tied_refl. constructor; [assumption|].
      constructor; [assumption|]. apply insert_ok; assumption.
    + assert (Eyx : leb y x = false).
      { destruct (leb y x) eqn:E; [|reflexivity].
        apply leb_le in E, Exz; try assumption.
        assert (L : le y z) by (apply (le_trans y x z); assumption).
        apply leb_le in L; try assumption. congruence. }
      rewrite Eyx. cbn. rewrite ?Exz, ?Eyz.
      apply Forall2_tied_refl. constructor; [assumption|].
      constructor; [assumption|]. apply insert_ok; assumption.
    + constructor; [apply tied_refl; assumption | exact IH].
Qed.

(** A permutation changes the sorted list only among tied elements. *)
Lemma sorted_Permutation_tied (xs ys : list A) :
  Forall ok xs -> Permutation xs ys ->
  Forall2 (tied ok le) (sorted leb xs) (sorted leb ys).
Proof.
  intros O P. induction P as [|x l l' P IH|x y l|l1 l2 l3 P1 IH1 P2 IH2]; cbn.
  - constructor.
  - inversion O; subst. apply insert_tied; [apply tied_refl; assumption | auto].
  - inversion O as [|? ? Oy O']; subst. inversion O' as [|? ? Ox O'']; subst.
    apply insert_swap_tied; [assumption | assumption | apply sorted_ok; assumption].
  - eapply Forall2_tied_trans; [apply IH1; assumption|].
    apply IH2. eapply Permutation_Forall; eassumption.
Qed.

Lemma sorted_nth_le_total (s : list A) (i j : nat) (a b : A) :
  Forall ok s -> StronglySorted le s -> (i <= j)%nat ->
  nth_error s i = Some a -> nth_error s j = Some b -> le a b.
Proof.
  intros Os Hs. revert i j.
  induction Hs as [|y s Hs IH Hy]; intros i j Hij Ha Hb.
  - destruct i; discriminate.
  - inversion Os as [|? ? Oy Os']; subst.
    destruct i as [|i], j as [|j]; cbn in Ha, Hb.
    + assert (a = y) by congruence. assert (b = y) by congruence. subst a b.
      destruct (le_total y y Oy Oy); assumption.
    + assert (a = y) by congruence. subst a. apply nth_error_In in Hb.
      rewrite Forall_forall in Hy. apply Hy, Hb.
    + lia.
    + apply (IH Os' i j); [lia | assumption | assumption].
Qed.
End SortedTotal.

(** ** [_values_agree] in binary64 *)


Lemma b64_values_agree_reflect (tol a b : float) :
  exists x, Binary64._values_agree tol a b = Ret x
            /\ (x = true <-> Binary64.agree tol a b).
Proof.
  unfold Binary64._values_agree, Binary64.agree, Binary64.eq, Binary64.le.
  destruct (a =? 0)%float eqn:Ea, (b =? 0)%float eqn:Eb; cbn [andb orb].
  - exists true. intuition.
  - eexists; split; [reflexivity|]. intuition congruence.
  - eexists; split; [reflexivity|]. intuition congruence.
  - unfold Binary64.py_div. rewrite (mean_magnitude_nonzero a b Ea Eb). cbn [py_bind].
    eexists; split; [reflexivity|]. intuition congruence.
Qed.


(** C2, amended.  For all binary64 values [a], [b] and every tolerance,
    [_values_agree] returns (it never raises: the mean magnitude of two
    values that are not zero is not zero) and returns [True] exactly
    when both are zero, or exactly one is zero and [|a - b| <=
    tolerance], or neither is zero and [|a - b| / ((|a| + |b|) / 2) *
    100 <= tolerance], every subtraction, addition, division and
    multiplication being the binary64 operation, rounded to nearest,
    and not the operation on real numbers. *)
Theorem C2_values_agree_in_binary64 (tolerance_percent a b : float) :
  (Binary64._values_agree tolerance_percent a b = Ret true
   <-> Binary64.agree tolerance_percent a b)
  /\ (Binary64._values_agree tolerance_percent a b = Ret false
      <-> ~ Binary64.agree tolerance_percent a b).
Proof.
  destruct (b64_values_agree_reflect tolerance_percent a b) as [x [E Hx]].
  rewrite E. split; split.
  - intros H. apply Hx. congruence.
  - intros H. f_equal. apply Hx, H.
  - intros H A. apply Hx in A. congruence.
  - intros H. destruct x; [|reflexivity]. exfalso. apply H, Hx. reflexivity.
Qed.

Lemma C2_values_agree_in_binary64_witness :
  Binary64.agree 0.5 2.021538998170716 2.0114565094017847.
Proof.
  apply (proj1 (C2_values_agree_in_binary64 0.5 2.021538998170716 2.0114565094017847)).
  vm_compute. reflexivity.
Defined.

(** The doubles nearest 2.021538998170716 and 2.0114565094017847 agree
    within 0.5 for [_values_agree], whose quotient rounds to 0.5, while
    the relative difference of the two numbers, computed in real
    arithmetic, exceeds 0.5. *)
Lemma C2_counterexample :
  Binary64._values_agree 0.5 2.021538998170716 2.0114565094017847 = Ret true
  /\ ~ Binary64.agree_in_reals 0.5 2.021538998170716 2.0114565094017847.
Proof.
  split.
  - vm_compute. reflexivity.
  - unfold Binary64.agree_in_reals.
    destruct (Binary64.exact 0.5) as [t|] eqn:Et; [|intros []].
    destruct (Binary64.exact 2.021538998170716) as [x|] eqn:Ex; [|intros []].
    destruct (Binary64.exact 2.0114565094017847) as [y|] eqn:Ey; [|intros []].
    vm_compute in Et, Ex, Ey.
    injection Et as <-. injection Ex as <-. injection Ey as <-.
    apply disagree_by_computation. vm_compute. reflexivity.
Qed.

(** ** [_calculate_consensus] in binary64 *)

Lemma b64_consensus_middle (xs : list float) :
  xs <> [] ->
  exists m, Binary64._calculate_consensus xs = Ret (Some m)
            /\ Binary64.middle_of (sorted Binary64.not_after xs) m.
Proof.
  intros Hne. unfold Binary64._calculate_consensus, Binary64.middle_of.
  destruct xs as [|x0 xs0]; [contradiction|].
  set (s := sorted Binary64.not_after (x0 :: xs0)).
  assert (Hlen : (0 < List.length s)%nat).
  { unfold s. rewrite sorted_length. cbn. lia. }
  destruct (parity_split (List.length s)) as [[k [Hk [Ev Hh]]]|[k [Hk [Ev Hh]]]];
    rewrite Ev, Hh.
  - assert (Z.of_nat (List.length s) = (Z.of_nat k * 2)%Z) as -> by lia.
    rewrite Z_mod_mult, Z.div_mul by lia. cbn [Z.eqb].
    destruct (nth_error_in_range s (k - 1)) as [a Ha]; [lia|].
    destruct (nth_error_in_range s k) as [b Hb]; [lia|].
    replace (Z.of_nat k - 1)%Z with (Z.of_nat (k - 1)) by lia.
    rewrite (getitem_nat _ _ _ Ha), (getitem_nat _ _ _ Hb). cbn [py_bind].
    eexists. split; [reflexivity|].
    exists a, b. repeat split; assumption.
  - assert (Z.of_nat (List.length s) = (1 + Z.of_nat k * 2)%Z) as -> by lia.
    rewrite Z_mod_plus, Z.div_add by lia.
    change (1 mod 2)%Z with 1%Z. change (1 / 2)%Z with 0%Z. cbn [Z.eqb Z.add].
    destruct (nth_error_in_range s k) as [a Ha]; [lia|].
    rewrite (getitem_nat _ _ _ Ha). cbn [py_bind].
    exists a. split; [reflexivity|]. exists a. split; [assumption | reflexivity].
Qed.

Lemma Forall2_nth_error_gen {A} (R : A -> A -> Prop) (s s' : list A) (k : nat) (a a' : A) :
  Forall2 R s s' -> nth_error s k = Some a -> nth_error s' k = Some a' -> R a a'.
Proof.
  intros H. revert k. induction H; intros [|k] Ha Ha'; cbn in *; try discriminate.
  - congruence.
  - eauto.
Qed.

Lemma Forall2_length_gen {A} (R : A -> A -> Prop) (s s' : list A) :
  Forall2 R s s' -> List.length s = List.length s'.
Proof. induction 1; cbn; congruence. Qed.

Lemma all_finite_ordered (xs : list float) : all_finite xs -> Forall ordered xs.
Proof. apply Forall_impl. exact finite_ordered. Qed.

Lemma b64_middle_tied (s s' : list float) (m m' : float) :
  all_finite s -> Forall2 (tied ordered Binary64.le) s s' ->
  Binary64.middle_of s m -> Binary64.middle_of s' m' -> Binary64.eq m m'.
Proof.
  intros F H. unfold Binary64.middle_of.
  rewrite <- (Forall2_length_gen _ _ _ H).
  unfold all_finite in F. rewrite Forall_forall in F.
  destruct (Nat.even (List.length s)).
  - intros [a [b [Ha [Hb ->]]]] [a' [b' [Ha' [Hb' ->]]]].
    pose proof (Forall2_nth_error_gen _ _ _ _ _ _ H Ha Ha') as Ta.
    pose proof (Forall2_nth_error_gen _ _ _ _ _ _ H Hb Hb') as Tb.
    apply mean_eq.
    + apply F. eapply nth_error_In; eassumption.
    + apply F. eapply nth_error_In; eassumption.
    + apply Ta.
    + apply Tb.
    + apply tied_eq, Ta.
    + apply tied_eq, Tb.
  - intros [a [Ha ->]] [a' [Ha' ->]].
    apply tied_eq. exact (Forall2_nth_error_gen _ _ _ _ _ _ H Ha Ha').
Qed.

Lemma b64_sorted_tied (xs ys : list float) :
  Forall ordered xs -> Permutation xs ys ->
  Forall2 (tied ordered Binary64.le)
    (sorted Binary64.not_after xs) (sorted Binary64.not_after ys).
Proof.
  apply sorted_Permutation_tied.
  - exact not_after_le.
  - exact b64_le_total.
  - exact b64_le_trans.
Qed.

Lemma b64_sorted_sorted (xs : list float) :
  Forall ordered xs -> StronglySorted Binary64.le (sorted Binary64.not_after xs).
Proof.
  apply sorted_sorted_total.
  - exact not_after_le.
  - exact b64_le_total.
  - exact b64_le_trans.
Qed.

Lemma b64_consensus_of_permutation (xs ys : list float) :
  all_finite xs -> Permutation xs ys ->
  Binary64.same_consensus (Binary64._calculate_consensus xs)
    (Binary64._calculate_consensus ys).
Proof.
  intros F P.
  pose proof (b64_sorted_tied xs ys (all_finite_ordered xs F) P) as H.
  destruct xs as [|x xs], ys as [|y ys].
  - exact I.
  - apply Permutation_nil in P. discriminate.
  - symmetry in P. apply Permutation_nil in P. discriminate.
  - destruct (b64_consensus_middle (x :: xs)) as [m [E M]]; [discriminate|].
    destruct (b64_consensus_middle (y :: ys)) as [m' [E' M']]; [discriminate|].
    rewrite E, E'. cbn.
    apply (b64_middle_tied _ _ _ _ (Permutation_Forall (sorted_perm _ _) F) H M M').
Qed.

(** C3, amended.  On a non-empty list of finite values (no NaN, no
    infinity) the consensus function returns the median as binary64
    computes it: the list sorted ascending, then the middle element for
    an odd length and, for an even one, the sum of the two middle
    elements halved, the sum being rounded and overflowing to an
    infinity; and on every list of finite values and every permutation
    of it the consensus is the same under [==]. *)
Theorem C3_consensus_is_binary64_median (xs : list float) :
  Forall (fun x => Binary64.finite x = true) xs ->
  (xs <> [] ->
   exists m, Binary64._calculate_consensus xs = Ret (Some m)
             /\ Binary64.is_median xs m)
  /\ (forall ys, Permutation xs ys ->
        Binary64.same_consensus (Binary64._calculate_consensus xs)
          (Binary64._calculate_consensus ys))
  /\ Binary64.same_consensus
       (Binary64._calculate_consensus (sorted Binary64.not_after xs))
       (Binary64._calculate_consensus xs).
Proof.
  intros F. split; [|split].
  - intros Hne. destruct (b64_consensus_middle xs Hne) as [m [E M]].
    exists m. split; [exact E|].
    exists (sorted Binary64.not_after xs).
    split; [apply sorted_perm|].
    split; [apply b64_sorted_sorted, all_finite_ordered, F | exact M].
  - intros ys P. apply b64_consensus_of_permutation; assumption.
  - apply b64_consensus_of_permutation.
    + eapply Permutation_Forall; [apply sorted_perm | exact F].
    + symmetry. apply sorted_perm.
Qed.

Lemma C3_consensus_is_binary64_median_witness :
  (exists m, Binary64._calculate_consensus [0.1; 0.4; 0.2; 0.3]%float = Ret (Some m)
             /\ Binary64.is_median [0.1; 0.4; 0.2; 0.3]%float m)
  /\ Binary64.same_consensus
       (Binary64._calculate_consensus [0.1; 0.4; 0.2; 0.3]%float)
       (Binary64._calculate_consensus [0.4; 0.1; 0.2; 0.3]%float).
Proof.
  destruct (C3_consensus_is_binary64_median [0.1; 0.4; 0.2; 0.3]%float) as [H1 [H2 _]].
  - repeat constructor.
  - split.
    + apply H1. discriminate.
    + apply H2. apply perm_swap.
Defined.

(** The consensus of 0.1 and 0.2 is not the average of the two numbers
    but the double above it; that of 1e308 and 1e308 is an infinity;
    with a NaN in the list the consensus of [[nan, 1, 2]] is 1 and that
    of its permutation [[1, 2, nan]] is 2; and the consensus of the two
    infinities is a NaN, which is not [==] to the consensus of their
    permutation. *)
Lemma C3_counterexample :
  (Binary64._calculate_consensus [0.1; 0.2]%float = Ret (Some 0.15000000000000002%float)
   /\ ~ Binary64.average_in_reals 0.1 0.2 0.15000000000000002)
  /\ (Binary64._calculate_consensus [1e308; 1e308]%float = Ret (Some infinity)
      /\ ~ Binary64.average_in_reals 1e308 1e308 infinity)
  /\ (Permutation [nan; 1; 2]%float [1; 2; nan]%float
      /\ ~ Binary64.same_consensus
             (Binary64._calculate_consensus [nan; 1; 2]%float)
             (Binary64._calculate_consensus [1; 2; nan]%float))
  /\ (Permutation [infinity; neg_infinity] [neg_infinity; infinity]
      /\ ~ Binary64.same_consensus
             (Binary64._calculate_consensus [infinity; neg_infinity])
             (Binary64._calculate_consensus [neg_infinity; infinity])).
Proof.
  split; [|split; [|split]]; split.
  - vm_compute. reflexivity.
  - unfold Binary64.average_in_reals.
    intros H. apply Qeq_bool_iff in H. vm_compute in H. discriminate.
  - vm_compute. reflexivity.
  - intros H. exact H.
  - change [nan; 1; 2]%float with ([nan] ++ [1; 2])%float%list.
    change [1; 2; nan]%float with ([1; 2] ++ [nan])%float%list.
    apply Permutation_app_comm.
  - intros H. vm_compute in H. discriminate.
  - apply perm_swap.
  - intros H. vm_compute in H. discriminate.
Qed.

(** ** [_determine_confidence] in binary64 *)

Lemma b64_agree_dec (tol a b : float) :
  Binary64.agree tol a b \/ ~ Binary64.agree tol a b.
Proof.
  destruct (b64_values_agree_reflect tol a b) as [[|] [_ H]].
  - left. apply H. reflexivity.
  - right. intros A. apply H in A. discriminate.
Qed.



(** ** The consensus of an odd number of values as a median *)

Lemma is_nan_ordered (x : float) : is_nan x = false -> ordered x.
Proof.
  unfold is_nan, ordered. destruct (x =? x)%float; [reflexivity | discriminate].
Qed.

Lemma b64_sorted_nth_le (s : list float) (i j : nat) (a b : float) :
  Forall ordered s -> StronglySorted Binary64.le s -> (i <= j)%nat ->
  nth_error s i = Some a -> nth_error s j = Some b -> Binary64.le a b.
Proof.
  apply (sorted_nth_le_total ordered Binary64.le).
  exact b64_le_total.
Qed.

(** * Further properties *)

(** ** Agreement *)

Lemma agree_sym (tol a b : Q) : agree tol a b -> agree tol b a.
Proof.
  unfold agree. rewrite (Qabs_Qminus b a), (Qplus_comm (Qabs b) (Qabs a)).
  tauto.
Qed.

(** X1.  Agreement is symmetric: [_values_agree] gives the same answer
    on [(a, b)] and on [(b, a)]. *)
Theorem X1_values_agree_symmetric (tolerance_percent a b : Q) :
  _values_agree tolerance_percent a b = _values_agree tolerance_percent b a.
Proof.
  destruct (values_agree_reflect tolerance_percent a b) as [x [Ex Hx]].
  destruct (values_agree_reflect tolerance_percent b a) as [y [Ey Hy]].
  rewrite Ex, Ey. f_equal.
  destruct x, y; try reflexivity.
  - symmetry. apply Hy, agree_sym, Hx. reflexivity.
  - apply Hx, agree_sym, Hy. reflexivity.
Qed.



Lemma agree_mono (tol tol' a b : Q) : tol <= tol' -> agree tol a b -> agree tol' a b.
Proof.
  unfold agree. intros H [A|[[A B]|[A [B C]]]].
  - left. exact A.
  - right. left. split; [exact A | lra].
  - right. right. split; [exact A|]. split; [exact B | lra].
Qed.

(** X3.  Agreement is monotone in the tolerance: values that agree
    within a tolerance agree within every larger one. *)
Theorem X3_values_agree_monotone (tol tol' a b : Q) :
  tol <= tol' ->
  _values_agree tol a b = Ret true -> _values_agree tol' a b = Ret true.
Proof.
  intros H A. apply values_agree_true, (agree_mono tol); [exact H|].
  apply agree_by_computation, A.
Qed.

Lemma X3_values_agree_monotone_witness :
  _values_agree 1 2.50 2.51 = Ret true.
Proof.
  apply (X3_values_agree_monotone 0.5 1 2.50 2.51).
  - vm_compute. discriminate.
  - vm_compute. reflexivity.
Defined.

(** ** The consensus as a median *)

Lemma filter_all_length {A} (f : A -> bool) (l : list A) :
  Forall (fun x => f x = true) l -> List.length (filter f l) = List.length l.
Proof.
  induction 1 as [|x l Hx _ IH]; cbn; [reflexivity|]. rewrite Hx. cbn. congruence.
Qed.

Lemma filter_length_firstn {A} (f : A -> bool) (l : list A) (k : nat) :
  Forall (fun x => f x = true) (firstn k l) ->
  (List.length (firstn k l) <= List.length (filter f l))%nat.
Proof.
  intros H. rewrite <- (firstn_skipn k l) at 2.
  rewrite filter_app, length_app, (filter_all_length f _ H). lia.
Qed.

Lemma filter_length_skipn {A} (f : A -> bool) (l : list A) (k : nat) :
  Forall (fun x => f x = true) (skipn k l) ->
  (List.length (skipn k l) <= List.length (filter f l))%nat.
Proof.
  intros H. rewrite <- (firstn_skipn k l) at 2.
  rewrite filter_app, length_app, (filter_all_length f _ H). lia.
Qed.

Lemma filter_length_Permutation {A} (f : A -> bool) (l l' : list A) :
  Permutation l l' -> List.length (filter f l) = List.length (filter f l').
Proof.
  induction 1 as [|x l l' _ IH|x y l|l1 l2 l3 _ IH1 _ IH2]; cbn.
  - reflexivity.
  - destruct (f x); cbn; congruence.
  - destruct (f x), (f y); reflexivity.
  - congruence.
Qed.

(** X4.  The consensus of an odd number of values, none of them a
    NaN, is a median in the counting sense: at least half of the values
    are at most it and at least half are at least it, in binary64
    comparison. *)
Theorem X4_consensus_splits_values (xs : list float) (m : float) :
  Forall (fun x => is_nan x = false) xs ->
  Nat.odd (List.length xs) = true ->
  Binary64._calculate_consensus xs = Ret (Some m) ->
  (List.length xs <= 2 * Binary64.count_le m xs)%nat
  /\ (List.length xs <= 2 * Binary64.count_ge m xs)%nat.
Proof.
  intros N O E.
  assert (Ox : Forall ordered xs) by (eapply Forall_impl; [exact is_nan_ordered | exact N]).
  assert (Hne : xs <> []) by (intros ->; discriminate E).
  destruct (b64_consensus_middle xs Hne) as [m' [E' M]].
  rewrite E in E'. injection E' as <-.
  pose proof (b64_sorted_sorted xs Ox) as Hs.
  pose proof (sorted_perm Binary64.not_after xs) as P.
  assert (Os : Forall ordered (sorted Binary64.not_after xs))
    by (eapply Permutation_Forall; eassumption).
  unfold Binary64.count_le, Binary64.count_ge.
  rewrite (filter_length_Permutation _ _ _ P).
  rewrite (filter_length_Permutation (fun x => (m <=? x)%float) _ _ P).
  rewrite <- (sorted_length Binary64.not_after xs) in O |- *.
  set (s := sorted Binary64.not_after xs) in *.
  unfold Binary64.middle_of in M.
  destruct (parity_split (List.length s)) as [[k [Hk [Ev Hh]]]|[k [Hk [Ev Hh]]]].
  - rewrite <- Nat.negb_even, Ev in O. discriminate.
  - rewrite Ev, Hh in M. destruct M as [a [Ha ->]].
    split.
    + assert (L := filter_length_firstn (fun x => (x <=? a)%float) s (S k)).
      rewrite length_firstn in L.
      assert (L' : (Nat.min (S k) (List.length s)
                    <= List.length (filter (fun x => (x <=? a)%float) s))%nat).
      { apply L. apply Forall_forall. intros x Hx.
        apply In_nth_error in Hx. destruct Hx as [i Hi].
        assert (Hlt : (i < S k)%nat).
        { assert (Li : (i < List.length (firstn (S k) s))%nat)
            by (apply nth_error_Some; congruence).
          rewrite length_firstn in Li. lia. }
        rewrite nth_error_firstn in Hi.
        destruct (Nat.ltb_spec i (S k)) as [_|]; [|lia].
        apply (b64_sorted_nth_le s i k); [assumption | assumption | lia | assumption | assumption]. }
      lia.
    + assert (L := filter_length_skipn (fun x => (a <=? x)%float) s k).
      rewrite length_skipn in L.
      assert (L' : (List.length s - k
                    <= List.length (filter (fun x => (a <=? x)%float) s))%nat).
      { apply L. apply Forall_forall. intros x Hx.
        apply In_nth_error in Hx. destruct Hx as [i Hi].
        rewrite nth_error_skipn in Hi.
        apply (b64_sorted_nth_le s k (k + i)); [assumption | assumption | lia | assumption | assumption]. }
      lia.
Qed.

Lemma X4_consensus_splits_values_witness :
  (3 <= 2 * Binary64.count_le 2.5 [2.5; 2.51; 2.49]%float)%nat
  /\ (3 <= 2 * Binary64.count_ge 2.5 [2.5; 2.51; 2.49]%float)%nat.
Proof.
  apply (X4_consensus_splits_values [2.5; 2.51; 2.49]%float 2.5%float).
  - repeat constructor.
  - reflexivity.
  - vm_compute. reflexivity.
Defined.

(** ** NaN, infinities and the symmetry of the operations *)

Section Binary64Special.
Local Open Scope Z_scope.

Lemma is_nan_spec (x : float) : is_nan x = true <-> Prim2SF x = S754_nan.
Proof.
  unfold is_nan. rewrite eqb_spec. split.
  - destruct (Prim2SF x) as [s|s| |s m e] eqn:E; try reflexivity; intros H; exfalso.
    + rewrite (proj2 (SFeqb_key (S754_zero s) (S754_zero s) I I) eq_refl) in H.
      discriminate.
    + rewrite (proj2 (SFeqb_key (S754_infinity s) (S754_infinity s) I I) eq_refl) in H.
      discriminate.
    + rewrite (proj2 (SFeqb_key (S754_finite s m e) (S754_finite s m e) I I) eq_refl)
        in H.
      discriminate.
  - intros ->. reflexivity.
Qed.

Lemma SFadd_comm (x y : spec_float) : SF64add x y = SF64add y x.
Proof.
  destruct x as [[|]|[|]| |sx mx ex], y as [[|]|[|]| |sy my ey]; try reflexivity.
  unfold SF64add, SFadd. rewrite (Z.min_comm ey ex). f_equal. apply Z.add_comm.
Qed.

Lemma add_comm (a b : float) : (a + b = b + a)%float.
Proof. apply Prim2SF_inj. rewrite !add_spec. apply SFadd_comm. Qed.

Lemma SFabs_binary_round_aux (s : bool) (m e : Z) (l : location) :
  SFabs (binary_round_aux prec emax s m e l) = binary_round_aux prec emax false m e l.
Proof.
  unfold binary_round_aux.
  destruct (shr_fexp prec emax m e l) as [mrs' e'].
  destruct (shr_fexp prec emax _ e' loc_Exact) as [mrs'' e''].
  destruct (shr_m mrs''); try reflexivity.
  destruct (e'' <=? emax - prec); reflexivity.
Qed.

Lemma SFabs_binary_normalize_opp (m e : Z) :
  SFabs (binary_normalize prec emax (- m) e false)
  = SFabs (binary_normalize prec emax m e false).
Proof.
  destruct m as [|m|m]; cbn [Z.opp binary_normalize]; try reflexivity;
    unfold binary_round;
    destruct (shl_align m e _) as [mz ez];
    rewrite !SFabs_binary_round_aux; reflexivity.
Qed.

Lemma SFabs_sub_sym (x y : spec_float) :
  SFabs (SF64sub x y) = SFabs (SF64sub y x).
Proof.
  destruct x as [[|]|[|]| |sx mx ex], y as [[|]|[|]| |sy my ey]; try reflexivity.
  unfold SF64sub, SFsub. rewrite (Z.min_comm ey ex).
  rewrite <- SFabs_binary_normalize_opp. f_equal. f_equal. lia.
Qed.

Lemma abs_sub_sym (a b : float) : (abs (a - b) = abs (b - a))%float.
Proof. apply Prim2SF_inj. rewrite !abs_spec, !sub_spec. apply SFabs_sub_sym. Qed.

Lemma leb_nan_l (x y : float) : Prim2SF x = S754_nan -> (x <=? y)%float = false.
Proof. intros H. rewrite leb_spec, H. reflexivity. Qed.

End Binary64Special.

(** X24.  Agreement is symmetric in binary64, for all values, NaN and
    infinities included. *)
Theorem X24_binary64_agreement_symmetric (tolerance_percent a b : float) :
  Binary64._values_agree tolerance_percent a b
  = Binary64._values_agree tolerance_percent b a.
Proof.
  unfold Binary64._values_agree.
  rewrite (andb_comm (b =? 0)%float), (orb_comm (b =? 0)%float).
  rewrite (abs_sub_sym b a), (add_comm (abs b) (abs a)). reflexivity.
Qed.

Section Binary64Self.
Local Open Scope Z_scope.

Lemma Prim2SF_hundred : exists m e, Prim2SF 100 = S754_finite false m e.
Proof. eexists _, _. vm_compute. reflexivity. Qed.

Lemma leb_zero_sign (x y : float) (s : bool) :
  Prim2SF x = S754_zero s -> (x <=? y)%float = (0 <=? y)%float.
Proof.
  intros H. rewrite !leb_spec, H, Prim2SF_zero.
  destruct (Prim2SF y) as [t|t| |t m e]; reflexivity.
Qed.

(** [0 / y * 100] is a zero when [y] is neither zero nor a NaN. *)
Lemma zero_ratio (y : float) :
  SFnonzero (Prim2SF y) -> SFordered (Prim2SF y) ->
  exists s, Prim2SF (0 / y * 100)%float = S754_zero s.
Proof.
  intros N O. destruct Prim2SF_hundred as [m [e H]].
  rewrite mul_spec, div_spec, Prim2SF_zero, H.
  destruct (Prim2SF y) as [t|t| |t m' e']; try contradiction; cbn; eauto.
Qed.

Lemma sub_self_finite (a : float) : Binary64.finite a = true -> (a - a = 0)%float.
Proof.
  intros F. apply Prim2SF_inj. rewrite sub_spec, Prim2SF_zero.
  apply finite_spec in F.
  destruct (Prim2SF a) as [[|]|t| |t m e]; try contradiction; try reflexivity.
  unfold SF64sub, SFsub. rewrite Z.sub_diag. reflexivity.
Qed.

Lemma finite_abs (a : float) : Binary64.finite a = true -> Binary64.finite (abs a) = true.
Proof.
  intros F. apply finite_spec in F. apply finite_spec. rewrite abs_spec.
  destruct (Prim2SF a); try contradiction; exact I.
Qed.

Lemma abs_zero : abs 0 = 0%float.
Proof. reflexivity. Qed.

(** A finite value that is not zero agrees with itself exactly when the
    tolerance is not negative. *)
Lemma values_agree_self_finite (tol a : float) :
  Binary64.finite a = true -> (a =? 0)%float = false ->
  Binary64._values_agree tol a a = Ret (0 <=? tol)%float.
Proof.
  intros F N. unfold Binary64._values_agree, Binary64.py_div.
  rewrite N. cbn [andb orb].
  pose proof (mean_magnitude_nonzero a a N N) as M. rewrite M. cbn [py_bind].
  rewrite (sub_self_finite a F), abs_zero.
  pose proof (mean_ordered (abs a) (abs a) (finite_abs a F) (finite_abs a F)) as O.
  apply ordered_spec in O. apply eqb_zero_false in M.
  destruct (zero_ratio _ M O) as [s Hs].
  rewrite (leb_zero_sign _ tol s Hs). reflexivity.
Qed.

Lemma SFsub_nan_l (y : spec_float) : SF64sub S754_nan y = S754_nan.
Proof. reflexivity. Qed.

Lemma SFsub_nan_r (x : spec_float) : SF64sub x S754_nan = S754_nan.
Proof. destruct x; reflexivity. Qed.

Lemma SFdiv_nan_l (y : spec_float) : SF64div S754_nan y = S754_nan.
Proof. reflexivity. Qed.

Lemma SFmul_nan_l (y : spec_float) : SF64mul S754_nan y = S754_nan.
Proof. reflexivity. Qed.

(** When the difference is a NaN, so is the relative difference, and
    the comparison with the tolerance fails. *)
Lemma values_agree_nan_difference (tol a b : float) :
  Prim2SF (a - b)%float = S754_nan ->
  Binary64._values_agree tol a b = Ret false
  \/ ((a =? 0)%float = true /\ (b =? 0)%float = true).
Proof.
  intros D. unfold Binary64._values_agree, Binary64.py_div.
  assert (A : Prim2SF (abs (a - b)) = S754_nan) by (rewrite abs_spec, D; reflexivity).
  destruct (a =? 0)%float eqn:Ea, (b =? 0)%float eqn:Eb; cbn [andb orb].
  - right. split; reflexivity.
  - left. rewrite (leb_nan_l _ tol A). reflexivity.
  - left. rewrite (leb_nan_l _ tol A). reflexivity.
  - left. rewrite (mean_magnitude_nonzero a b Ea Eb). cbn [py_bind].
    f_equal. apply leb_nan_l.
    rewrite mul_spec, div_spec, A. reflexivity.
Qed.

Lemma not_finite_cases (a : float) :
  Binary64.finite a = false ->
  Prim2SF a = S754_nan \/ exists s, Prim2SF a = S754_infinity s.
Proof.
  unfold Binary64.finite. destruct (Prim2SF a); try discriminate; eauto.
Qed.

Lemma values_agree_self_not_finite (tol a : float) :
  Binary64.finite a = false -> Binary64._values_agree tol a a = Ret false.
Proof.
  intros F.
  assert (D : Prim2SF (a - a)%float = S754_nan).
  { rewrite sub_spec. destruct (not_finite_cases a F) as [->|[s ->]];
      [reflexivity | destruct s; reflexivity]. }
  destruct (values_agree_nan_difference tol a a D) as [E|[E _]]; [exact E|].
  apply eqb_zero_true in E. destruct E as [s E].
  unfold Binary64.finite in F. rewrite E in F. discriminate.
Qed.

Lemma values_agree_nan (tol a b : float) :
  is_nan a = true \/ is_nan b = true -> Binary64._values_agree tol a b = Ret false.
Proof.
  intros H.
  assert (D : Prim2SF (a - b)%float = S754_nan).
  { rewrite sub_spec. destruct H as [H|H]; apply is_nan_spec in H; rewrite H.
    - apply SFsub_nan_l.
    - apply SFsub_nan_r. }
  destruct (values_agree_nan_difference tol a b D) as [E|[Ea Eb]]; [exact E|].
  apply eqb_zero_true in Ea, Eb. destruct Ea as [s Ea], Eb as [t Eb].
  destruct H as [H|H]; apply is_nan_spec in H; congruence.
Qed.

End Binary64Self.

(** X25.  A NaN agrees with nothing: whenever one of the two values is a
    NaN, [_values_agree] returns [False], whatever the tolerance. *)
Theorem X25_binary64_nan_never_agrees (tolerance_percent a b : float) :
  is_nan a = true \/ is_nan b = true ->
  Binary64._values_agree tolerance_percent a b = Ret false.
Proof.
  intros [H|H].
  - apply values_agree_nan. left. exact H.
  - apply values_agree_nan. right. exact H.
Qed.

Lemma X25_binary64_nan_never_agrees_witness :
  Binary64._values_agree infinity nan 1 = Ret false.
Proof.
  apply (X25_binary64_nan_never_agrees infinity nan 1). left. reflexivity.
Defined.

(** X26.  A value agrees with itself exactly when it is zero, or it is
    finite and the tolerance is not negative: an infinity does not agree
    with itself, nor does a NaN, and under a negative tolerance (or a
    NaN one) no value but zero does. *)
Theorem X26_binary64_agreement_reflexive (tolerance_percent a : float) :
  Binary64._values_agree tolerance_percent a a = Ret true
  <-> (Binary64.eq a 0
       \/ (Binary64.finite a = true /\ Binary64.le 0 tolerance_percent)).
Proof.
  unfold Binary64.eq, Binary64.le.
  destruct (a =? 0)%float eqn:Z.
  - split; [intros _; left; reflexivity|]. intros _.
    unfold Binary64._values_agree. rewrite Z. reflexivity.
  - destruct (Binary64.finite a) eqn:F.
    + rewrite (values_agree_self_finite tolerance_percent a F Z). split.
      * intros [= H]. right. split; [reflexivity | exact H].
      * intros [H|[_ H]]; [discriminate | rewrite H; reflexivity].
    + rewrite (values_agree_self_not_finite tolerance_percent a F). split.
      * discriminate.
      * intros [H|[H _]]; discriminate.
Qed.

Lemma X26_binary64_agreement_reflexive_witness :
  Binary64._values_agree 0 2.5 2.5 = Ret true.
Proof.
  apply (proj2 (X26_binary64_agreement_reflexive 0 2.5)).
  right. split; reflexivity.
Defined.

Lemma ltb_irrefl (a : float) : (a <? a)%float = false.
Proof.
  rewrite ltb_spec. unfold SFltb.
  destruct (Prim2SF a) as [s|s| |s m e] eqn:E; try reflexivity.
  - destruct s; reflexivity.
  - pose proof (proj2 (SFeqb_key (S754_finite s m e) (S754_finite s m e) I I) eq_refl)
      as H.
    unfold SFeqb in H. destruct (SFcompare _ _) as [[| |]|]; try discriminate; reflexivity.
Qed.

Lemma values_agree_self_returns (tol a : float) :
  Binary64._values_agree tol a a
  = Ret ((a =? 0) || (Binary64.finite a && (0 <=? tol)))%float.
Proof.
  destruct (a =? 0)%float eqn:Z; cbn [orb].
  - unfold Binary64._values_agree. rewrite Z. reflexivity.
  - destruct (Binary64.finite a) eqn:F; cbn [andb].
    + apply values_agree_self_finite; assumption.
    + apply values_agree_self_not_finite; assumption.
Qed.

(** X27.  Unanimity in binary64: when the three providers report the
    same value, the consensus is that value, and the label is [HIGH] if
    the value is zero, or finite under a tolerance that is not negative,
    and [LOW] otherwise: three equal infinities, or three NaN, are
    labelled as a disagreement. *)
Theorem X27_binary64_unanimous_values (tolerance_percent a : float) :
  Binary64._calculate_consensus [a; a; a] = Ret (Some a)
  /\ exists explanation,
       Binary64._determine_confidence tolerance_percent (Some a) (Some a) (Some a)
       = Ret (if ((a =? 0) || (Binary64.finite a && (0 <=? tolerance_percent)))%float
              then HIGH else LOW, explanation).
Proof.
  split.
  - assert (S : sorted Binary64.not_after [a; a; a] = [a; a; a]).
    { unfold sorted. cbn [fold_right insert].
      unfold Binary64.not_after. rewrite ltb_irrefl. cbn [negb insert].
      rewrite ltb_irrefl. reflexivity. }
    unfold Binary64._calculate_consensus. rewrite S. reflexivity.
  - unfold Binary64._determine_confidence. cbn [Binary64.present app].
    rewrite !values_agree_self_returns. cbn [py_bind].
    destruct ((a =? 0) || (Binary64.finite a && (0 <=? tolerance_percent)))%float;
      cbn; eexists; reflexivity.
Qed.

(** X28.  A NaN among the provider values (the FRED client accepts the
    observation value ["nan"]) never counts as agreeing: when it is the
    only value the label is [SINGLE_SOURCE], with one other value it is
    [LOW], and with two others it is [MEDIUM] or [LOW], never [HIGH]. *)
Theorem X28_binary64_nan_value (tolerance_percent : float)
  (fred_val wb_val oecd_val : option float) (x : float) :
  In x (not_none [fred_val; wb_val; oecd_val]) -> is_nan x = true ->
  exists label explanation,
    Binary64._determine_confidence tolerance_percent fred_val wb_val oecd_val
    = Ret (label, explanation)
    /\ match not_none [fred_val; wb_val; oecd_val] with
       | [_] => label = SINGLE_SOURCE
       | [_; _] => label = LOW
       | _ => label = MEDIUM \/ label = LOW
       end.
Proof.
  intros Hin Hnan.
  assert (N : forall tol y, Binary64._values_agree tol x y = Ret false
                            /\ Binary64._values_agree tol y x = Ret false).
  { intros tol y. split; apply values_agree_nan; [left|right]; exact Hnan. }
  unfold Binary64._determine_confidence.
  destruct fred_val as [a|], wb_val as [b|], oecd_val as [c|];
    cbn [Binary64.present app not_none] in *;
    cbn [In] in Hin.
  - destruct Hin as [<-|[<-|[<-|[]]]].
    + rewrite (proj1 (N tolerance_percent b)), (proj1 (N tolerance_percent c)).
      cbn [py_bind].
      destruct (b64_values_agree_reflect tolerance_percent b c) as [[|] [-> _]];
        cbn; eexists _, _; (split; [reflexivity|]); auto.
    + rewrite (proj2 (N tolerance_percent a)), (proj1 (N tolerance_percent c)).
      destruct (b64_values_agree_reflect tolerance_percent a c) as [[|] [-> _]];
        cbn; eexists _, _; (split; [reflexivity|]); auto.
    + rewrite (proj2 (N tolerance_percent a)), (proj2 (N tolerance_percent b)).
      destruct (b64_values_agree_reflect tolerance_percent a b) as [[|] [-> _]];
        cbn; eexists _, _; (split; [reflexivity|]); auto.
  - destruct Hin as [<-|[<-|[]]].
    + rewrite (proj1 (N tolerance_percent b)). cbn. eexists _, _. split; reflexivity.
    + rewrite (proj2 (N tolerance_percent a)). cbn. eexists _, _. split; reflexivity.
  - destruct Hin as [<-|[<-|[]]].
    + rewrite (proj1 (N tolerance_percent c)). cbn. eexists _, _. split; reflexivity.
    + rewrite (proj2 (N tolerance_percent a)). cbn. eexists _, _. split; reflexivity.
  - eexists _, _. split; reflexivity.
  - destruct Hin as [<-|[<-|[]]].
    + rewrite (proj1 (N tolerance_percent c)). cbn. eexists _, _. split; reflexivity.
    + rewrite (proj2 (N tolerance_percent b)). cbn. eexists _, _. split; reflexivity.
  - eexists _, _. split; reflexivity.
  - eexists _, _. split; reflexivity.
  - destruct Hin.
Qed.

Lemma X28_binary64_nan_value_witness :
  exists explanation,
    Binary64._determine_confidence 0.5 (Some nan) (Some 2.5%float) None
    = Ret (LOW, explanation).
Proof.
  destruct (X28_binary64_nan_value 0.5 (Some nan) (Some 2.5%float) None nan)
    as [label [explanation [E L]]].
  - left. reflexivity.
  - reflexivity.
  - cbn in L. subst label. exists explanation. exact E.
Defined.

(** The two worked examples of the specification come out in binary64
    as they do in exact arithmetic: 2.50, 2.51 and 2.49 give [MEDIUM]
    and the consensus 2.5; 3.4 and 3.5 give [LOW] and the consensus
    3.45. *)
Lemma b64_worked_examples :
  Binary64._determine_confidence 0.5 (Some 2.50%float) (Some 2.51%float)
    (Some 2.49%float)
  = Ret (MEDIUM,
         "FRED (2.50%) and World Bank (2.51%) agree. "
         ++ "OECD (2.49%) differs but serves as validation.")
  /\ Binary64._calculate_consensus [2.50; 2.51; 2.49]%float = Ret (Some 2.5%float)
  /\ Binary64._determine_confidence 0.5 (Some 3.4%float) (Some 3.5%float) None
     = Ret (LOW,
            "FRED (3.40%) and World Bank (3.50%) disagree. "
            ++ "Third source unavailable for tie-breaker.")
  /\ Binary64._calculate_consensus [3.4; 3.5]%float = Ret (Some 3.45%float).
Proof. repeat split; vm_compute; reflexivity. Qed.

Lemma consensus_odd_in (xs : list Q) :
  Nat.odd (List.length xs) = true ->
  exists m, _calculate_consensus xs = Ret (Some m) /\ In m xs.
Proof.
  intros O.
  assert (Hne : xs <> []) by (intros ->; discriminate O).
  destruct (calculate_consensus_middle xs Hne) as [m [E M]].
  unfold _calculate_consensus in E. destruct xs as [|x0 xs0]; [contradiction|].
  set (s := sorted Qle_bool (x0 :: xs0)) in *.
  assert (Ls : List.length s = List.length (x0 :: xs0)) by apply sorted_length.
  destruct (parity_split (List.length s)) as [[k [Hk [Ev Hh]]]|[k [Hk [Ev Hh]]]].
  - rewrite Ls, <- Nat.negb_odd, O in Ev. discriminate.
  - assert (Z.of_nat (List.length s) = (1 + Z.of_nat k * 2)%Z) as Hz by lia.
    rewrite Hz in E. rewrite Z_mod_plus, Z.div_add in E by lia.
    change (1 mod 2)%Z with 1%Z in E. change (1 / 2)%Z with 0%Z in E.
    cbn [Z.eqb Z.add] in E.
    destruct (nth_error_in_range s k) as [a Ha]; [lia|].
    rewrite (getitem_nat _ _ _ Ha) in E. cbn in E. injection E as <-.
    exists a. split.
    + unfold _calculate_consensus. fold s. rewrite Hz.
      rewrite Z_mod_plus, Z.div_add by lia.
      change (1 mod 2)%Z with 1%Z. change (1 / 2)%Z with 0%Z.
      cbn [Z.eqb Z.add]. rewrite (getitem_nat _ _ _ Ha). reflexivity.
    + apply (Permutation_in a (Permutation_sym (sorted_perm Qle_bool (x0 :: xs0)))).
      apply nth_error_In in Ha. exact Ha.
Qed.

(** X5.  For an odd number of values the consensus is one of the values
    themselves, never a number no provider reported. *)
Theorem X5_odd_consensus_is_a_value (xs : list Q) :
  Nat.odd (List.length xs) = true ->
  exists m, _calculate_consensus xs = Ret (Some m) /\ In m xs.
Proof.
  intros O. destruct (consensus_odd_in xs O) as [m [E Hin]].
  exists m. split; [exact E | exact Hin].
Qed.

Lemma X5_odd_consensus_is_a_value_witness :
  exists m, _calculate_consensus [2.50; 2.51; 2.49] = Ret (Some m)
            /\ In m [2.50; 2.51; 2.49].
Proof.
  apply (X5_odd_consensus_is_a_value [2.50; 2.51; 2.49]). reflexivity.
Defined.

(** ** Sources, confidence and unanimity *)

Lemma agree_dec (tol a b : Q) : agree tol a b \/ ~ agree tol a b.
Proof.
  destruct (values_agree_reflect tol a b) as [[|] [_ Hx]].
  - left. apply Hx. reflexivity.
  - right. intros A. apply Hx in A. discriminate.
Qed.

(** X6.  In every result [triangulate] returns, [sources_used] names
    exactly the providers whose value slot is filled; the confidence is
    [NO_DATA] exactly when no source is named, [SINGLE_SOURCE] exactly
    when one is, and [HIGH] only when all three are. *)
Theorem X6_sources_used_and_confidence
  tolerance_percent key w metric country_code start_year end_year log r log' :
  triangulate tolerance_percent key w metric country_code start_year end_year log
    = (Ret r, log') ->
  (In "FRED" (TriangulatedResult.sources_used r)
   <-> TriangulatedResult.fred_value r <> None)
  /\ (In "World Bank" (TriangulatedResult.sources_used r)
      <-> TriangulatedResult.worldbank_value r <> None)
  /\ (In "OECD" (TriangulatedResult.sources_used r)
      <-> TriangulatedResult.oecd_value r <> None)
  /\ (TriangulatedResult.confidence r = NO_DATA
      <-> TriangulatedResult.sources_used r = [])
  /\ (TriangulatedResult.confidence r = SINGLE_SOURCE
      <-> List.length (TriangulatedResult.sources_used r) = 1%nat)
  /\ (TriangulatedResult.confidence r = HIGH ->
      TriangulatedResult.sources_used r = ["FRED"; "World Bank"; "OECD"]).
Proof.
  intros H. apply triangulate_inv in H. destruct H as [fd [wd [od [_ R]]]].
  apply reconcile_inv in R. cbn zeta in R.
  destruct R as [c [e [D [_ [_ [-> [_ [-> [-> [-> [-> _]]]]]]]]]]].
  destruct (determine_confidence_label tolerance_percent
              (MacroDataPoint.value fd) (MacroDataPoint.value wd)
              (MacroDataPoint.value od)) as [c' [e' [D' L]]].
  rewrite D in D'. injection D' as <- _. clear D.
  destruct (MacroDataPoint.value fd) as [a|], (MacroDataPoint.value wd) as [b|],
    (MacroDataPoint.value od) as [d|]; cbn in L |- *.
  - destruct L as [L1 [L2 L3]].
    destruct (agree_dec tolerance_percent a b), (agree_dec tolerance_percent a d),
      (agree_dec tolerance_percent b d);
      first [rewrite L1 by tauto | rewrite L2 by tauto | rewrite L3 by tauto];
      repeat split; intros; try discriminate; try congruence; try lia; intuition congruence.
  - destruct L as [L1 L2].
    destruct (agree_dec tolerance_percent a b);
      first [rewrite L1 by tauto | rewrite L2 by tauto];
      repeat split; intros; try discriminate; try congruence; try lia; intuition congruence.
  - destruct L as [L1 L2].
    destruct (agree_dec tolerance_percent a d);
      first [rewrite L1 by tauto | rewrite L2 by tauto];
      repeat split; intros; try discriminate; try congruence; try lia; intuition congruence.
  - subst c. repeat split; intros; try discriminate; try congruence; try lia; intuition congruence.
  - destruct L as [L1 L2].
    destruct (agree_dec tolerance_percent b d);
      first [rewrite L1 by tauto | rewrite L2 by tauto];
      repeat split; intros; try discriminate; try congruence; try lia; intuition congruence.
  - subst c. repeat split; intros; try discriminate; try congruence; try lia; intuition congruence.
  - subst c. repeat split; intros; try discriminate; try congruence; try lia; intuition congruence.
  - subst c. repeat split; intros; try discriminate; try congruence; try lia; intuition congruence.
Qed.

Lemma X6_sources_used_and_confidence_witness :
  exists r log',
    triangulate 0.5 None world_two_values INFLATION "USA" None None [] = (Ret r, log')
    /\ (In "FRED" (TriangulatedResult.sources_used r)
        <-> TriangulatedResult.fred_value r <> None)
    /\ (In "World Bank" (TriangulatedResult.sources_used r)
        <-> TriangulatedResult.worldbank_value r <> None)
    /\ (In "OECD" (TriangulatedResult.sources_used r)
        <-> TriangulatedResult.oecd_value r <> None)
    /\ (TriangulatedResult.confidence r = NO_DATA
        <-> TriangulatedResult.sources_used r = [])
    /\ (TriangulatedResult.confidence r = SINGLE_SOURCE
        <-> List.length (TriangulatedResult.sources_used r) = 1%nat)
    /\ (TriangulatedResult.confidence r = HIGH ->
        TriangulatedResult.sources_used r = ["FRED"; "World Bank"; "OECD"]).
Proof.
  eexists. eexists. split.
  - vm_compute. reflexivity.
  - eapply (X6_sources_used_and_confidence 0.5 None world_two_values
              INFLATION "USA" None None []).
    vm_compute. reflexivity.
Defined.




(** ** The explanation *)

Lemma append_assoc (s t u : string) : (s ++ t) ++ u = s ++ t ++ u.
Proof. induction s as [|c s IH]; cbn; [reflexivity | now rewrite IH]. Qed.

Lemma mentions_here (name : string) (x : Q) (post : string) :
  mentions (name ++ " (" ++ fmt2 x ++ "%)" ++ post) name x.
Proof. exists "", " (", post. split; [left|]; reflexivity. Qed.

Lemma mentions_only (name : string) (x : Q) (post : string) :
  mentions (name ++ " provided data (" ++ fmt2 x ++ "%)" ++ post) name x.
Proof. exists "", " provided data (", post. split; [right|]; reflexivity. Qed.

Lemma mentions_cons (c : ascii) (t name : string) (x : Q) :
  mentions t name x -> mentions (String c t) name x.
Proof.
  intros [pre [link [post [L ->]]]]. exists (String c pre), link, post.
  split; [exact L | reflexivity].
Qed.

Lemma mentions_skip (s t name : string) (x : Q) :
  mentions t name x -> mentions (s ++ t) name x.
Proof.
  intros [pre [link [post [L ->]]]]. exists (s ++ pre), link, post.
  split; [exact L | now rewrite append_assoc].
Qed.

Ltac find_mention :=
  lazymatch goal with
  | |- mentions _ ?n ?x =>
      first [ eapply (mentions_here n x)
            | eapply (mentions_only n x)
            | apply mentions_cons; find_mention
            | apply mentions_skip; find_mention ]
  end.

Lemma determine_confidence_mentions (tol : Q) (fv wv ov : option Q)
  (c : ConfidenceLevel) (e : string) :
  _determine_confidence tol fv wv ov = Ret (c, e) ->
  (forall x, fv = Some x -> mentions e "FRED" x)
  /\ (forall x, wv = Some x -> mentions e "World Bank" x)
  /\ (forall x, ov = Some x -> mentions e "OECD" x).
Proof.
  unfold _determine_confidence.
  destruct fv as [a|], wv as [b|], ov as [d|]; cbn [present app].
  - destruct (values_agree_reflect tol a b) as [x [-> _]].
    destruct (values_agree_reflect tol a d) as [y [-> _]].
    destruct (values_agree_reflect tol b d) as [z [-> _]].
    cbn [py_bind].
    destruct x, y, z; cbn -[fmt2 append]; intros [= <- <-];
      repeat split; intros ? [= <-]; cbn -[fmt2]; find_mention.
  - destruct (values_agree_reflect tol a b) as [x [-> _]].
    destruct x; cbn -[fmt2 append]; intros [= <- <-];
      repeat split; intros ? [= <-]; cbn -[fmt2]; find_mention.
  - destruct (values_agree_reflect tol a d) as [x [-> _]].
    destruct x; cbn -[fmt2 append]; intros [= <- <-];
      repeat split; intros ? [= <-]; cbn -[fmt2]; find_mention.
  - intros [= <- <-]. repeat split; intros ? [= <-]; cbn -[fmt2]; find_mention.
  - destruct (values_agree_reflect tol b d) as [x [-> _]].
    destruct x; cbn -[fmt2 append]; intros [= <- <-];
      repeat split; intros ? [= <-]; cbn -[fmt2]; find_mention.
  - intros [= <- <-]. repeat split; intros ? [= <-]; cbn -[fmt2]; find_mention.
  - intros [= <- <-]. repeat split; intros ? [= <-]; cbn -[fmt2]; find_mention.
  - intros [= <- <-]. repeat split; intros ? [= <-].
Qed.

(** X8.  In every result [triangulate] returns, the explanation cites
    each provider that contributed a value, by name and with that value
    to two decimals. *)
Theorem X8_explanation_cites_each_source
  tolerance_percent key w metric country_code start_year end_year log r log' :
  triangulate tolerance_percent key w metric country_code start_year end_year log
    = (Ret r, log') ->
  (forall x, TriangulatedResult.fred_value r = Some x ->
             mentions (TriangulatedResult.explanation r) "FRED" x)
  /\ (forall x, TriangulatedResult.worldbank_value r = Some x ->
                mentions (TriangulatedResult.explanation r) "World Bank" x)
  /\ (forall x, TriangulatedResult.oecd_value r = Some x ->
                mentions (TriangulatedResult.explanation r) "OECD" x).
Proof.
  intros H. apply triangulate_inv in H. destruct H as [fd [wd [od [_ R]]]].
  apply reconcile_inv in R. cbn zeta in R.
  destruct R as [c [e [D [_ [_ [_ [-> [-> [-> [-> _]]]]]]]]]].
  exact (determine_confidence_mentions _ _ _ _ _ _ D).
Qed.

Lemma X8_explanation_cites_each_source_witness :
  exists r log',
    triangulate 0.5 None world_two_values INFLATION "USA" None None [] = (Ret r, log')
    /\ (forall x, TriangulatedResult.fred_value r = Some x ->
                  mentions (TriangulatedResult.explanation r) "FRED" x)
    /\ (forall x, TriangulatedResult.worldbank_value r = Some x ->
                  mentions (TriangulatedResult.explanation r) "World Bank" x)
    /\ (forall x, TriangulatedResult.oecd_value r = Some x ->
                  mentions (TriangulatedResult.explanation r) "OECD" x).
Proof.
  eexists. eexists. split.
  - vm_compute. reflexivity.
  - eapply (X8_explanation_cites_each_source 0.5 None world_two_values
              INFLATION "USA" None None []).
    vm_compute. reflexivity.
Defined.

(** ** Requests *)

Lemma prefix_append (s t : string) : String.prefix s (s ++ t) = true.
Proof.
  induction s as [|c s IH]; cbn.
  - destruct t; reflexivity.
  - destruct (ascii_dec c c) as [_|N]; [exact IH | contradiction].
Qed.

Lemma fetch_metric_asks (p : Provider) w key m cc sy ey log :
  exists req,
    snd (fetch_metric_of p w key m cc sy ey log) = (log ++ [req])%list
    /\ asks p req.
Proof.
  destruct p; cbn [fetch_metric_of].
  - unfold FREDClient.fetch_metric. eexists. split.
    + apply try_except_one_request; intros;
        repeat (apply silent_bind; intros); apply silent_lift.
    + apply prefix_append.
  - unfold WorldBankClient.fetch_metric. eexists. split.
    + apply try_except_one_request; intros;
        repeat (apply silent_bind; intros); apply silent_lift.
    + apply prefix_append.
  - unfold OECDClient.fetch_metric. eexists. split.
    + apply try_except_one_request; intros;
        repeat (apply silent_bind; intros); apply silent_lift.
    + apply prefix_append.
Qed.

Lemma triangulate_requests
  tolerance_percent key w metric country_code start_year end_year log :
  exists reqs,
    snd (triangulate tolerance_percent key w metric country_code
           start_year end_year log) = (log ++ reqs)%list
    /\ Forall2 asks (firstn (List.length reqs) [FRED; WORLD_BANK; OECD]) reqs
    /\ (1 <= List.length reqs <= 3)%nat
    /\ (forall r,
          fst (triangulate tolerance_percent key w metric country_code
                 start_year end_year log) = Ret r ->
          List.length reqs = 3%nat).
Proof.
  unfold triangulate, io_bind.
  destruct (fetch_metric_asks FRED w key metric country_code start_year end_year log)
    as [rf [Lf Af]].
  cbn [fetch_metric_of] in Lf.
  destruct (FREDClient.fetch_metric w key metric country_code start_year end_year log)
    as [[fd|e] log1]; cbn [snd] in Lf; subst log1.
  2:{ exists [rf]. cbn. repeat split; try lia; try discriminate.
      constructor; [exact Af | constructor]. }
  destruct (fetch_metric_asks WORLD_BANK w key metric country_code start_year end_year
              (log ++ [rf])%list) as [rw [Lw Aw]].
  cbn [fetch_metric_of] in Lw.
  destruct (WorldBankClient.fetch_metric w metric country_code start_year end_year
              (log ++ [rf])%list) as [[wd|e] log2]; cbn [snd] in Lw; subst log2.
  2:{ exists [rf; rw]. cbn. rewrite <- app_assoc. repeat split; try lia; try discriminate.
      repeat (constructor; try assumption). }
  destruct (fetch_metric_asks OECD w key metric country_code start_year end_year
              ((log ++ [rf]) ++ [rw])%list) as [ro [Lo Ao]].
  cbn [fetch_metric_of] in Lo.
  destruct (OECDClient.fetch_metric w metric country_code start_year end_year
              ((log ++ [rf]) ++ [rw])%list) as [[od|e] log3]; cbn [snd] in Lo; subst log3.
  - exists [rf; rw; ro]. unfold io_lift. cbn. rewrite <- !app_assoc.
    repeat split; try lia. repeat (constructor; try assumption).
  - exists [rf; rw; ro]. cbn. rewrite <- !app_assoc.
    repeat split; try lia; try discriminate. repeat (constructor; try assumption).
Qed.

(** X9.  One call of [triangulate] sends at least one and at most three
    requests, to FRED, the World Bank and OECD in this order, one each;
    it sends all three whenever it returns a result, and once a client
    raises the later providers are not asked: when the FRED client
    raises, [triangulate] raises the same exception after that one
    request, and when the World Bank client raises, after two. *)
Theorem X9_requests_in_call_order
  tolerance_percent key w metric country_code start_year end_year log :
  exists reqs,
    snd (triangulate tolerance_percent key w metric country_code
           start_year end_year log) = (log ++ reqs)%list
    /\ Forall2 asks (firstn (List.length reqs) [FRED; WORLD_BANK; OECD]) reqs
    /\ (1 <= List.length reqs <= 3)%nat
    /\ (forall r,
          fst (triangulate tolerance_percent key w metric country_code
                 start_year end_year log) = Ret r ->
          List.length reqs = 3%nat)
    /\ (forall e,
          fst (FREDClient.fetch_metric w key metric country_code
                 start_year end_year log) = Raise e ->
          List.length reqs = 1%nat
          /\ fst (triangulate tolerance_percent key w metric country_code
                    start_year end_year log) = Raise e)
    /\ (forall fred_data log1 e,
          FREDClient.fetch_metric w key metric country_code start_year end_year log
          = (Ret fred_data, log1) ->
          fst (WorldBankClient.fetch_metric w metric country_code
                 start_year end_year log1) = Raise e ->
          List.length reqs = 2%nat
          /\ fst (triangulate tolerance_percent key w metric country_code
                    start_year end_year log) = Raise e).
Proof.
  unfold triangulate, io_bind.
  destruct (fetch_metric_asks FRED w key metric country_code start_year end_year log)
    as [rf [Lf Af]].
  cbn [fetch_metric_of] in Lf.
  destruct (FREDClient.fetch_metric w key metric country_code start_year end_year log)
    as [[fd|e] log1]; cbn [snd] in Lf; subst log1.
  2:{ exists [rf]. cbn [fst snd List.length firstn].
      split; [reflexivity|]. split; [constructor; [exact Af | constructor]|].
      split; [lia|]. split; [discriminate|].
      split; [intros e' [= <-]; split; reflexivity|].
      intros fd' log1' e' [=]. }
  destruct (fetch_metric_asks WORLD_BANK w key metric country_code start_year end_year
              (log ++ [rf])%list) as [rw [Lw Aw]].
  cbn [fetch_metric_of] in Lw.
  destruct (WorldBankClient.fetch_metric w metric country_code start_year end_year
              (log ++ [rf])%list) as [[wd|e] log2] eqn:Ew; cbn [snd] in Lw; subst log2.
  2:{ exists [rf; rw]. cbn [fst snd List.length firstn]. rewrite <- app_assoc.
      split; [reflexivity|].
      split; [repeat (constructor; try assumption)|].
      split; [lia|]. split; [discriminate|].
      split; [discriminate|].
      intros fd' log1' e' [= <- <-]. rewrite Ew. cbn [fst].
      intros [= <-]. split; reflexivity. }
  destruct (fetch_metric_asks OECD w key metric country_code start_year end_year
              ((log ++ [rf]) ++ [rw])%list) as [ro [Lo Ao]].
  cbn [fetch_metric_of] in Lo.
  destruct (OECDClient.fetch_metric w metric country_code start_year end_year
              ((log ++ [rf]) ++ [rw])%list) as [[od|e] log3]; cbn [snd] in Lo; subst log3.
  - exists [rf; rw; ro]. unfold io_lift. cbn [fst snd List.length firstn].
    rewrite <- !app_assoc.
    split; [reflexivity|].
    split; [repeat (constructor; try assumption)|].
    split; [lia|]. split; [reflexivity|].
    split; [discriminate|].
    intros fd' log1' e' [= <- <-]. rewrite Ew. discriminate.
  - exists [rf; rw; ro]. cbn [fst snd List.length firstn]. rewrite <- !app_assoc.
    split; [reflexivity|].
    split; [repeat (constructor; try assumption)|].
    split; [lia|]. split; [discriminate|].
    split; [discriminate|].
    intros fd' log1' e' [= <- <-]. rewrite Ew. discriminate.
Qed.

Lemma X9_requests_in_call_order_witness :
  exists reqs,
    snd (triangulate 0.5 None world_fred_not_a_number INFLATION "USA" None None [])
    = reqs
    /\ List.length reqs = 1%nat
    /\ fst (triangulate 0.5 None world_fred_not_a_number INFLATION "USA" None None [])
       = Raise ValueError.
Proof.
  destruct (X9_requests_in_call_order 0.5 None world_fred_not_a_number INFLATION "USA"
              None None []) as [reqs [L [_ [_ [_ [S _]]]]]].
  exists reqs. split; [exact L|]. apply (S ValueError). vm_compute. reflexivity.
Defined.

(** ** Failed requests *)

Lemma fetch_on_request_failure {A} (w : World) (u : string)
  (ps : list (string * pyval)) (hs : option (list (string * string)))
  (k : pyval -> py A) (h : string -> A) (log : list Request) (msg : string) :
  response_body w log {| url := u; params := ps; headers := hs |}
    = Raise (RequestException msg) ->
  fst (try_except_request
         (response <- RobustHTTPClient.get w u ps hs ;;
          data <- io_lift (json response) ;;
          io_lift (k data))%io
         (fun msg => io_lift (Ret (h msg))) log)
  = Ret (h msg).
Proof.
  unfold response_body, try_except_request, io_bind, io_lift. cbn [url params headers].
  destruct (RobustHTTPClient.get w u ps hs log) as [[resp|e] log1]; cbn [fst py_bind].
  - intros ->. reflexivity.
  - intros [= ->]. reflexivity.
Qed.

Lemma fetch_metric_request_failure
  (p : Provider) w key m cc sy ey log msg :
  (forall req, response_body w log req = Raise (RequestException msg)) ->
  fst (fetch_metric_of p w key m cc sy ey log)
  = Ret (no_value w (provider_name p) m cc msg).
Proof.
  intros H. destruct p; cbn [fetch_metric_of provider_name].
  - unfold FREDClient.fetch_metric.
    apply (fetch_on_request_failure w _ _ _ (FREDClient.parse w m cc)
             (no_value w FREDClient.source_name m cc)).
    apply H.
  - unfold WorldBankClient.fetch_metric.
    apply (fetch_on_request_failure w _ _ _ (WorldBankClient.parse w m cc)
             (no_value w WorldBankClient.source_name m cc)).
    apply H.
  - unfold OECDClient.fetch_metric.
    apply (fetch_on_request_failure w _ _ _ (OECDClient.parse w m cc)
             (no_value w OECDClient.source_name m cc)).
    apply H.
Qed.

(** X10.  When the request of a client fails with a request error (in
    the session, by an error status, or in decoding the body), its
    [fetch_metric] does not raise: it returns a data point of that
    source without a value, with the ["N/A"] period and with the
    message of the error as [error]. *)
Theorem X10_request_error_becomes_data_point
  (p : Provider) w key metric country_code start_year end_year log msg :
  (forall req, response_body w log req = Raise (RequestException msg)) ->
  exists d,
    fst (fetch_metric_of p w key metric country_code start_year end_year log) = Ret d
    /\ MacroDataPoint.source d = provider_name p
    /\ MacroDataPoint.value d = None
    /\ MacroDataPoint.period d = PStr "N/A"
    /\ MacroDataPoint.error d = Some msg.
Proof.
  intros H. eexists. split.
  - apply fetch_metric_request_failure, H.
  - repeat split.
Qed.

Lemma X10_request_error_becomes_data_point_witness :
  exists d,
    fst (fetch_metric_of OECD world_offline None INFLATION "USA" None None []) = Ret d
    /\ MacroDataPoint.source d = provider_name OECD
    /\ MacroDataPoint.value d = None
    /\ MacroDataPoint.period d = PStr "N/A"
    /\ MacroDataPoint.error d = Some "connection refused".
Proof.
  apply (X10_request_error_becomes_data_point OECD world_offline None INFLATION "USA"
           None None [] "connection refused").
  intros req. reflexivity.
Defined.

Lemma fetch_failure_pair (p : Provider) w key m cc sy ey log :
  (forall log req, exists msg, response_body w log req = Raise (RequestException msg)) ->
  exists err log1,
    fetch_metric_of p w key m cc sy ey log
    = (Ret (no_value w (provider_name p) m cc err), log1).
Proof.
  intros H. destruct p; cbn [fetch_metric_of provider_name].
  - unfold FREDClient.fetch_metric.
    match goal with
    | |- context [RobustHTTPClient.get w ?u ?ps ?hs] =>
        destruct (H log {| url := u; params := ps; headers := hs |}) as [msg Hm]
    end.
    pose proof (fetch_on_request_failure w _ _ _ (FREDClient.parse w m cc)
                  (no_value w FREDClient.source_name m cc) log msg Hm) as F.
    destruct (try_except_request _ _ log) as [o l]. cbn [fst] in F. subst o. eauto.
  - unfold WorldBankClient.fetch_metric.
    match goal with
    | |- context [RobustHTTPClient.get w ?u ?ps ?hs] =>
        destruct (H log {| url := u; params := ps; headers := hs |}) as [msg Hm]
    end.
    pose proof (fetch_on_request_failure w _ _ _ (WorldBankClient.parse w m cc)
                  (no_value w WorldBankClient.source_name m cc) log msg Hm) as F.
    destruct (try_except_request _ _ log) as [o l]. cbn [fst] in F. subst o. eauto.
  - unfold OECDClient.fetch_metric.
    match goal with
    | |- context [RobustHTTPClient.get w ?u ?ps ?hs] =>
        destruct (H log {| url := u; params := ps; headers := hs |}) as [msg Hm]
    end.
    pose proof (fetch_on_request_failure w _ _ _ (OECDClient.parse w m cc)
                  (no_value w OECDClient.source_name m cc) log msg Hm) as F.
    destruct (try_except_request _ _ log) as [o l]. cbn [fst] in F. subst o. eauto.
Qed.

(** X11.  Total failure: when every request fails with a request error,
    [triangulate] still returns a result; its confidence is [NO_DATA],
    it has no consensus value, no provider value and no source, its
    period is ["N/A"], and the explanation, repeated as the disagreement
    details, says that no data is available. *)
Theorem X11_total_failure_gives_no_data
  tolerance_percent key w metric country_code start_year end_year log :
  (forall log req, exists msg, response_body w log req = Raise (RequestException msg)) ->
  exists r log',
    triangulate tolerance_percent key w metric country_code start_year end_year log
      = (Ret r, log')
    /\ TriangulatedResult.confidence r = NO_DATA
    /\ TriangulatedResult.consensus_value r = None
    /\ TriangulatedResult.fred_value r = None
    /\ TriangulatedResult.worldbank_value r = None
    /\ TriangulatedResult.oecd_value r = None
    /\ TriangulatedResult.sources_used r = []
    /\ TriangulatedResult.period r = PStr "N/A"
    /\ TriangulatedResult.explanation r = "No data available from any source."
    /\ TriangulatedResult.disagreement_details r
       = Some "No data available from any source.".
Proof.
  intros H. unfold triangulate, io_bind.
  destruct (fetch_failure_pair FRED w key metric country_code start_year end_year
              log H) as [e1 [log1 E1]].
  cbn [fetch_metric_of] in E1. rewrite E1.
  destruct (fetch_failure_pair WORLD_BANK w key metric country_code start_year end_year
              log1 H) as [e2 [log2 E2]].
  cbn [fetch_metric_of] in E2. rewrite E2.
  destruct (fetch_failure_pair OECD w key metric country_code start_year end_year
              log2 H) as [e3 [log3 E3]].
  cbn [fetch_metric_of] in E3. rewrite E3.
  eexists. eexists. split; [reflexivity|].
  repeat split.
Qed.

Lemma X11_total_failure_gives_no_data_witness :
  exists r log',
    triangulate 0.5 None world_offline INFLATION "USA" None None [] = (Ret r, log')
    /\ TriangulatedResult.confidence r = NO_DATA
    /\ TriangulatedResult.consensus_value r = None
    /\ TriangulatedResult.fred_value r = None
    /\ TriangulatedResult.worldbank_value r = None
    /\ TriangulatedResult.oecd_value r = None
    /\ TriangulatedResult.sources_used r = []
    /\ TriangulatedResult.period r = PStr "N/A"
    /\ TriangulatedResult.explanation r = "No data available from any source."
    /\ TriangulatedResult.disagreement_details r
       = Some "No data available from any source.".
Proof.
  apply (X11_total_failure_gives_no_data 0.5 None world_offline INFLATION "USA"
           None None []).
  intros log req. exists "connection refused". reflexivity.
Defined.

(** ** The data points the clients return *)

Ltac py_inv :=
  repeat match goal with
    | |- context [py_bind ?m _] => destruct m eqn:?; cbn [py_bind]
    | |- context [if ?b then _ else _] => destruct b eqn:?
    | |- context [match ?x with _ => _ end] => destruct x eqn:?
    end.

Lemma fred_parse_shape w m cc data d :
  FREDClient.parse w m cc data = Ret d ->
  (exists err, d = no_value w FREDClient.source_name m cc err)
  \/ (exists x per, d = observed w FREDClient.source_name m cc (Some x) per data).
Proof.
  unfold FREDClient.parse.
  py_inv; intros [= <-]; eauto.
Qed.

Lemma worldbank_parse_shape w m cc data d :
  WorldBankClient.parse w m cc data = Ret d ->
  (exists err, d = no_value w WorldBankClient.source_name m cc err)
  \/ (exists x per, d = observed w WorldBankClient.source_name m cc (Some x) per data).
Proof.
  unfold WorldBankClient.parse.
  py_inv; intros [= <-]; eauto.
Qed.

Lemma oecd_parse_shape w m cc data d :
  OECDClient.parse w m cc data = Ret d ->
  (exists err, d = no_value w OECDClient.source_name m cc err)
  \/ (exists v per, d = observed w OECDClient.source_name m cc v per data).
Proof.
  unfold OECDClient.parse.
  py_inv; intros [= <-]; eauto.
Qed.

Lemma try_except_result {A} (w : World) (u : string)
  (ps : list (string * pyval)) (hs : option (list (string * string)))
  (k : pyval -> py A) (h : string -> A) (log : list Request) (a : A)
  (log' : list Request) :
  try_except_request
    (response <- RobustHTTPClient.get w u ps hs ;;
     data <- io_lift (json response) ;;
     io_lift (k data))%io
    (fun msg => io_lift (Ret (h msg))) log = (Ret a, log') ->
  (exists data, k data = Ret a) \/ (exists msg, a = h msg).
Proof.
  unfold try_except_request, io_bind, io_lift.
  destruct (RobustHTTPClient.get w u ps hs log) as [[resp|e] log1].
  - destruct (json resp) as [data|e].
    + destruct (k data) as [a'|e] eqn:K.
      * intros [= <- <-]. left. eauto.
      * destruct e; intros [= <- <-]. right. eauto.
    + destruct e; intros [= <- <-]. right. eauto.
  - destruct e; intros [= <- <-]. right. eauto.
Qed.

(** X12.  Every data point a client returns carries the request key
    (source name, metric, country code) and the unit "percent".  A data
    point with [error] set has no value, the ["N/A"] period and no raw
    response; and for FRED and the World Bank a data point has a value
    exactly when it has no [error]. *)
Theorem X12_data_point_invariants
  (p : Provider) w key metric country_code start_year end_year log d log' :
  fetch_metric_of p w key metric country_code start_year end_year log = (Ret d, log') ->
  MacroDataPoint.source d = provider_name p
  /\ MacroDataPoint.metric d = metric_value metric
  /\ MacroDataPoint.country_code d = country_code
  /\ MacroDataPoint.unit_ d = "percent"
  /\ (MacroDataPoint.error d <> None ->
      MacroDataPoint.value d = None
      /\ MacroDataPoint.period d = PStr "N/A"
      /\ MacroDataPoint.raw_response d = None)
  /\ (p <> OECD ->
      (MacroDataPoint.value d <> None <-> MacroDataPoint.error d = None)).
Proof.
  intros H.
  assert (S : (exists err, d = no_value w (provider_name p) metric country_code err)
              \/ (exists v per data,
                    d = observed w (provider_name p) metric country_code v per data
                    /\ (p <> OECD -> v <> None))).
  { destruct p; cbn [fetch_metric_of provider_name] in *.
    - unfold FREDClient.fetch_metric in H.
      apply (try_except_result w _ _ _ (FREDClient.parse w metric country_code)
               (no_value w FREDClient.source_name metric country_code)) in H.
      destruct H as [[data K]|[msg ->]]; [|left; eauto].
      apply fred_parse_shape in K. destruct K as [[err ->]|[x [per ->]]];
        [left; eauto | right].
      exists (Some x), per, data. split; [reflexivity | discriminate].
    - unfold WorldBankClient.fetch_metric in H.
      apply (try_except_result w _ _ _ (WorldBankClient.parse w metric country_code)
               (no_value w WorldBankClient.source_name metric country_code)) in H.
      destruct H as [[data K]|[msg ->]]; [|left; eauto].
      apply worldbank_parse_shape in K. destruct K as [[err ->]|[x [per ->]]];
        [left; eauto | right].
      exists (Some x), per, data. split; [reflexivity | discriminate].
    - unfold OECDClient.fetch_metric in H.
      apply (try_except_result w _ _ _ (OECDClient.parse w metric country_code)
               (no_value w OECDClient.source_name metric country_code)) in H.
      destruct H as [[data K]|[msg ->]]; [|left; eauto].
      apply oecd_parse_shape in K. destruct K as [[err ->]|[v [per ->]]];
        [left; eauto | right].
      exists v, per, data. split; [reflexivity | congruence]. }
  destruct S as [[err ->]|[v [per [data [-> Hv]]]]]; cbn.
  - repeat split; intros; try discriminate; try congruence.
  - repeat split; intros; try discriminate; try congruence.
    apply Hv; assumption.
Qed.

Lemma X12_data_point_invariants_witness :
  exists d log',
    fetch_metric_of WORLD_BANK world_two_values None INFLATION "USA" None None []
      = (Ret d, log')
    /\ MacroDataPoint.source d = provider_name WORLD_BANK
    /\ MacroDataPoint.metric d = metric_value INFLATION
    /\ MacroDataPoint.country_code d = "USA"
    /\ MacroDataPoint.unit_ d = "percent"
    /\ (MacroDataPoint.error d <> None ->
        MacroDataPoint.value d = None
        /\ MacroDataPoint.period d = PStr "N/A"
        /\ MacroDataPoint.raw_response d = None)
    /\ (WORLD_BANK <> OECD ->
        (MacroDataPoint.value d <> None <-> MacroDataPoint.error d = None)).
Proof.
  eexists. eexists. split.
  - vm_compute. reflexivity.
  - eapply (X12_data_point_invariants WORLD_BANK world_two_values None INFLATION "USA"
              None None []).
    vm_compute. reflexivity.
Defined.

(** ** Which observation a client reports *)

Lemma dict_get_contains {V} (k : string) (d : list (string * V)) (v : V) :
  dict_get k d = Some v -> existsb (String.eqb k) (dict_keys d) = true.
Proof.
  induction d as [|[k' v'] d IH]; cbn; [discriminate|].
  destruct (String.eqb k k'); [reflexivity|]. exact IH.
Qed.

Lemma fred_first_valid_skips (skipped : list pyval) (o : pyval) (rest : list pyval)
  (date v : pyval) (x : Q) :
  Forall (fun s => has_entry s "value" (PStr ".")) skipped ->
  has_entry o "value" v -> py_eq_str v "." = false -> py_float v = Ret x ->
  has_entry o "date" date ->
  FREDClient.first_valid (skipped ++ o :: rest) = Ret (Some (x, date)).
Proof.
  intros Hs [items [-> Hv]] Hne Hx [items' [[= <-] Hd]].
  induction Hs as [|s skipped [si [-> Hsv]] _ IH]; cbn [app FREDClient.first_valid].
  - cbn [getitem_str]. rewrite Hv. cbn [py_bind]. rewrite Hne. cbn [negb].
    rewrite Hx. cbn [py_bind]. rewrite Hd. reflexivity.
  - cbn [getitem_str]. rewrite Hsv. cbn. exact IH.
Qed.

Lemma fred_first_valid_none (obs : list pyval) :
  Forall (fun s => has_entry s "value" (PStr ".")) obs ->
  FREDClient.first_valid obs = Ret None.
Proof.
  induction 1 as [|s obs [si [-> Hsv]] _ IH]; cbn [FREDClient.first_valid].
  - reflexivity.
  - cbn [getitem_str]. rewrite Hsv. cbn. exact IH.
Qed.

(** X13.  From a FRED body whose ["observations"] is a list, the client
    reports the first observation whose value is not the placeholder
    ["."], with that observation's date as the period; the observations
    after it are not inspected.  When every observation carries the
    placeholder, the data point has no value and says so. *)
Theorem X13_fred_reports_first_valid_observation
  w metric country_code (body : list (string * pyval)) (obs : list pyval) :
  dict_get "observations" body = Some (PList obs) ->
  (forall skipped o rest date v x,
      obs = (skipped ++ o :: rest)%list ->
      Forall (fun s => has_entry s "value" (PStr ".")) skipped ->
      has_entry o "value" v -> py_eq_str v "." = false -> py_float v = Ret x ->
      has_entry o "date" date ->
      FREDClient.parse w metric country_code (PDict body)
      = Ret (observed w FREDClient.source_name metric country_code
               (Some x) date (PDict body)))
  /\ (obs <> [] ->
      Forall (fun s => has_entry s "value" (PStr ".")) obs ->
      FREDClient.parse w metric country_code (PDict body)
      = Ret (no_value w FREDClient.source_name metric country_code
               "All observations are missing values")).
Proof.
  intros Hb. split.
  - intros skipped o rest date v x -> Hs Hv Hne Hx Hd.
    unfold FREDClient.parse. cbn [py_contains getitem_str py_bind].
    rewrite (dict_get_contains _ _ _ Hb), Hb. cbn [py_bind truthy].
    assert (T : match (skipped ++ o :: rest)%list with [] => false | _ => true end = true)
      by (destruct skipped; reflexivity).
    rewrite T. cbn [negb py_iter py_bind].
    rewrite (fred_first_valid_skips skipped o rest date v x Hs Hv Hne Hx Hd).
    reflexivity.
  - intros Hne Hs.
    unfold FREDClient.parse. cbn [py_contains getitem_str py_bind].
    rewrite (dict_get_contains _ _ _ Hb), Hb. cbn [py_bind truthy].
    assert (T : match obs with [] => false | _ => true end = true)
      by (destruct obs; [contradiction | reflexivity]).
    rewrite T. cbn [negb py_iter py_bind].
    rewrite (fred_first_valid_none obs Hs). reflexivity.
Qed.

Lemma X13_fred_reports_first_valid_observation_witness :
  FREDClient.parse world_two_values INFLATION "USA"
    (PDict [("observations",
             PList [PDict [("date", PStr "2024-03-01"); ("value", PStr ".")];
                    PDict [("date", PStr "2024-02-01"); ("value", PStr "3.2")];
                    PNum 7])])
  = Ret (observed world_two_values FREDClient.source_name INFLATION "USA"
           (Some 3.2) (PStr "2024-02-01")
           (PDict [("observations",
                    PList [PDict [("date", PStr "2024-03-01"); ("value", PStr ".")];
                           PDict [("date", PStr "2024-02-01"); ("value", PStr "3.2")];
                           PNum 7])])).
Proof.
  refine (proj1 (X13_fred_reports_first_valid_observation world_two_values INFLATION
                   "USA"
                   [("observations",
                     PList [PDict [("date", PStr "2024-03-01"); ("value", PStr ".")];
                            PDict [("date", PStr "2024-02-01"); ("value", PStr "3.2")];
                            PNum 7])]
                   [PDict [("date", PStr "2024-03-01"); ("value", PStr ".")];
                    PDict [("date", PStr "2024-02-01"); ("value", PStr "3.2")];
                    PNum 7]
                   eq_refl)
            [PDict [("date", PStr "2024-03-01"); ("value", PStr ".")]]
            (PDict [("date", PStr "2024-02-01"); ("value", PStr "3.2")])
            [PNum 7] (PStr "2024-02-01") (PStr "3.2") 3.2 eq_refl _ _ eq_refl eq_refl _).
  - repeat constructor. eexists. split; reflexivity.
  - eexists. split; reflexivity.
  - eexists. split; reflexivity.
Defined.

Lemma worldbank_first_non_null_skips (skipped : list pyval)
  (items : list (string * pyval)) (rest : list pyval) (v : pyval) (x : Q) :
  Forall (fun s => null_entry s "value") skipped ->
  dict_get "value" items = Some v -> v <> PNone -> py_float v = Ret x ->
  WorldBankClient.first_non_null (skipped ++ PDict items :: rest)
  = Ret (Some (x, get_or items "date" (PStr "N/A"))).
Proof.
  intros Hs Hv Hne Hx.
  induction Hs as [|s skipped [si [-> Hsv]] _ IH];
    cbn [app WorldBankClient.first_non_null].
  - cbn [py_get getitem_str py_bind]. rewrite Hv.
    destruct v; try contradiction; cbn [py_bind]; rewrite Hx; reflexivity.
  - cbn [py_get py_bind]. destruct Hsv as [-> | ->]; exact IH.
Qed.

Lemma worldbank_first_non_null_none (obs : list pyval) :
  Forall (fun s => null_entry s "value") obs ->
  WorldBankClient.first_non_null obs = Ret None.
Proof.
  induction 1 as [|s obs [si [-> Hsv]] _ IH]; cbn [WorldBankClient.first_non_null].
  - reflexivity.
  - cbn [py_get py_bind]. destruct Hsv as [-> | ->]; exact IH.
Qed.

(** X14.  From a World Bank body [[metadata, observations, ...]] the
    client reports the first observation whose value is not null, with
    that observation's date (["N/A"] when it has none) as the period;
    the observations after it are not inspected.  When every value is
    null or missing, the data point has no value and says so. *)
Theorem X14_worldbank_reports_first_non_null
  w metric country_code (meta : pyval) (obs more : list pyval) :
  let data := PList (meta :: PList obs :: more) in
  (forall skipped items rest v x,
      obs = (skipped ++ PDict items :: rest)%list ->
      Forall (fun s => null_entry s "value") skipped ->
      dict_get "value" items = Some v -> v <> PNone -> py_float v = Ret x ->
      WorldBankClient.parse w metric country_code data
      = Ret (observed w WorldBankClient.source_name metric country_code
               (Some x) (get_or items "date" (PStr "N/A")) data))
  /\ (obs <> [] ->
      Forall (fun s => null_entry s "value") obs ->
      WorldBankClient.parse w metric country_code data
      = Ret (no_value w WorldBankClient.source_name metric country_code
               "All values are null")).
Proof.
  intros data. split.
  - intros skipped items rest v x -> Hs Hv Hne Hx.
    unfold WorldBankClient.parse, data.
    change (getitem_int (PList (meta :: PList (skipped ++ PDict items :: rest) :: more)) 1)
      with (Ret (PList (skipped ++ PDict items :: rest))).
    cbn -[WorldBankClient.first_non_null observed no_value].
    assert (T : match (skipped ++ PDict items :: rest)%list with
                | [] => false | _ => true end = true)
      by (destruct skipped; reflexivity).
    rewrite T. cbn [negb].
    rewrite (worldbank_first_non_null_skips skipped items rest v x Hs Hv Hne Hx).
    reflexivity.
  - intros Hne Hs.
    unfold WorldBankClient.parse, data.
    change (getitem_int (PList (meta :: PList obs :: more)) 1) with (Ret (PList obs)).
    cbn -[WorldBankClient.first_non_null observed no_value].
    assert (T : match obs with [] => false | _ => true end = true)
      by (destruct obs; [contradiction | reflexivity]).
    rewrite T. cbn [negb].
    rewrite (worldbank_first_non_null_none obs Hs). reflexivity.
Qed.

Lemma X14_worldbank_reports_first_non_null_witness :
  WorldBankClient.parse world_two_values INFLATION "USA"
    (PList [PDict [("page", PNum 1)];
            PList [PDict [("date", PStr "2025"); ("value", PNone)];
                   PDict [("value", PNum 3.1)];
                   PStr "junk"]])
  = Ret (observed world_two_values WorldBankClient.source_name INFLATION "USA"
           (Some 3.1) (PStr "N/A")
           (PList [PDict [("page", PNum 1)];
                   PList [PDict [("date", PStr "2025"); ("value", PNone)];
                          PDict [("value", PNum 3.1)];
                          PStr "junk"]])).
Proof.
  refine (proj1 (X14_worldbank_reports_first_non_null world_two_values INFLATION "USA"
                   (PDict [("page", PNum 1)])
                   [PDict [("date", PStr "2025"); ("value", PNone)];
                    PDict [("value", PNum 3.1)];
                    PStr "junk"]
                   [])
            [PDict [("date", PStr "2025"); ("value", PNone)]]
            [("value", PNum 3.1)] [PStr "junk"] (PNum 3.1) 3.1
            eq_refl _ eq_refl _ eq_refl).
  - repeat constructor. eexists. split; [reflexivity | right; reflexivity].
  - discriminate.
Defined.

Lemma leb_lex_le (s t : string) : String.leb s t = true -> lex_le s t.
Proof.
  unfold String.leb. destruct (String.compare s t) eqn:E; try discriminate; intros _.
  - apply String.compare_eq_iff in E. subst. apply lex_le_refl.
  - apply compare_Lt_lex_le, E.
Qed.

Lemma leb_false_lex_le (s t : string) : String.leb s t = false -> lex_le t s.
Proof.
  unfold String.leb. destruct (String.compare s t) eqn:E; try discriminate; intros _.
  apply compare_Lt_lex_le. rewrite String.compare_antisym, E. reflexivity.
Qed.

Lemma insert_sorted_str (x : string) (l : list string) :
  StronglySorted lex_le l -> StronglySorted lex_le (insert String.leb x l).
Proof.
  induction 1 as [|y l Hl IH Hy]; cbn.
  - constructor; constructor.
  - destruct (String.leb x y) eqn:E.
    + apply leb_lex_le in E. constructor; [constructor; assumption|].
      constructor; [exact E|].
      eapply Forall_impl; [|exact Hy]. cbn. intros z Hz.
      eapply lex_le_trans; eassumption.
    + apply leb_false_lex_le in E. constructor; [exact IH|].
      eapply Permutation_Forall; [apply insert_perm|].
      constructor; [exact E | exact Hy].
Qed.

Lemma sorted_sorted_str (l : list string) :
  StronglySorted lex_le (sorted String.leb l).
Proof.
  induction l as [|x l IH]; cbn; [constructor|]. apply insert_sorted_str, IH.
Qed.

Lemma sorted_last_greatest (l : list string) (k : string) :
  StronglySorted lex_le l -> nth_error l (List.length l - 1) = Some k ->
  forall x, In x l -> lex_le x k.
Proof.
  induction 1 as [|y l Hl IH Hy]; intros Hk x Hx; [destruct Hx|].
  destruct l as [|z l].
  - cbn in Hk. injection Hk as <-. destruct Hx as [<-|[]]. apply lex_le_refl.
  - assert (Hk' : nth_error (z :: l) (List.length (z :: l) - 1) = Some k).
    { cbn [List.length] in Hk |- *.
      replace (S (S (List.length l)) - 1)%nat with (S (List.length l)) in Hk by lia.
      replace (S (List.length l) - 1)%nat with (List.length l) by lia.
      exact Hk. }
    destruct Hx as [<-|Hx].
    + rewrite Forall_forall in Hy. apply Hy.
      eapply nth_error_In. exact Hk'.
    + apply IH; assumption.
Qed.

Lemma index_list_last {A} (l : list A) (k : A) :
  index_list l (-1) = Some k -> nth_error l (List.length l - 1) = Some k.
Proof.
  unfold index_list. change ((-1 <? 0)%Z) with true. cbn iota.
  destruct (Z.ltb_spec (-1 + Z.of_nat (List.length l)) 0) as [H|H]; [discriminate|].
  intros E. rewrite <- E. f_equal. lia.
Qed.

(** X15.  From an OECD body whose first data set has a non-empty
    ["observations"] object, the client reports the observation stored
    under the key that is greatest in the lexicographic order of strings
    (so ["0:9"] is preferred to ["0:10"]): the value is its first
    element, absent when that element is null. *)
Theorem X15_oecd_reports_greatest_key
  w metric country_code (body ds : list (string * pyval)) (more : list pyval)
  (obs : list (string * pyval)) (d : MacroDataPoint.t) :
  dict_get "dataSets" body = Some (PList (PDict ds :: more)) ->
  dict_get "observations" ds = Some (PDict obs) ->
  OECDClient.parse w metric country_code (PDict body) = Ret d ->
  obs = []
  \/ exists k entry v,
       In k (dict_keys obs)
       /\ (forall k', In k' (dict_keys obs) -> lex_le k' k)
       /\ dict_get k obs = Some entry
       /\ getitem_int entry 0 = Ret v
       /\ ((v = PNone /\ MacroDataPoint.value d = None)
           \/ (exists x, py_float v = Ret x /\ MacroDataPoint.value d = Some x)).
Proof.
  intros Hb Hds. unfold OECDClient.parse.
  cbn [py_get py_bind]. rewrite Hb. cbn [truthy negb py_bind].
  change (getitem_int (PList (PDict ds :: more)) 0) with (Ret (PDict ds)).
  cbn [py_bind py_get]. rewrite Hds. cbn [truthy].
  destruct obs as [|kv obs']; [intros _; left; reflexivity|].
  cbn [negb py_keys py_bind].
  set (items := kv :: obs') in *.
  destruct (index_list (sorted String.leb (dict_keys items)) (-1)) as [k|] eqn:Ek;
    [|cbn [py_bind]; discriminate].
  cbn [py_bind getitem_str].
  destruct (dict_get k items) as [entry|] eqn:Eg; [|cbn [py_bind]; discriminate].
  cbn [py_bind].
  destruct (getitem_int entry 0) as [v|] eqn:Ev; [|cbn [py_bind]; discriminate].
  cbn [py_bind].
  destruct (OECDClient.period_of (PDict body) k) as [per|]; [|cbn [py_bind]; discriminate].
  cbn [py_bind].
  apply index_list_last in Ek.
  assert (Hin : In k (dict_keys items)).
  { apply (Permutation_in k (Permutation_sym (sorted_perm String.leb (dict_keys items)))).
    eapply nth_error_In, Ek. }
  assert (Hmax : forall k', In k' (dict_keys items) -> lex_le k' k).
  { intros k' Hk'.
    apply (sorted_last_greatest _ k (sorted_sorted_str (dict_keys items)) Ek).
    apply (Permutation_in k' (sorted_perm String.leb (dict_keys items))), Hk'. }
  intros E. right. exists k, entry, v. repeat split; try assumption.
  destruct v; cbn [py_bind] in E;
    try (left; injection E as <-; split; reflexivity);
    right;
    match type of E with
    | context [py_float ?u] => destruct (py_float u) as [x|] eqn:Ef; [|discriminate]
    end;
    cbn [py_bind] in E; injection E as <-; exists x; split; reflexivity.
Qed.

Lemma X15_oecd_reports_greatest_key_witness :
  exists d,
    OECDClient.parse world_two_values INFLATION "USA"
      (PDict [("dataSets",
               PList [PDict [("observations",
                              PDict [("0:9", PList [PNum 2.9]);
                                     ("0:10", PList [PNum 3.1])])]])])
    = Ret d
    /\ MacroDataPoint.value d = Some 2.9
    /\ exists k entry v,
         In k ["0:9"; "0:10"]
         /\ (forall k', In k' ["0:9"; "0:10"] -> lex_le k' k)
         /\ dict_get k [("0:9", PList [PNum 2.9]); ("0:10", PList [PNum 3.1])]
            = Some entry
         /\ getitem_int entry 0 = Ret v
         /\ ((v = PNone /\ MacroDataPoint.value d = None)
             \/ (exists x, py_float v = Ret x /\ MacroDataPoint.value d = Some x)).
Proof.
  eexists. split; [vm_compute; reflexivity|]. split; [reflexivity|].
  destruct (X15_oecd_reports_greatest_key world_two_values INFLATION "USA"
              [("dataSets",
                PList [PDict [("observations",
                               PDict [("0:9", PList [PNum 2.9]);
                                      ("0:10", PList [PNum 3.1])])]])]
              [("observations",
                PDict [("0:9", PList [PNum 2.9]); ("0:10", PList [PNum 3.1])])]
              []
              [("0:9", PList [PNum 2.9]); ("0:10", PList [PNum 3.1])]
              _ eq_refl eq_refl eq_refl) as [E|H].
  - discriminate E.
  - exact H.
Defined.

(** ** The mapping tables *)

(** X16.  The mapping tables cover exactly the four supported country
    codes, for every provider and metric; in addition FRED's per-metric
    table answers the key ["default"], under which it holds its
    template. *)
Theorem X16_mapping_tables_cover_supported_countries
  (p : Provider) (metric : MetricType) (country_code : string) :
  has_mapping p metric country_code = true
  <-> (In country_code ["USA"; "IND"; "EUU"; "CHN"]
       \/ (p = FRED /\ country_code = "default")).
Proof.
  unfold has_mapping, country_info_of.
  destruct p, metric; cbn [fred METRIC_MAPPINGS COUNTRY_MAPPINGS dict_get];
    destruct (String.eqb_spec country_code "USA") as [->|N1];
    try (cbn; intuition congruence);
    destruct (String.eqb_spec country_code "IND") as [->|N2];
    try (cbn; intuition congruence);
    destruct (String.eqb_spec country_code "EUU") as [->|N3];
    try (cbn; intuition congruence);
    destruct (String.eqb_spec country_code "CHN") as [->|N4];
    try (cbn; intuition congruence);
    try (destruct (String.eqb_spec country_code "default") as [->|N5]);
    cbn; split; intros H; try discriminate; try (right; split; reflexivity);
    try reflexivity;
    destruct H as [[H|[H|[H|[H|[]]]]]|[H1 H2]]; congruence.
Qed.

(** * The formatter *)

(** X17.  The risk assessment is monotone in the value: for GDP growth a
    larger value is never assessed as riskier, for inflation,
    unemployment and interest rates a larger value is never assessed as
    less risky. *)
Theorem X17_risk_level_monotone (metric : MetricType) (a b : Q) :
  a <= b ->
  let ra := risk_rank (ChatMLFormatter._assess_risk_level metric (Some a)) in
  let rb := risk_rank (ChatMLFormatter._assess_risk_level metric (Some b)) in
  match metric with
  | GDP_GROWTH => (rb <= ra)%nat
  | _ => (ra <= rb)%nat
  end.
Proof.
  intros H. unfold ChatMLFormatter._assess_risk_level.
  destruct metric; cbn [ChatMLFormatter.RISK_THRESHOLDS get_or dict_get String.eqb
                          Ascii.eqb Bool.eqb];
    cbn -[Qle_bool];
    repeat match goal with
      | |- context [Qle_bool ?x ?y] =>
          let E := fresh "E" in
          destruct (Qle_bool x y) eqn:E;
          [apply Qle_bool_iff in E | apply Qle_bool_false_iff in E]
      end;
    cbn; try lia; exfalso; lra.
Qed.

Lemma X17_risk_level_monotone_witness :
  (risk_rank (ChatMLFormatter._assess_risk_level INFLATION (Some 3.45%Q))
   <= risk_rank (ChatMLFormatter._assess_risk_level INFLATION (Some 6.5%Q)))%nat.
Proof.
  apply (X17_risk_level_monotone INFLATION 3.45 6.5).
  vm_compute. discriminate.
Defined.

Lemma questions_length (m : MetricType) :
  List.length (ChatMLFormatter.METRIC_QUESTIONS m) = 4%nat.
Proof. destruct m; reflexivity. Qed.

Lemma format_sample_returns str (r : TriangulatedResult.t) (m : MetricType) (v : Z) :
  exists template,
    nth_error (ChatMLFormatter.METRIC_QUESTIONS m) (Z.to_nat (v mod 4)) = Some template
    /\ ChatMLFormatter.format_sample str r m v
       = Ret {| ChatMLSample.messages :=
                  [ message "system" ChatMLFormatter.SYSTEM_PROMPT;
                    message "user" (format template (TriangulatedResult.country r));
                    message "assistant"
                      (ChatMLFormatter._generate_assistant_response str r m) ] |}.
Proof.
  unfold ChatMLFormatter.format_sample. rewrite questions_length.
  unfold py_mod. cbn [Z.of_nat Pos.of_succ_nat Pos.succ Z.eqb py_bind].
  assert (B : (0 <= v mod 4 < 4)%Z) by (apply Z.mod_pos_bound; lia).
  destruct (nth_error_in_range (ChatMLFormatter.METRIC_QUESTIONS m)
              (Z.to_nat (v mod 4))) as [template Ht].
  { rewrite questions_length. lia. }
  exists template. split; [exact Ht|].
  rewrite <- (Z2Nat.id (v mod 4)) at 1 by lia.
  rewrite (getitem_nat _ _ _ Ht). reflexivity.
Qed.

(** X18.  [format_sample] never raises, for any variant number, negative
    ones included: it returns the system prompt, the question template
    of index [variant mod 4] filled with the country, and the assistant
    response.  Variants therefore repeat with period 4. *)
Theorem X18_format_sample_shape str (result : TriangulatedResult.t)
  (metric : MetricType) (question_variant : Z) :
  (exists template,
      nth_error (ChatMLFormatter.METRIC_QUESTIONS metric)
        (Z.to_nat (question_variant mod 4)) = Some template
      /\ ChatMLFormatter.format_sample str result metric question_variant
         = Ret {| ChatMLSample.messages :=
                    [ message "system" ChatMLFormatter.SYSTEM_PROMPT;
                      message "user"
                        (format template (TriangulatedResult.country result));
                      message "assistant"
                        (ChatMLFormatter._generate_assistant_response str result
                           metric) ] |})
  /\ ChatMLFormatter.format_sample str result metric (question_variant + 4)
     = ChatMLFormatter.format_sample str result metric question_variant.
Proof.
  split; [apply format_sample_returns|].
  destruct (format_sample_returns str result metric question_variant) as [t [Ht ->]].
  destruct (format_sample_returns str result metric (question_variant + 4))
    as [t' [Ht' ->]].
  replace ((question_variant + 4) mod 4)%Z with (question_variant mod 4)%Z in Ht'.
  - rewrite Ht in Ht'. injection Ht' as <-. reflexivity.
  - rewrite <- (Z.mul_1_l 4) at 2. rewrite Z.mod_add by lia. reflexivity.
Qed.

Lemma turns_returns str (pairs : list (TriangulatedResult.t * MetricType)) :
  exists msgs,
    ChatMLFormatter.turns str pairs = Ret msgs
    /\ map ChatMLMessage.role msgs
       = flat_map (fun _ => ["user"; "assistant"]) pairs.
Proof.
  induction pairs as [|[r m] pairs [msgs [E R]]]; cbn [ChatMLFormatter.turns flat_map].
  - exists []. split; reflexivity.
  - destruct (nth_error_in_range (ChatMLFormatter.METRIC_QUESTIONS m) 0) as [t Ht].
    { rewrite questions_length. lia. }
    change 0%Z with (Z.of_nat 0). rewrite (getitem_nat _ 0%nat _ Ht).
    cbn [py_bind]. rewrite E. cbn [py_bind].
    eexists. split; [reflexivity|]. cbn [map app]. rewrite R. reflexivity.
Qed.

(** X19.  [format_multi_turn] never raises: it returns the system prompt
    followed by one user and one assistant message, in this order, for
    each result paired with a metric; results or metrics beyond the
    shorter list are dropped. *)
Theorem X19_format_multi_turn_shape str (results : list TriangulatedResult.t)
  (metrics : list MetricType) :
  exists msgs,
    ChatMLFormatter.format_multi_turn str results metrics
    = Ret {| ChatMLSample.messages :=
               message "system" ChatMLFormatter.SYSTEM_PROMPT :: msgs |}
    /\ map ChatMLMessage.role msgs
       = flat_map (fun _ => ["user"; "assistant"]) (combine results metrics)
    /\ List.length msgs
       = (2 * Nat.min (List.length results) (List.length metrics))%nat.
Proof.
  unfold ChatMLFormatter.format_multi_turn.
  destruct (turns_returns str (combine results metrics)) as [msgs [E R]].
  exists msgs. rewrite E. cbn [py_bind]. split; [reflexivity|]. split; [exact R|].
  rewrite <- (length_map ChatMLMessage.role), R, <- length_combine.
  clear. induction (combine results metrics) as [|x l IH]; cbn; [reflexivity|].
  rewrite IH. lia.
Qed.







Lemma response_with_estimate str (r : TriangulatedResult.t) (m : MetricType) (v : Q) :
  TriangulatedResult.consensus_value r = Some v ->
  states_estimate (ChatMLFormatter._generate_assistant_response str r m) v.
Proof.
  intros Hv. unfold ChatMLFormatter._generate_assistant_response, states_estimate.
  rewrite Hv.
  match goal with
  | |- context ["Based on " ++ ?S ++ ", " ++ ?C ++ "'s " ++ ?M ++ " " ++ _] =>
      exists (S ++ ", " ++ C ++ "'s " ++ M ++ " ")
  end.
  destruct m;
    repeat match goal with
      | |- context [if ?b then _ else _] => destruct b
      end;
    eexists; rewrite !append_assoc; reflexivity.
Qed.

(** X21.  The assistant declines exactly when triangulation found no
    data.  For a result [triangulate] returns with no source, the
    response is the fixed refusal naming the country and the metric and
    saying that no data is available; with at least one source, it
    states the consensus value as the estimate. *)
Theorem X21_response_declines_iff_no_data
  str tolerance_percent key w metric country_code start_year end_year log r log'
  (asked : MetricType) :
  triangulate tolerance_percent key w metric country_code start_year end_year log
    = (Ret r, log') ->
  (TriangulatedResult.sources_used r = [] ->
   ChatMLFormatter._generate_assistant_response str r asked
   = "Unable to provide a reliable estimate for " ++ TriangulatedResult.country r
     ++ "'s " ++ replace_char "_" " " (TriangulatedResult.metric r)
     ++ ". No data available from any source.")
  /\ (TriangulatedResult.sources_used r <> [] ->
      exists estimate,
        TriangulatedResult.consensus_value r = Some estimate
        /\ states_estimate
             (ChatMLFormatter._generate_assistant_response str r asked) estimate).
Proof.
  intros H. apply triangulate_inv in H. destruct H as [fd [wd [od [_ R]]]].
  apply reconcile_inv in R. cbn zeta in R.
  destruct R as [c [e [D [C [_ [_ [He [_ [_ [_ [S _]]]]]]]]]]].
  destruct (not_none [MacroDataPoint.value fd; MacroDataPoint.value wd;
                      MacroDataPoint.value od]) as [|x xs] eqn:N.
  - apply not_none_nil in N. destruct N as [N1 [N2 N3]].
    rewrite N1, N2, N3 in *. cbn in C, D, S.
    injection C as C. injection D as <- <-.
    split; [|intros Hne; rewrite S in Hne; contradiction].
    intros _. unfold ChatMLFormatter._generate_assistant_response.
    rewrite <- C, He. reflexivity.
  - destruct (calculate_consensus_middle (x :: xs)) as [mm [E _]]; [discriminate|].
    rewrite E in C. injection C as C.
    split.
    + intros Hs. rewrite S in Hs.
      destruct (MacroDataPoint.value fd), (MacroDataPoint.value wd),
        (MacroDataPoint.value od); cbn in Hs, N; discriminate.
    + intros _. exists mm. split; [symmetry; exact C|].
      apply response_with_estimate. symmetry. exact C.
Qed.

Lemma X21_response_declines_iff_no_data_witness :
  exists r log',
    triangulate 0.5 None world_offline INFLATION "USA" None None [] = (Ret r, log')
    /\ ChatMLFormatter._generate_assistant_response str_of_period r INFLATION
       = "Unable to provide a reliable estimate for United States's inflation. No data available from any source.".
Proof.
  eexists. eexists. split.
  - vm_compute. reflexivity.
  - refine (proj1 (X21_response_declines_iff_no_data str_of_period 0.5 None
                     world_offline INFLATION "USA" None None [] _ _ INFLATION eq_refl)
              eq_refl).
Defined.

(** * The generator *)

Lemma range_length (n : Z) : List.length (range n) = Z.to_nat n.
Proof. unfold range. now rewrite length_map, length_seq. Qed.

Lemma add_variants_total str (r : TriangulatedResult.t) (m : MetricType)
  (variants : list Z) (samples : list pyval) :
  exists extra,
    DatasetGenerator.add_variants str r m variants samples
    = ((samples ++ extra)%list, None)
    /\ List.length extra = List.length variants
    /\ Forall is_conversation extra.
Proof.
  revert samples. induction variants as [|v variants IH]; intros samples;
    cbn [DatasetGenerator.add_variants].
  - exists []. rewrite app_nil_r. repeat split. constructor.
  - destruct (format_sample_returns str r m v) as [t [_ ->]].
    destruct (IH (samples ++ [DatasetGenerator._sample_to_dict
                                {| ChatMLSample.messages :=
                                     [message "system" ChatMLFormatter.SYSTEM_PROMPT;
                                      message "user"
                                        (format t (TriangulatedResult.country r));
                                      message "assistant"
                                        (ChatMLFormatter._generate_assistant_response
                                           str r m)] |}])%list)
      as [extra [-> [L F]]].
    eexists (_ :: extra). rewrite <- app_assoc. split; [reflexivity|].
    split; [cbn; congruence|].
    constructor; [|exact F].
    do 3 eexists. split; reflexivity.
Qed.


Lemma combine_fst_snd {A B} (l : list (A * B)) :
  combine (map fst l) (map snd l) = l.
Proof. induction l as [|[a b] l IH]; cbn; congruence. Qed.

Lemma multi_turn_conversation str (cr : list (TriangulatedResult.t * MetricType)) :
  (1 <= List.length cr)%nat ->
  exists sample,
    ChatMLFormatter.format_multi_turn str (map fst cr) (map snd cr) = Ret sample
    /\ is_conversation (DatasetGenerator._sample_to_dict sample).
Proof.
  intros H. unfold ChatMLFormatter.format_multi_turn. rewrite combine_fst_snd.
  destruct cr as [|[r m] cr]; [cbn in H; lia|].
  cbn [ChatMLFormatter.turns].
  destruct (nth_error_in_range (ChatMLFormatter.METRIC_QUESTIONS m) 0) as [t Ht].
  { rewrite questions_length. lia. }
  change 0%Z with (Z.of_nat 0). rewrite (getitem_nat _ 0%nat _ Ht). cbn [py_bind].
  destruct (turns_returns str cr) as [msgs [-> _]]. cbn [py_bind].
  eexists. split; [reflexivity|].
  do 3 eexists. split; reflexivity.
Qed.

Lemma io_bind_run {A B} (m : io A) (k : A -> io B) (log : list Request) :
  io_bind m k log
  = match m log with
    | (Ret a, log') => k a log'
    | (Raise e, log') => (Raise e, log')
    end.
Proof. reflexivity. Qed.






Lemma metrics_loop_exact tol key str w country (metrics : list MetricType) (qv : Z)
  (samples : list pyval) (cr : list (TriangulatedResult.t * MetricType))
  (log : list Request) :
  (forall m c l, exists r, fst (triangulate tol key w m c None None l) = Ret r) ->
  exists extra new reqs,
    DatasetGenerator.metrics_loop tol key str w country metrics qv samples cr log
    = (Ret ((samples ++ extra)%list, (cr ++ new)%list), (log ++ reqs)%list)
    /\ List.length extra = (List.length metrics * Z.to_nat qv)%nat
    /\ List.length new = List.length metrics
    /\ List.length reqs = (3 * List.length metrics)%nat.
Proof.
  intros H. revert samples cr log.
  induction metrics as [|m metrics IH]; intros samples cr log;
    cbn [DatasetGenerator.metrics_loop].
  - exists [], [], []. unfold io_lift. rewrite !app_nil_r. repeat split.
  - destruct (triangulate_requests tol key w m country None None log)
      as [reqs [L [_ [_ R]]]].
    destruct (H m country log) as [r Hr].
    specialize (R r Hr).
    destruct (triangulate tol key w m country None None log) as [o log1].
    cbn [fst snd] in *. subst o log1.
    destruct (add_variants_total str r m (range qv) samples) as [extra [-> [Le _]]].
    rewrite range_length in Le.
    destruct (IH (samples ++ extra)%list (cr ++ [(r, m)])%list (log ++ reqs)%list)
      as [extra' [new' [reqs' [-> [Lx [Ln Lr]]]]]].
    exists (extra ++ extra')%list, ((r, m) :: new')%list, (reqs ++ reqs')%list.
    rewrite <- !app_assoc. cbn [app]. split; [reflexivity|].
    rewrite !length_app. cbn [List.length]. repeat split; lia.
Qed.

Lemma countries_loop_exact tol key str w (countries : list string)
  (metrics : list MetricType) (qv : Z) (multi : bool)
  (samples : list pyval) (log : list Request) :
  (forall m c l, exists r, fst (triangulate tol key w m c None None l) = Ret r) ->
  exists extra reqs,
    DatasetGenerator.countries_loop tol key str w countries metrics qv multi samples log
    = (Ret (samples ++ extra)%list, (log ++ reqs)%list)
    /\ List.length extra
       = (List.length countries
          * (List.length metrics * Z.to_nat qv
             + (if multi && (2 <=? List.length metrics)%nat then 1 else 0)))%nat
    /\ List.length reqs = (List.length countries * (3 * List.length metrics))%nat.
Proof.
  intros H. revert samples log.
  induction countries as [|c countries IH]; intros samples log;
    cbn [DatasetGenerator.countries_loop].
  - exists [], []. unfold io_lift. rewrite !app_nil_r. repeat split.
  - rewrite io_bind_run.
    destruct (metrics_loop_exact tol key str w c metrics qv samples [] log H)
      as [extra [new [reqs [-> [Le [Ln Lr]]]]]].
    cbn [app]. rewrite io_bind_run. rewrite Ln.
    destruct (multi && (2 <=? List.length metrics)%nat) eqn:Em.
    + apply andb_prop in Em. destruct Em as [_ Em]. apply Nat.leb_le in Em.
      destruct (multi_turn_conversation str new) as [sample [Es _]]; [lia|].
      rewrite io_bind_run. unfold io_lift at 1. rewrite Es. unfold io_lift at 1.
      destruct (IH ((samples ++ extra)
                    ++ [DatasetGenerator._sample_to_dict sample])%list
                  (log ++ reqs)%list) as [extra' [reqs' [-> [Lx Lq]]]].
      exists ((extra ++ [DatasetGenerator._sample_to_dict sample]) ++ extra')%list,
        (reqs ++ reqs')%list.
      rewrite <- !app_assoc. split; [reflexivity|].
      rewrite !length_app. cbn [List.length app]. split; nia.
    + unfold io_lift at 1.
      destruct (IH (samples ++ extra)%list (log ++ reqs)%list)
        as [extra' [reqs' [-> [Lx Lq]]]].
      exists (extra ++ extra')%list, (reqs ++ reqs')%list.
      rewrite <- !app_assoc. split; [reflexivity|].
      rewrite !length_app. cbn [List.length]. split; nia.
Qed.

(** X23.  In a world where [triangulate] never raises, [generate_dataset]
    returns exactly [question_variants] samples per country and metric
    (none when the number is zero or negative), plus one multi-turn
    sample per country when it is asked for and there are at least two
    metrics, and sends exactly three requests per country and metric. *)
Theorem X23_generate_dataset_sample_count
  tolerance_percent key str w (countries : list string) (metrics : list MetricType)
  (question_variants : Z) (include_multi_turn : bool) (log : list Request) :
  (forall m c l,
      exists r, fst (triangulate tolerance_percent key w m c None None l) = Ret r) ->
  exists samples reqs,
    DatasetGenerator.generate_dataset tolerance_percent key str w countries metrics
      question_variants include_multi_turn log
    = (Ret samples, (log ++ reqs)%list)
    /\ List.length samples
       = (List.length countries
          * (List.length metrics * Z.to_nat question_variants
             + (if include_multi_turn && (2 <=? List.length metrics)%nat
                then 1 else 0)))%nat
    /\ List.length reqs = (List.length countries * (3 * List.length metrics))%nat.
Proof.
  intros H. unfold DatasetGenerator.generate_dataset.
  destruct (countries_loop_exact tolerance_percent key str w countries metrics
              question_variants include_multi_turn [] log H)
    as [extra [reqs [E [Le Lr]]]].
  exists extra, reqs. split; [exact E|]. split; assumption.
Qed.

Lemma X23_generate_dataset_sample_count_witness :
  exists samples reqs,
    DatasetGenerator.generate_dataset 0.5 None str_of_period world_offline
      ["USA"; "IND"] [GDP_GROWTH; INFLATION] 2 true []
    = (Ret samples, reqs)
    /\ List.length samples = 10%nat
    /\ List.length reqs = 12%nat.
Proof.
  destruct (X23_generate_dataset_sample_count 0.5 None str_of_period world_offline
              ["USA"; "IND"] [GDP_GROWTH; INFLATION] 2 true [])
    as [samples [reqs [E [Ls Lr]]]].
  - intros m c l. eexists. reflexivity.
  - exists samples, reqs. split; [exact E|]. split; [exact Ls | exact Lr].
Defined.
